(** * Tenant resolution and session authentication core

    A shallow embedding of the TypeScript sources of the multi-tenant blog
    application (lib/session.ts, lib/tenant.ts, lib/tenant-context.ts,
    lib/db.ts, lib/auth.ts, middleware.ts, lib/auth-server.ts and the login
    and signup route handlers), followed by the properties of the
    specification that concern them.

    Conventions.
    - A JavaScript string is the sequence of its code units, here a
      [string] of one-byte characters: the code units U+0000 to U+00FF.
      The value of a header is such a string (a header value is a byte
      string, one code unit per byte); [toLowerCase], [trim] and [\s] are
      what ECMAScript defines on this range, which they do not leave.
    - [Date] values are integers ([Z]), milliseconds since the epoch; the
      offset of local time from UTC is the host's, and is part of the
      world.
    - An [async] function that can read or write the store, the cookie jar
      or the clock is a state transformer over [World] that either returns
      a value or throws ([Outcome]). *)

From Stdlib Require Import ZArith Lia Bool Ascii String List.
From stdpp Require Import base option list gmap strings.

Local Open Scope string_scope.
Local Open Scope Z_scope.

(* ===================================================================== *)
(** ** JavaScript string primitives *)
(* ===================================================================== *)

(** A character is a code unit below U+0100, the character with that
    number: U+00A0 is [ascii_of_nat 160], not a sequence of bytes that
    encodes it. *)
Module JsString.

(** [s.split(sep)] for a one-character separator: the pieces between the
    occurrences of [sep]; the result is never empty. *)
Fixpoint split (sep : ascii) (s : string) : list string :=
  match s with
  | EmptyString => [EmptyString]
  | String c r =>
      if Ascii.eqb c sep then EmptyString :: split sep r
      else match split sep r with
           | [] => [String c EmptyString]
           | p :: ps => String c p :: ps
           end
  end.

(** [arr[0]] on an array of strings that is known to be non-empty. *)
Definition first (arr : list string) : string :=
  match arr with
  | [] => EmptyString
  | x :: _ => x
  end.

(** Number of occurrences of a character. *)
Fixpoint count (c : ascii) (s : string) : nat :=
  match s with
  | EmptyString => 0%nat
  | String d r => ((if Ascii.eqb d c then 1 else 0) + count c r)%nat
  end.

(** The lower-case mapping of a code unit below U+0100: the capitals A to
    Z (U+0041 to U+005A) and the capitals U+00C0 to U+00DE, the
    multiplication sign U+00D7 apart, move to the letter thirty-two places
    on; no other code unit of the range has a mapping. *)
Definition lower_char (c : ascii) : ascii :=
  let n := nat_of_ascii c in
  if (((65 <=? n)%nat && (n <=? 90)%nat)
      || ((192 <=? n)%nat && (n <=? 222)%nat && negb (n =? 215)%nat))%bool
  then ascii_of_nat (n + 32) else c.

(** [s.toLowerCase()]. *)
Fixpoint toLowerCase (s : string) : string :=
  match s with
  | EmptyString => EmptyString
  | String c r => String (lower_char c) (toLowerCase r)
  end.

(** White space and line terminators as [trim] and [\s] see them, below
    U+0100: TAB, LF, VT, FF, CR, SPACE and NO-BREAK SPACE (U+00A0). *)
Definition is_space (c : ascii) : bool :=
  let n := nat_of_ascii c in
  (((9 <=? n)%nat && (n <=? 13)%nat) || (n =? 32)%nat || (n =? 160)%nat)%bool.

Fixpoint trimStart (s : string) : string :=
  match s with
  | EmptyString => EmptyString
  | String c r => if is_space c then trimStart r else s
  end.

Fixpoint all_space (s : string) : bool :=
  match s with
  | EmptyString => true
  | String c r => (is_space c && all_space r)%bool
  end.

Fixpoint trimEnd (s : string) : string :=
  match s with
  | EmptyString => EmptyString
  | String c r => if all_space s then EmptyString else String c (trimEnd r)
  end.

(** [s.trim()]. *)
Definition trim (s : string) : string := trimEnd (trimStart s).

(** Truthiness of a string value: only the empty string is falsy. *)
Definition truthy (s : string) : bool := negb (String.eqb s "").

(** Truthiness of [string | undefined] and [string | null]. *)
Definition truthy_opt (o : option string) : bool :=
  match o with
  | None => false
  | Some s => truthy s
  end.

End JsString.

(* ===================================================================== *)
(** ** Tenant resolver: middleware.ts and lib/auth-server.ts *)
(* ===================================================================== *)

(** The loopback aliases the resolver knows. *)
Definition is_loopback (hostname : string) : Prop :=
  hostname = "localhost" \/ hostname = "127.0.0.1".

(** [extractSubdomain] of middleware.ts; lib/auth-server.ts carries a copy
    with the same body. *)
Definition extractSubdomain (hostname : string) : option string :=
  let hostWithoutPort := JsString.first (JsString.split ":" hostname) in
  if (String.eqb hostWithoutPort "localhost"
      || String.eqb hostWithoutPort "127.0.0.1")%bool
  then None
  else
    let parts := JsString.split "." hostWithoutPort in
    if (3 <=? length parts)%nat then Some (JsString.first parts) else None.

(** [getSubdomain], the helper of the alternative edge middleware: the same
    steps, but the label is lower-cased before it is returned. *)
Definition getSubdomain (hostname : string) : option string :=
  let host := JsString.first (JsString.split ":" hostname) in
  if (String.eqb host "localhost" || String.eqb host "127.0.0.1")%bool
  then None
  else
    let parts := JsString.split "." host in
    if (3 <=? length parts)%nat
    then Some (JsString.toLowerCase (JsString.first parts))
    else None.

(* ===================================================================== *)
(** ** Regular expressions, for the e-mail shape test of the signup route *)
(* ===================================================================== *)

Module Regex.

Inductive re : Type :=
| Void                              (* matches nothing *)
| Eps                               (* matches the empty string *)
| Class (p : ascii -> bool)         (* one character of a class *)
| Seq (a b : re)
| Alt (a b : re)
| Star (a : re).

Definition Plus (a : re) : re := Seq a (Star a).

Fixpoint nullable (r : re) : bool :=
  match r with
  | Void => false
  | Eps => true
  | Class _ => false
  | Seq a b => (nullable a && nullable b)%bool
  | Alt a b => (nullable a || nullable b)%bool
  | Star _ => true
  end.

(** Brzozowski derivative of [r] by the character [c]. *)
Fixpoint deriv (c : ascii) (r : re) : re :=
  match r with
  | Void => Void
  | Eps => Void
  | Class p => if p c then Eps else Void
  | Seq a b =>
      if nullable a then Alt (Seq (deriv c a) b) (deriv c b)
      else Seq (deriv c a) b
  | Alt a b => Alt (deriv c a) (deriv c b)
  | Star a => Seq (deriv c a) (Star a)
  end.

(** [/^r$/.test(s)]: the whole of [s] matches [r]. *)
Fixpoint test (r : re) (s : string) : bool :=
  match s with
  | EmptyString => nullable r
  | String c t => test (deriv c r) t
  end.

End Regex.

(* ===================================================================== *)
(** ** Data model: the rows of the Prisma schema *)
(* ===================================================================== *)

(** Modelled from the spec: prisma/schema.prisma is not among the sources;
    the rows follow the data model of the specification and the fields the
    handlers read and write (ids are strings, UUIDs drawn by the store;
    [subdomain], [token] and the pair [(email, tenantId)] are unique). *)

Module Tenant.
Record t : Type := mk
  { id : string; subdomain : string; name : string;
    createdAt : Z; updatedAt : Z }.
End Tenant.

Module User.
Record t : Type := mk
  { id : string; email : string; password : string;
    name : option string; tenantId : string }.
End User.

(** A session row. Its own primary key is selected by none of the paths
    below and is left out; [token] is the unique key of the table. *)
Module Session.
Record t : Type := mk
  { userId : string; tenantId : string; token : string; expiresAt : Z }.
End Session.

(** What [getSession] hands back: [{ userId, tenantId, token }]. *)
Module SessionData.
Record t : Type := mk
  { userId : string; tenantId : string; token : string }.
End SessionData.

(** The [select]ion of [getSessionUser]: [{ id, email, name, tenantId }]. *)
Module SessionUser.
Record t : Type := mk
  { id : string; email : string; name : option string; tenantId : string }.
End SessionUser.

(* ===================================================================== *)
(** ** The world a request handler runs in *)
(* ===================================================================== *)

(** The store (three tables), the [session_token] cookie of the caller,
    the clock read by [new Date()], the time zone of the host, the bytes
    [crypto.randomBytes] and the store's id generator will produce, and a
    schedule of storage faults: the n-th store call from now on fails when
    the n-th entry is [true] (no entry: it does not fail).

    [LocalTZA t isUTC] is ECMAScript's abstract operation of that name:
    the offset of local time from UTC in milliseconds, at the UTC time [t]
    when [isUTC] holds and at the local time [t] otherwise. *)
Record World : Type := mkWorld
  { tenants : list Tenant.t;
    users : list User.t;
    sessions : gmap string Session.t;
    cookie : option string;
    now : Z;
    LocalTZA : Z -> bool -> Z;
    random : nat -> ascii;
    rpos : nat;
    faults : list bool }.

Definition set_users (us : list User.t) (w : World) : World :=
  mkWorld (tenants w) us (sessions w) (cookie w) (now w) (LocalTZA w)
          (random w) (rpos w) (faults w).

Definition set_sessions (ss : gmap string Session.t) (w : World) : World :=
  mkWorld (tenants w) (users w) ss (cookie w) (now w) (LocalTZA w)
          (random w) (rpos w) (faults w).

Definition set_cookie (c : option string) (w : World) : World :=
  mkWorld (tenants w) (users w) (sessions w) c (now w) (LocalTZA w)
          (random w) (rpos w) (faults w).

Definition set_now (t : Z) (w : World) : World :=
  mkWorld (tenants w) (users w) (sessions w) (cookie w) t (LocalTZA w)
          (random w) (rpos w) (faults w).

Definition set_rpos (p : nat) (w : World) : World :=
  mkWorld (tenants w) (users w) (sessions w) (cookie w) (now w) (LocalTZA w)
          (random w) p (faults w).

Definition set_faults (fs : list bool) (w : World) : World :=
  mkWorld (tenants w) (users w) (sessions w) (cookie w) (now w) (LocalTZA w)
          (random w) (rpos w) fs.

(** The next store call is not scheduled to fail. *)
Definition next_ok (w : World) : bool :=
  match faults w with
  | true :: _ => false
  | _ => true
  end.

(** The world once a store call has met the fault schedule. *)
Definition pop_fault (w : World) : World :=
  match faults w with
  | [] => w
  | _ :: fs => set_faults fs w
  end.

(** What a caller can observe of a world from one request to the next:
    the three tables and the cookie. *)
Definition observable (w : World)
  : list Tenant.t * list User.t * gmap string Session.t * option string :=
  (tenants w, users w, sessions w, cookie w).

(** What a rejected promise carries. *)
Inductive Error : Type :=
| StorageError          (* the store could not be reached or failed *)
| UniqueConstraint      (* Prisma P2002 *)
| RecordNotFound        (* Prisma P2025 *)
| SyntaxError.          (* request.json() on a body that is not JSON *)

Inductive Outcome (A : Type) : Type :=
| Ok (a : A)
| Throw (e : Error).
Arguments Ok {A} a.
Arguments Throw {A} e.

Definition M (A : Type) : Type := World -> Outcome A * World.

Definition ret {A} (a : A) : M A := fun w => (Ok a, w).

Definition throw {A} (e : Error) : M A := fun w => (Throw e, w).

Definition bind {A B} (m : M A) (k : A -> M B) : M B :=
  fun w =>
    match m w with
    | (Ok a, w') => k a w'
    | (Throw e, w') => (Throw e, w')
    end.

(** [try { m } catch (error) { h error }]. *)
Definition try_catch {A} (m : M A) (h : Error -> M A) : M A :=
  fun w =>
    match m w with
    | (Ok a, w') => (Ok a, w')
    | (Throw e, w') => h e w'
    end.

Declare Scope js_scope.
Delimit Scope js_scope with js.
Notation "'const' x '<-' m ;; k" := (bind m (fun x => k))
  (at level 10, x name, m at level 99, k at level 200) : js_scope.
Notation "'await' m ;; k" := (bind m (fun _ => k))
  (at level 10, m at level 99, k at level 200) : js_scope.
Local Open Scope js_scope.

(** [new Date()]. *)
Definition new_Date : M Z := fun w => (Ok (now w), w).

(** [cookieStore.get('session_token')?.value]. *)
Definition cookies_get : M (option string) := fun w => (Ok (cookie w), w).

(** [cookieStore.set('session_token', token, ...)]. Only the value is kept:
    none of the attributes is read back by the server. *)
Definition cookies_set (token : string) : M unit :=
  fun w => (Ok tt, set_cookie (Some token) w).

(** [cookieStore.delete('session_token')]. *)
Definition cookies_delete : M unit :=
  fun w => (Ok tt, set_cookie None w).

(** [crypto.randomBytes(n)]: the next [n] bytes of the random source. *)
Definition randomBytes (n : nat) : M (list ascii) :=
  fun w => (Ok (map (random w) (seq (rpos w) n)), set_rpos (rpos w + n)%nat w).

Definition hex_digit (n : nat) : ascii :=
  nth n ["0"; "1"; "2"; "3"; "4"; "5"; "6"; "7"; "8"; "9";
         "a"; "b"; "c"; "d"; "e"; "f"]%char "0"%char.

(** [buffer.toString('hex')]: two lower-case hex digits per byte. *)
Fixpoint toHex (bytes : list ascii) : string :=
  match bytes with
  | [] => EmptyString
  | b :: r =>
      let n := nat_of_ascii b in
      String (hex_digit (n / 16)) (String (hex_digit (n mod 16)) (toHex r))
  end.

(* ===================================================================== *)
(** ** The Prisma client, as far as the handlers call it *)
(* ===================================================================== *)

(** Modelled from the spec: the Prisma client (lib/prisma.ts and the
    generated client) is not among the sources. The store is consumed as
    typed CRUD over the three tables: [findUnique] returns the row with
    the given unique key or [null], [create] rejects a row that breaks a
    unique key, [delete] rejects when no row matches, and any call may
    fail for reasons of its own. Every call first meets the fault
    schedule. *)
Definition prisma {A} (op : M A) : M A :=
  fun w =>
    match faults w with
    | true :: fs => (Throw StorageError, set_faults fs w)
    | false :: fs => op (set_faults fs w)
    | [] => op w
    end.

(** The rows a unique [where] selects. *)
Definition tenant_by_subdomain (subdomain : string) (rows : list Tenant.t)
  : option Tenant.t :=
  List.find (fun t => String.eqb (Tenant.subdomain t) subdomain) rows.

Definition user_by_id (id : string) (rows : list User.t) : option User.t :=
  List.find (fun u => String.eqb (User.id u) id) rows.

Definition user_by_email_tenantId (email tenantId : string)
    (rows : list User.t) : option User.t :=
  List.find (fun u => (String.eqb (User.email u) email
                       && String.eqb (User.tenantId u) tenantId)%bool) rows.

(** The unique keys of the user table: the id or the (email, tenantId)
    pair of [row] is already taken. *)
Definition clashes (row : User.t) (rows : list User.t) : bool :=
  existsb (fun u => (String.eqb (User.id u) (User.id row)
                     || (String.eqb (User.email u) (User.email row)
                         && String.eqb (User.tenantId u) (User.tenantId row)))%bool)
          rows.

Module prisma_tenant.

(** [prisma.tenant.findUnique({ where: { subdomain } })]. *)
Definition findUnique (subdomain : string) : M (option Tenant.t) :=
  prisma (fun w => (Ok (tenant_by_subdomain subdomain (tenants w)), w)).

End prisma_tenant.

Module prisma_session.

(** [prisma.session.findUnique({ where: { token } })]. *)
Definition findUnique (token : string) : M (option Session.t) :=
  prisma (fun w => (Ok (sessions w !! token), w)).

(** [prisma.session.create({ data })]; [token] is unique. *)
Definition create (data : Session.t) : M Session.t :=
  prisma (fun w =>
    match sessions w !! Session.token data with
    | Some _ => (Throw UniqueConstraint, w)
    | None =>
        (Ok data, set_sessions (<[Session.token data := data]> (sessions w)) w)
    end).

(** [prisma.session.delete({ where: { token } })]: rejects when no row has
    that token. *)
Definition delete (token : string) : M Session.t :=
  prisma (fun w =>
    match sessions w !! token with
    | None => (Throw RecordNotFound, w)
    | Some row => (Ok row, set_sessions (base.delete token (sessions w)) w)
    end).

End prisma_session.

Module prisma_user.

(** [prisma.user.findUnique({ where: { id } })]. *)
Definition findUnique_id (id : string) : M (option User.t) :=
  prisma (fun w => (Ok (user_by_id id (users w)), w)).

(** [prisma.user.findUnique({ where: { email_tenantId: { email, tenantId } } })]. *)
Definition findUnique_email_tenantId (email tenantId : string)
  : M (option User.t) :=
  prisma (fun w => (Ok (user_by_email_tenantId email tenantId (users w)), w)).

(** [prisma.user.create({ data: { ...data, tenant: { connect: { id } } } })].
    The store draws the id of the new row (sixteen random bytes); [id] and
    the pair [(email, tenantId)] are unique. *)
Definition create (email password : string) (name : option string)
    (tenantId : string) : M User.t :=
  prisma (
    const bytes <- randomBytes 16 ;;
    let row := User.mk (toHex bytes) email password name tenantId in
    fun w =>
      if clashes row (users w) then (Throw UniqueConstraint, w)
      else (Ok row, set_users (users w ++ [row]) w)).

End prisma_user.

(* ===================================================================== *)
(** ** lib/db.ts: tenant-scoped user helpers *)
(* ===================================================================== *)

Module dbUser.

Definition findByEmail (tenantId email : string) : M (option User.t) :=
  prisma_user.findUnique_email_tenantId email tenantId.

Definition create (tenantId : string) (email password : string)
    (name : option string) : M User.t :=
  prisma_user.create email password name tenantId.

End dbUser.

(* ===================================================================== *)
(** ** lib/tenant.ts and lib/tenant-context.ts *)
(* ===================================================================== *)

(** [subdomain.toLowerCase().trim()], the key the directory looks up. *)
Definition normalized (subdomain : string) : string :=
  JsString.trim (JsString.toLowerCase subdomain).

Definition getTenantBySubdomain (subdomain : string) : M (option Tenant.t) :=
  try_catch
    (const tenant <-
       prisma_tenant.findUnique (normalized subdomain) ;;
     ret tenant)
    (fun _ => ret None).

Definition tenantExists (subdomain : string) : M bool :=
  const tenant <- getTenantBySubdomain subdomain ;;
  ret (match tenant with Some _ => true | None => false end).

(** The parts of a [NextRequest] the handlers read: the [host] and
    [x-tenant-subdomain] headers, and the body as [request.json()] parses
    it ([None]: not JSON). The strings of a body are those whose code
    units lie in the range of the string model. *)
Module Body.
Record t : Type := mk
  { email : option string; password : option string; name : option string }.
End Body.

Record NextRequest : Type := mkRequest
  { host : option string;
    x_tenant_subdomain : option string;
    json : option Body.t }.

Definition request_json (request : NextRequest) : M Body.t :=
  match json request with
  | Some b => ret b
  | None => throw SyntaxError
  end.

Definition getTenantFromRequest (request : NextRequest) : M (option Tenant.t) :=
  match x_tenant_subdomain request with
  | Some subdomain =>
      if JsString.truthy subdomain then getTenantBySubdomain subdomain
      else ret None
  | None => ret None
  end.

(* ===================================================================== *)
(** ** lib/session.ts *)
(* ===================================================================== *)

Definition SESSION_EXPIRATION_DAYS : Z := 30.

(** Milliseconds in a day, ECMAScript's [msPerDay]. *)
Definition MS_PER_DAY : Z := 24 * 60 * 60 * 1000.

(** ECMAScript's [Day], [TimeWithinDay] and [MakeDate] on time values. *)
Definition Day (t : Z) : Z := t / MS_PER_DAY.

Definition TimeWithinDay (t : Z) : Z := t mod MS_PER_DAY.

Definition MakeDate (day time : Z) : Z := day * MS_PER_DAY + time.

(** The time value a [Date] holds after [d.setDate(d.getDate() + n)], from
    the one it held, [time], in a zone with the offsets [tza]. [getDate]
    is the day of the month of the local time [t = LocalTime(time)];
    [setDate] rebuilds the local time from the year and the month of [t],
    the new day of the month and the time within the day of [t], and turns
    it back with [UTC]. A day of the month past the end of the month runs
    on into the months that follow, so the day that is built lies [n] days
    after the day of [t]. ([TimeClip] is left out: it only acts some
    270000 years from the epoch.) *)
Definition plus_days (tza : Z -> bool -> Z) (n time : Z) : Z :=
  let t := time + tza time true in
  let newDate := MakeDate (Day t + n) (TimeWithinDay t) in
  newDate - tza newDate false.

(** [d.setDate(d.getDate() + n)] in the zone of the host. *)
Definition setDate_getDate_plus (n time : Z) : M Z :=
  fun w => (Ok (plus_days (LocalTZA w) n time), w).

(** The token the next [createSession] will draw. *)
Definition next_token (w : World) : string :=
  toHex (map (random w) (seq (rpos w) 32)).

Definition generateSessionToken : M string :=
  const bytes <- randomBytes 32 ;;
  ret (toHex bytes).

Definition createSession (userId tenantId : string) : M string :=
  const token <- generateSessionToken ;;
  const date <- new_Date ;;
  const expiresAt <- setDate_getDate_plus SESSION_EXPIRATION_DAYS date ;;
  await prisma_session.create (Session.mk userId tenantId token expiresAt) ;;
  await cookies_set token ;;
  ret token.

Definition deleteSession (token : string) : M unit :=
  try_catch
    (await prisma_session.delete token ;; ret tt)
    (fun _ => ret tt).

(** [tenantId && session.tenantId !== tenantId]: an expected tenant was
    supplied, is truthy, and the row carries another one. *)
Definition tenant_mismatch (tenantId : option string) (session : Session.t)
  : bool :=
  (JsString.truthy_opt tenantId
   && negb (String.eqb (Session.tenantId session) (default "" tenantId)))%bool.

(** [{ userId: session.userId, tenantId: session.tenantId,
      token: session.token }]. *)
Definition identity_of (session : Session.t) : SessionData.t :=
  SessionData.mk (Session.userId session) (Session.tenantId session)
                 (Session.token session).

(** [tenantId] is the optional argument: [None] when it is omitted. *)
Definition getSession (tenantId : option string) : M (option SessionData.t) :=
  try_catch
    (const token <- cookies_get ;;
     match token with
     | None => ret None
     | Some token =>
       if negb (JsString.truthy token) then ret None
       else
         const session <- prisma_session.findUnique token ;;
         match session with
         | None => ret None
         | Some session =>
           const date <- new_Date ;;
           if Session.expiresAt session <? date then
             await deleteSession token ;;
             ret None
           else if tenant_mismatch tenantId session then ret None
           else ret (Some (identity_of session))
         end
     end)
    (fun _ => ret None).

Definition deleteCurrentSession : M unit :=
  try_catch
    (const token <- cookies_get ;;
     await (if JsString.truthy_opt token
            then deleteSession (default "" token)
            else ret tt) ;;
     cookies_delete)
    (fun _ => ret tt).

(** [select: { id: true, email: true, name: true, tenantId: true }]. *)
Definition selected (user : User.t) : SessionUser.t :=
  SessionUser.mk (User.id user) (User.email user) (User.name user)
                 (User.tenantId user).

Definition getSessionUser (tenantId : string) : M (option SessionUser.t) :=
  const session <- getSession (Some tenantId) ;;
  match session with
  | None => ret None
  | Some session =>
      const user <- prisma_user.findUnique_id (SessionData.userId session) ;;
      match user with
      | None => ret None
      | Some user =>
          if negb (String.eqb (User.tenantId user) tenantId) then ret None
          else ret (Some (selected user))
      end
  end.

(* ===================================================================== *)
(** ** lib/auth.ts *)
(* ===================================================================== *)

Definition getAuthenticatedUser (request : NextRequest)
  : M (option SessionUser.t) :=
  const tenant <- getTenantFromRequest request ;;
  match tenant with
  | None => ret None
  | Some tenant =>
      const user <- getSessionUser (Tenant.id tenant) ;;
      ret user
  end.

Definition isAuthenticated (request : NextRequest) : M bool :=
  const user <- getAuthenticatedUser request ;;
  ret (match user with Some _ => true | None => false end).

(* ===================================================================== *)
(** ** Route handlers: app/api/auth/login and app/api/auth/signup *)
(* ===================================================================== *)

(** The user as the responses show it: [{ id, email, name }]. *)
Module PublicUser.
Record t : Type := mk { id : string; email : string; name : option string }.
End PublicUser.

(** The JSON documents the two handlers answer with. *)
Inductive Json : Type :=
| JsonError (error : string)                       (* { error } *)
| JsonLogin (user : PublicUser.t)                  (* { success: true, user } *)
| JsonSignup (message : string) (user : PublicUser.t).
                                        (* { success: true, message, user } *)

(** [NextResponse.json(body, { status })]. *)
Record NextResponse : Type := mkResponse { body : Json; status : Z }.

(** Modelled from the spec: lib/password.ts is not among the sources; its
    two functions are consumed as a capability, [hash(plaintext) -> digest]
    and [verify(plaintext, digest) -> bool]. *)
Class Password : Type :=
  { hashPassword : string -> string;
    comparePassword : string -> string -> bool }.

(** The answer to a login that is turned down. *)
Definition invalid_credentials : NextResponse :=
  mkResponse (JsonError "Invalid email or password") 401.

Module Login.
Section Handler.
Context `{Password}.

Definition POST (request : NextRequest) : M NextResponse :=
  try_catch
    (const tenant <- getTenantFromRequest request ;;
     match tenant with
     | None => ret (mkResponse (JsonError "Tenant not found") 404)
     | Some tenant =>
       const body <- request_json request ;;
       if (negb (JsString.truthy_opt (Body.email body))
           || negb (JsString.truthy_opt (Body.password body)))%bool
       then ret (mkResponse (JsonError "Email and password are required") 400)
       else
         let email := default "" (Body.email body) in
         let password := default "" (Body.password body) in
         const user <- dbUser.findByEmail (Tenant.id tenant) email ;;
         match user with
         | None => ret (mkResponse (JsonError "Invalid email or password") 401)
         | Some user =>
           let isPasswordValid := comparePassword password (User.password user) in
           if negb isPasswordValid
           then ret (mkResponse (JsonError "Invalid email or password") 401)
           else
             await createSession (User.id user) (Tenant.id tenant) ;;
             ret (mkResponse
                    (JsonLogin (PublicUser.mk (User.id user) (User.email user)
                                              (User.name user)))
                    200)
         end
     end)
    (fun _ => ret (mkResponse (JsonError "Internal server error") 500)).

End Handler.
End Login.

Module Signup.
Section Handler.
Context `{Password}.

Definition not_space_at (c : ascii) : bool :=
  negb (JsString.is_space c || Ascii.eqb c "@")%bool.

(** [/^[^\s@]+@[^\s@]+\.[^\s@]+$/]. *)
Definition emailRegex : Regex.re :=
  Regex.Seq (Regex.Plus (Regex.Class not_space_at))
    (Regex.Seq (Regex.Class (Ascii.eqb "@"))
       (Regex.Seq (Regex.Plus (Regex.Class not_space_at))
          (Regex.Seq (Regex.Class (Ascii.eqb "."))
             (Regex.Plus (Regex.Class not_space_at))))).

(** [name?.trim() || null]. *)
Definition trimmed_name (name : option string) : option string :=
  match name with
  | None => None
  | Some n => if JsString.truthy (JsString.trim n)
              then Some (JsString.trim n) else None
  end.

Definition POST (request : NextRequest) : M NextResponse :=
  try_catch
    (const tenant <- getTenantFromRequest request ;;
     match tenant with
     | None => ret (mkResponse (JsonError "Tenant not found") 404)
     | Some tenant =>
       const body <- request_json request ;;
       if (negb (JsString.truthy_opt (Body.email body))
           || negb (JsString.truthy_opt (Body.password body)))%bool
       then ret (mkResponse (JsonError "Email and password are required") 400)
       else
         let email := default "" (Body.email body) in
         let password := default "" (Body.password body) in
         if negb (Regex.test emailRegex email)
         then ret (mkResponse (JsonError "Invalid email format") 400)
         else if (String.length password <? 6)%nat
         then ret (mkResponse
                     (JsonError "Password must be at least 6 characters long")
                     400)
         else
           const existingUser <- dbUser.findByEmail (Tenant.id tenant) email ;;
           match existingUser with
           | Some _ =>
               ret (mkResponse (JsonError "User with this email already exists")
                               409)
           | None =>
               let hashedPassword := hashPassword password in
               const user <-
                 dbUser.create (Tenant.id tenant)
                   (JsString.trim (JsString.toLowerCase email))
                   hashedPassword
                   (trimmed_name (Body.name body)) ;;
               await createSession (User.id user) (Tenant.id tenant) ;;
               ret (mkResponse
                      (JsonSignup "User created successfully"
                         (PublicUser.mk (User.id user) (User.email user)
                                        (User.name user)))
                      201)
           end
     end)
    (fun _ => ret (mkResponse (JsonError "Internal server error") 500)).

End Handler.
End Signup.

(** The answers of the signup handler. *)
Definition r404 : NextResponse := mkResponse (JsonError "Tenant not found") 404.
Definition r400_required : NextResponse :=
  mkResponse (JsonError "Email and password are required") 400.
Definition r400_email : NextResponse :=
  mkResponse (JsonError "Invalid email format") 400.
Definition r400_password : NextResponse :=
  mkResponse (JsonError "Password must be at least 6 characters long") 400.
Definition r409 : NextResponse :=
  mkResponse (JsonError "User with this email already exists") 409.
Definition r500 : NextResponse :=
  mkResponse (JsonError "Internal server error") 500.
Definition r201 (user : User.t) : NextResponse :=
  mkResponse
    (JsonSignup "User created successfully"
       (PublicUser.mk (User.id user) (User.email user) (User.name user)))
    201.

(** The row [dbUser.create] is about to write. *)
Definition new_user (tenantId email password : string) (name : option string)
    (w : World) : User.t :=
  User.mk (toHex (map (random w) (seq (rpos w) 16))) email password name
          tenantId.

(* ===================================================================== *)
(** ** A small world to run the handlers in *)
(* ===================================================================== *)

Module Sample.

Definition acme : Tenant.t := Tenant.mk "t-acme" "acme" "Acme Corp" 0 0.
Definition other : Tenant.t := Tenant.mk "t-other" "other" "Other Inc" 0 0.

Definition alice : User.t :=
  User.mk "u-alice" "alice@x.com" "h:secret1" (Some "Alice") "t-acme".

Definition token : string := "5e55104e".

(** Alice's session under acme, good until time 5000. *)
Definition row : Session.t := Session.mk "u-alice" "t-acme" token 5000.

Definition dice (n : nat) : ascii := ascii_of_nat (n * 7 + 3).

(** NO-BREAK SPACE, and the capital and the small e with acute accent. *)
Definition nbsp : ascii := ascii_of_nat 160.
Definition E_acute : ascii := ascii_of_nat 201.
Definition e_acute : ascii := ascii_of_nat 233.

(** A host that keeps UTC. *)
Definition utc (t : Z) (isUTC : bool) : Z := 0.

(** A host five hours behind UTC that moves its clocks one hour forward
    at the UTC time 1000000000. *)
Definition eastern (t : Z) (isUTC : bool) : Z :=
  let change := if isUTC then 1000000000 else 1000000000 - 18000000 in
  if t <? change then -18000000 else -14400000.

(** Two tenants, one user, her session, her cookie; time 1000; the host
    keeps UTC; the store is healthy. *)
Definition world : World :=
  mkWorld [acme; other] [alice] (<[token := row]> ∅) (Some token) 1000
          utc dice 0 [].

(** A request to acme's host, carrying Alice's credentials. *)
Definition request : NextRequest :=
  mkRequest (Some "acme.example.com") (Some "acme")
            (Some (Body.mk (Some "alice@x.com") (Some "secret1") None)).

(** Logins at acme: an address nobody has, and Alice's with a wrong
    password. *)
Definition login_unknown : NextRequest :=
  mkRequest (Some "acme.example.com") (Some "acme")
            (Some (Body.mk (Some "bob@x.com") (Some "secret1") None)).

Definition login_wrong_password : NextRequest :=
  mkRequest (Some "acme.example.com") (Some "acme")
            (Some (Body.mk (Some "alice@x.com") (Some "letmein") None)).

(** A signup at acme by somebody new. *)
Definition signup_new : NextRequest :=
  mkRequest (Some "acme.example.com") (Some "acme")
            (Some (Body.mk (Some "Bob@X.com") (Some "hunter22") (Some " Bob "))).

(** A signup at acme under Alice's address, capitals apart. *)
Definition signup_case_variant : NextRequest :=
  mkRequest (Some "acme.example.com") (Some "acme")
            (Some (Body.mk (Some "Alice@X.com") (Some "hunter22") None)).

(** The same world with a store that answers three calls and fails at the
    fourth: for a signup, the insert of the session. *)
Definition world_fourth_call_fails : World :=
  set_faults [false; false; false; true] world.

(** The row the signup [signup_new] writes. *)
Definition bob_row : User.t :=
  User.mk "030a11181f262d343b424950575e656c" "bob@x.com" "h:hunter22"
          (Some "Bob") "t-acme".

(** A stand-in for bcrypt. *)
Definition bcrypt : Password :=
  {| hashPassword p := "h:" +:+ p;
     comparePassword p digest := String.eqb ("h:" +:+ p) digest |}.

End Sample.

(* ===================================================================== *)
(** ** Further code of the same files *)
(* ===================================================================== *)

(** Modelled from the spec: [prisma.session.deleteMany({ where })] removes
    every row the filter selects and hands back their number; it does not
    reject when no row matches. A filter sees the token, which is the key
    of the table, and the row. *)
Definition prisma_session_deleteMany (selects : string -> Session.t -> bool)
  : M nat :=
  prisma (fun w =>
    (Ok (size (filter (fun kv => selects kv.1 kv.2 = true) (sessions w))),
     set_sessions (filter (fun kv => selects kv.1 kv.2 = false) (sessions w))
                  w)).

(** lib/session.ts: [cleanupExpiredSessions], with
    [where: { expiresAt: { lt: new Date() } }]. *)
Definition cleanupExpiredSessions : M nat :=
  const date <- new_Date ;;
  const count <-
    prisma_session_deleteMany (fun _ s => Session.expiresAt s <? date) ;;
  ret count.

(** lib/db.ts: the session helpers that read or delete by a scoped filter. *)
Module dbSession.

(** [prisma.session.findFirst({ where: { token, tenantId } })]. *)
Definition findByToken (tenantId token : string) : M (option Session.t) :=
  prisma (fun w =>
    (Ok (match sessions w !! token with
         | Some s => if String.eqb (Session.tenantId s) tenantId
                     then Some s else None
         | None => None
         end), w)).

(** [prisma.session.deleteMany({ where: { token, tenantId } })]. *)
Definition deleteByToken (tenantId token : string) : M nat :=
  prisma_session_deleteMany
    (fun k s => (String.eqb k token
                 && String.eqb (Session.tenantId s) tenantId)%bool).

(** [prisma.session.deleteMany({ where: { userId, tenantId } })]. *)
Definition deleteByUserId (tenantId userId : string) : M nat :=
  prisma_session_deleteMany
    (fun _ s => (String.eqb (Session.userId s) userId
                 && String.eqb (Session.tenantId s) tenantId)%bool).

(** [prisma.session.deleteMany({ where: { tenantId,
      expiresAt: { lt: new Date() } } })]. *)
Definition deleteExpired (tenantId : string) : M nat :=
  const date <- new_Date ;;
  prisma_session_deleteMany
    (fun _ s => (String.eqb (Session.tenantId s) tenantId
                 && (Session.expiresAt s <? date))%bool).

End dbSession.

(** lib/db.ts: [dbUser.findById], a [findFirst] on [{ id, tenantId }]. *)
Definition dbUser_findById (tenantId userId : string) : M (option User.t) :=
  prisma (fun w =>
    (Ok (List.find (fun u => (String.eqb (User.id u) userId
                              && String.eqb (User.tenantId u) tenantId)%bool)
                   (users w)), w)).

(** lib/tenant-context.ts: [getTenantIdFromRequest], [tenant?.id || null]. *)
Definition getTenantIdFromRequest (request : NextRequest) : M (option string) :=
  const tenant <- getTenantFromRequest request ;;
  ret (match tenant with
       | Some t => if JsString.truthy (Tenant.id t) then Some (Tenant.id t)
                   else None
       | None => None
       end).

(** [request.headers.get('host') || '']. *)
Definition host_or_empty (request : NextRequest) : string :=
  match host request with
  | Some h => if JsString.truthy h then h else ""
  | None => ""
  end.

(** middleware.ts: [middleware]. The result is the request as it is
    forwarded: the headers are cloned, and [x-tenant-subdomain] is set when
    a subdomain was found. Header values are taken as they are. *)
Definition middleware (request : NextRequest) : NextRequest :=
  let hostname := host_or_empty request in
  let subdomain := extractSubdomain hostname in
  if JsString.truthy_opt subdomain
  then mkRequest (host request) subdomain (json request)
  else request.

(** The alternative edge middleware, built on [getSubdomain]. *)
Definition middleware_lowercase (request : NextRequest) : NextRequest :=
  let hostname := host_or_empty request in
  let subdomain := getSubdomain hostname in
  if JsString.truthy_opt subdomain
  then mkRequest (host request) subdomain (json request)
  else request.

(** What [getServerTenant] hands back: [{ id, subdomain, name }]. *)
Module ServerTenant.
Record t : Type := mk { id : string; subdomain : string; name : string }.
End ServerTenant.

(** lib/auth-server.ts: [getServerAuthUser]; [headers()] are those of the
    request being served. *)
Definition getServerAuthUser (request : NextRequest)
  : M (option SessionUser.t) :=
  try_catch
    (let host := host_or_empty request in
     let subdomain := extractSubdomain host in
     if negb (JsString.truthy_opt subdomain) then ret None
     else
       const tenant <- getTenantBySubdomain (default "" subdomain) ;;
       match tenant with
       | None => ret None
       | Some tenant => getSessionUser (Tenant.id tenant)
       end)
    (fun _ => ret None).

(** [{ id: tenant.id, subdomain: tenant.subdomain, name: tenant.name }]. *)
Definition server_view (tenant : Tenant.t) : ServerTenant.t :=
  ServerTenant.mk (Tenant.id tenant) (Tenant.subdomain tenant)
                  (Tenant.name tenant).

(** lib/auth-server.ts: [getServerTenant]. *)
Definition getServerTenant (request : NextRequest)
  : M (option ServerTenant.t) :=
  try_catch
    (let host := host_or_empty request in
     let subdomain := extractSubdomain host in
     if negb (JsString.truthy_opt subdomain) then ret None
     else
       const tenant <- getTenantBySubdomain (default "" subdomain) ;;
       match tenant with
       | None => ret None
       | Some tenant => ret (Some (server_view tenant))
       end)
    (fun _ => ret None).

(** app/api/auth/logout/route.ts: the answers of [POST]. *)
Inductive LogoutJson : Type :=
| LogoutSuccess (message : string)     (* { success: true, message } *)
| LogoutError (error : string).        (* { error } *)

Module Logout.

Definition POST (request : NextRequest) : M (LogoutJson * Z) :=
  try_catch
    (await deleteCurrentSession ;;
     ret (LogoutSuccess "Logged out successfully", 200))
    (fun _ => ret (LogoutError "Internal server error", 500)).

End Logout.

(** The digits of a lower-case hexadecimal numeral. *)
Definition is_lower_hex (c : ascii) : bool :=
  let n := nat_of_ascii c in
  (((48 <=? n)%nat && (n <=? 57)%nat) || ((97 <=? n)%nat && (n <=? 102)%nat))%bool.

(** Every character of the string passes the test. *)
Fixpoint string_forallb (p : ascii -> bool) (s : string) : bool :=
  match s with
  | EmptyString => true
  | String c r => (p c && string_forallb p r)%bool
  end.

(** The strings a regular expression denotes. *)
Inductive matches : Regex.re -> string -> Prop :=
| matches_eps : matches Regex.Eps EmptyString
| matches_class (p : ascii -> bool) (c : ascii) :
    p c = true -> matches (Regex.Class p) (String c EmptyString)
| matches_seq (a b : Regex.re) (s t : string) :
    matches a s -> matches b t -> matches (Regex.Seq a b) (s +:+ t)
| matches_alt_l (a b : Regex.re) (s : string) :
    matches a s -> matches (Regex.Alt a b) s
| matches_alt_r (a b : Regex.re) (s : string) :
    matches b s -> matches (Regex.Alt a b) s
| matches_star_nil (a : Regex.re) : matches (Regex.Star a) EmptyString
| matches_star_cons (a : Regex.re) (s t : string) :
    matches a s -> matches (Regex.Star a) t ->
    matches (Regex.Star a) (s +:+ t).

(** A part of an address: not empty, no white space, no at-sign. *)
Definition address_part (s : string) : Prop :=
  s <> EmptyString /\ string_forallb Signup.not_space_at s = true.

(** A second world to run the further code in: Alice has a live session
    and a stale one, and Bob, of the other tenant, has one of each too. *)
Module Scenario.

Definition bob : User.t :=
  User.mk "u-bob" "bob@y.com" "h:opensesame" None "t-other".

Definition live_alice : Session.t := Session.mk "u-alice" "t-acme" "aa01" 5000.
Definition stale_alice : Session.t := Session.mk "u-alice" "t-acme" "aa02" 900.
Definition live_bob : Session.t := Session.mk "u-bob" "t-other" "bb01" 7000.
Definition stale_bob : Session.t := Session.mk "u-bob" "t-other" "bb02" 10.

Definition world : World :=
  mkWorld [Sample.acme; Sample.other] [Sample.alice; bob]
          (<["aa01" := live_alice]> (<["aa02" := stale_alice]>
            (<["bb01" := live_bob]> (<["bb02" := stale_bob]> ∅))))
          (Some "aa01") 1000 Sample.utc Sample.dice 0 [].

(** A request as a browser sends it to acme's host, before the edge. *)
Definition incoming : NextRequest :=
  mkRequest (Some "Acme.example.com:3000") None
            (Some (Body.mk (Some "alice@x.com") (Some "secret1") None)).

(** Alice's address signing up under the other tenant. *)
Definition signup_alice_other : NextRequest :=
  mkRequest (Some "other.example.com") (Some "other")
            (Some (Body.mk (Some "alice@x.com") (Some "hunter22") None)).

(** The address of [Sample.signup_new] signing up under the other tenant. *)
Definition signup_bob_other : NextRequest :=
  mkRequest (Some "other.example.com") (Some "other")
            (Some (Body.mk (Some "Bob@X.com") (Some "hunter22") None)).

(** A login at acme with that address in lower case. *)
Definition login_bob_lower : NextRequest :=
  mkRequest (Some "acme.example.com") (Some "acme")
            (Some (Body.mk (Some "bob@x.com") (Some "hunter22") None)).

End Scenario.

(* ===================================================================== *)
(** * Properties *)
(* ===================================================================== *)

(* ===================================================================== *)
(** ** Strings *)
(* ===================================================================== *)

Section SplitFacts.
Variable sep : ascii.

Lemma split_not_nil (s : string) : JsString.split sep s <> [].
Proof.
  destruct s as [|c r]; simpl; [discriminate|].
  destruct (Ascii.eqb c sep); [discriminate|].
  destruct (JsString.split sep r); discriminate.
Qed.

(** A string without the separator is a single piece. *)
Lemma split_no_sep (s : string) :
  JsString.count sep s = 0%nat -> JsString.split sep s = [s].
Proof.
  induction s as [|c r IH]; simpl; [reflexivity|].
  destruct (Ascii.eqb c sep); [discriminate|].
  intros Hc. rewrite IH by exact Hc. reflexivity.
Qed.

(** The first separator ends the first piece. *)
Lemma split_app (a b : string) :
  JsString.count sep a = 0%nat ->
  JsString.split sep (a +:+ String sep b) = a :: JsString.split sep b.
Proof.
  induction a as [|c r IH]; simpl.
  - intros _. rewrite Ascii.eqb_refl. reflexivity.
  - destruct (Ascii.eqb c sep); [discriminate|].
    intros Hc. rewrite IH by exact Hc. reflexivity.
Qed.

(** One more piece than there are separators. *)
Lemma split_length (s : string) :
  length (JsString.split sep s) = S (JsString.count sep s).
Proof.
  induction s as [|c r IH]; simpl; [reflexivity|].
  destruct (Ascii.eqb c sep); simpl.
  - rewrite IH. reflexivity.
  - pose proof (split_not_nil r) as Hne.
    destruct (JsString.split sep r) as [|p ps]; [contradiction|].
    simpl in *. exact IH.
Qed.


End SplitFacts.

(** The host without its port: what stands before the first colon. *)
Lemma hostWithoutPort_strip (host port : string) :
  JsString.count ":" host = 0%nat ->
  JsString.first (JsString.split ":" (host +:+ String ":" port)) = host.
Proof.
  intros Hc. rewrite split_app by exact Hc. reflexivity.
Qed.

Lemma hostWithoutPort_none (host : string) :
  JsString.count ":" host = 0%nat ->
  JsString.first (JsString.split ":" host) = host.
Proof.
  intros Hc. rewrite split_no_sep by exact Hc. reflexivity.
Qed.

Lemma loopback_test (host : string) :
  (String.eqb host "localhost" || String.eqb host "127.0.0.1")%bool = true
  <-> is_loopback host.
Proof.
  unfold is_loopback. rewrite orb_true_iff, !String.eqb_eq. reflexivity.
Qed.

Lemma extractSubdomain_port (host port : string) :
  JsString.count ":" host = 0%nat ->
  extractSubdomain (host +:+ String ":" port) = extractSubdomain host.
Proof.
  intros Hc. unfold extractSubdomain.
  rewrite hostWithoutPort_strip, hostWithoutPort_none by exact Hc.
  reflexivity.
Qed.

Lemma extractSubdomain_loopback (host : string) :
  JsString.count ":" host = 0%nat ->
  is_loopback host -> extractSubdomain host = None.
Proof.
  intros Hc Hl. unfold extractSubdomain.
  rewrite hostWithoutPort_none by exact Hc.
  apply loopback_test in Hl. rewrite Hl. reflexivity.
Qed.

Lemma extractSubdomain_few_labels (host : string) :
  JsString.count ":" host = 0%nat ->
  (length (JsString.split "." host) < 3)%nat ->
  extractSubdomain host = None.
Proof.
  intros Hc Hl. unfold extractSubdomain.
  rewrite hostWithoutPort_none by exact Hc.
  destruct (_ || _)%bool; [reflexivity|].
  destruct (Nat.leb_spec 3 (length (JsString.split "." host))); [lia|reflexivity].
Qed.

Lemma extractSubdomain_first_label (host label rest : string) :
  JsString.count ":" host = 0%nat ->
  ~ is_loopback host ->
  host = label +:+ String "." rest ->
  JsString.count "." label = 0%nat ->
  (3 <= length (JsString.split "." host))%nat ->
  extractSubdomain host = Some label.
Proof.
  intros Hc Hl Hhost Hlabel Hlen. unfold extractSubdomain.
  rewrite hostWithoutPort_none by exact Hc.
  destruct (_ || _)%bool eqn:E; [apply loopback_test in E; contradiction|].
  destruct (Nat.leb_spec 3 (length (JsString.split "." host))); [|lia].
  rewrite Hhost, split_app by exact Hlabel. reflexivity.
Qed.

(** A host with a dot splits into a dot-free first label and a rest. *)
Lemma first_label_exists (host : string) :
  (1 <= JsString.count "." host)%nat ->
  exists label rest,
    host = label +:+ String "." rest /\ JsString.count "." label = 0%nat.
Proof.
  induction host as [|c r IH]; simpl; [lia|].
  destruct (Ascii.eqb_spec c ".") as [->|Hne].
  - intros _. exists EmptyString, r. split; reflexivity.
  - intros Hc. destruct (IH Hc) as (label & rest & -> & Hl).
    exists (String c label), rest. split; [reflexivity|].
    simpl. destruct (Ascii.eqb_spec c "."); [contradiction|exact Hl].
Qed.

(** C4, as the code has it. The three examples: the first label of
    "tenantA.example.com:3000" is returned with its case untouched,
    "tenantA" (it is the tenant directory, downstream, that lower-cases it
    to "tenanta"); "localhost:3000" and "example.com" give no subdomain.
    In general, for a host without a colon: a port suffix changes nothing;
    the loopback aliases give none; fewer than three dot-separated labels
    (fewer than two dots) give none; otherwise the result is the first
    label, the text before the first dot. *)
Theorem extractSubdomain_spec :
  extractSubdomain "tenantA.example.com:3000" = Some "tenantA"
  /\ JsString.trim (JsString.toLowerCase "tenantA") = "tenanta"
  /\ extractSubdomain "localhost:3000" = None
  /\ extractSubdomain "example.com" = None
  /\ forall hostname port : string,
       JsString.count ":" hostname = 0%nat ->
       extractSubdomain (hostname +:+ String ":" port)
       = extractSubdomain hostname
       /\ (is_loopback hostname -> extractSubdomain hostname = None)
       /\ ((JsString.count "." hostname < 2)%nat ->
           extractSubdomain hostname = None)
       /\ (~ is_loopback hostname ->
           (2 <= JsString.count "." hostname)%nat ->
           exists label rest,
             hostname = label +:+ String "." rest
             /\ JsString.count "." label = 0%nat
             /\ extractSubdomain hostname = Some label).
Proof.
  do 4 (split; [reflexivity|]).
  intros hostname port Hc. repeat split.
  - apply extractSubdomain_port; assumption.
  - apply extractSubdomain_loopback; assumption.
  - intros Hd. apply extractSubdomain_few_labels; [assumption|].
    rewrite split_length. lia.
  - intros Hl Hd.
    destruct (first_label_exists hostname) as (label & rest & Hhost & Hlabel);
      [lia|].
    exists label, rest. repeat split; try assumption.
    apply (extractSubdomain_first_label hostname label rest); try assumption.
    rewrite split_length. lia.
Qed.

Lemma extractSubdomain_spec_witness :
  JsString.count ":" "acme.example.com" = 0%nat
  /\ extractSubdomain ("acme.example.com" +:+ String ":" "8080")
     = extractSubdomain "acme.example.com"
  /\ exists label rest,
       "acme.example.com" = label +:+ String "." rest
       /\ JsString.count "." label = 0%nat
       /\ extractSubdomain "acme.example.com" = Some label.
Proof.
  destruct extractSubdomain_spec as (_ & _ & _ & _ & Hgen).
  destruct (Hgen "acme.example.com" "8080" eq_refl) as (Hport & _ & _ & Hfirst).
  split; [reflexivity|]. split; [exact Hport|].
  apply Hfirst.
  - intros [Hl|Hl]; discriminate Hl.
  - simpl. lia.
Defined.

(** C4 as stated fails: the label comes back as written, not lower-cased. *)
Lemma extractSubdomain_keeps_case :
  extractSubdomain "tenantA.example.com:3000" <> Some "tenanta".
Proof.
  vm_compute. intros Heq. discriminate Heq.
Qed.

(** The helper of the alternative edge middleware does lower-case. *)
Example getSubdomain_lowers :
  getSubdomain "tenantA.example.com:3000" = Some "tenanta".
Proof. reflexivity. Qed.

(** [trim] takes a NO-BREAK SPACE off like any other white space, [\s]
    matches it, and [toLowerCase] reaches the accented capitals. *)
Example trim_no_break_space :
  JsString.trim (String Sample.nbsp "acme ") = "acme".
Proof. reflexivity. Qed.

Example toLowerCase_accented :
  JsString.toLowerCase ("JOS" +:+ String Sample.E_acute "@X.com")
  = "jos" +:+ String Sample.e_acute "@x.com".
Proof. reflexivity. Qed.

Example emailRegex_no_break_space :
  Regex.test Signup.emailRegex ("a" +:+ String Sample.nbsp "b@x.com") = false
  /\ Regex.test Signup.emailRegex ("a" +:+ String Sample.e_acute "b@x.com")
     = true.
Proof. split; reflexivity. Qed.

Example lower_char_multiplication_sign :
  JsString.lower_char (ascii_of_nat 215) = ascii_of_nat 215
  /\ JsString.lower_char (ascii_of_nat 223) = ascii_of_nat 223.
Proof. split; reflexivity. Qed.

(* ===================================================================== *)
(** ** The store and the fault schedule *)
(* ===================================================================== *)

Lemma prisma_ok {A} (op : M A) (w : World) :
  next_ok w = true -> prisma op w = op (pop_fault w).
Proof.
  unfold next_ok, prisma, pop_fault.
  destruct (faults w) as [|[|] fs]; [reflexivity|discriminate|reflexivity].
Qed.

Lemma prisma_fault {A} (op : M A) (w : World) :
  next_ok w = false -> prisma op w = (Throw StorageError, pop_fault w).
Proof.
  unfold next_ok, prisma, pop_fault.
  destruct (faults w) as [|[|] fs]; [discriminate|reflexivity|discriminate].
Qed.

(** Meeting the fault schedule touches nothing but the schedule. *)
Lemma pop_fault_frame (w : World) :
  tenants (pop_fault w) = tenants w
  /\ users (pop_fault w) = users w
  /\ sessions (pop_fault w) = sessions w
  /\ cookie (pop_fault w) = cookie w
  /\ now (pop_fault w) = now w
  /\ random (pop_fault w) = random w
  /\ rpos (pop_fault w) = rpos w.
Proof.
  unfold pop_fault. destruct (faults w); repeat split; reflexivity.
Qed.

Lemma sessions_pop_fault (w : World) : sessions (pop_fault w) = sessions w.
Proof. apply pop_fault_frame. Qed.

Lemma users_pop_fault (w : World) : users (pop_fault w) = users w.
Proof. apply pop_fault_frame. Qed.

Lemma cookie_pop_fault (w : World) : cookie (pop_fault w) = cookie w.
Proof. apply pop_fault_frame. Qed.

Lemma now_pop_fault (w : World) : now (pop_fault w) = now w.
Proof. apply pop_fault_frame. Qed.

Lemma set_sessions_same (w : World) : set_sessions (sessions w) w = w.
Proof. destruct w; reflexivity. Qed.

(* ===================================================================== *)
(** ** Session store: revoke *)
(* ===================================================================== *)

(** What [deleteSession] does, in one equation: it never throws; when the
    store answers, no row with that token is left. *)
Lemma deleteSession_run (token : string) (w : World) :
  deleteSession token w
  = (Ok tt,
     if next_ok w
     then set_sessions (base.delete token (sessions w)) (pop_fault w)
     else pop_fault w).
Proof.
  unfold deleteSession, try_catch, bind, prisma_session.delete, ret.
  destruct (next_ok w) eqn:Hok.
  - rewrite prisma_ok by exact Hok.
    rewrite sessions_pop_fault.
    destruct (sessions w !! token) eqn:Hrow; [reflexivity|].
    rewrite delete_id by exact Hrow.
    rewrite <- (sessions_pop_fault w), set_sessions_same. reflexivity.
  - rewrite prisma_fault by exact Hok. reflexivity.
Qed.

Lemma observable_pop_fault (w : World) : observable (pop_fault w) = observable w.
Proof.
  unfold observable. destruct (pop_fault_frame w) as (-> & -> & -> & -> & _).
  reflexivity.
Qed.

Lemma observable_sessions (a b : World) :
  observable a = observable b -> sessions a = sessions b.
Proof. unfold observable. intros Heq. injection Heq as _ _ Hs _. exact Hs. Qed.

Lemma observable_users (a b : World) :
  observable a = observable b -> users a = users b.
Proof. unfold observable. intros Heq. injection Heq as _ Hu _ _. exact Hu. Qed.

(** Revoking a token that has no row changes nothing a caller can see. *)
Lemma deleteSession_absent (token : string) (w : World) :
  sessions w !! token = None ->
  observable (snd (deleteSession token w)) = observable w.
Proof.
  intros Habsent. rewrite deleteSession_run. cbn [snd].
  destruct (next_ok w).
  - rewrite delete_id by exact Habsent.
    rewrite <- (sessions_pop_fault w), set_sessions_same.
    apply observable_pop_fault.
  - apply observable_pop_fault.
Qed.

(** A revoke that reaches the store leaves no row with the token. *)
Lemma deleteSession_gone (token : string) (w : World) :
  next_ok w = true ->
  sessions (snd (deleteSession token w)) !! token = None.
Proof.
  intros Hok. rewrite deleteSession_run, Hok. cbn [snd].
  apply lookup_delete_eq.
Qed.

(** C9. Revoking never raises an error, whether a row with the token exists
    or not; a revoke of a token without a row leaves the store as it is;
    once a revoke has reached the store no row with the token is left,
    after the first call and after a second one; and the second call
    changes nothing a caller can observe and returns what the first did. *)
Theorem deleteSession_idempotent (token : string) (w : World) :
  let w1 := snd (deleteSession token w) in
  let w2 := snd (deleteSession token w1) in
  fst (deleteSession token w) = Ok tt
  /\ (sessions w !! token = None -> observable w1 = observable w)
  /\ (next_ok w = true ->
      sessions w1 !! token = None
      /\ sessions w2 !! token = None
      /\ fst (deleteSession token w1) = fst (deleteSession token w)
      /\ observable w2 = observable w1).
Proof.
  intros w1 w2. split; [rewrite deleteSession_run; reflexivity|].
  split; [apply deleteSession_absent|].
  intros Hok.
  assert (Hgone : sessions w1 !! token = None)
    by (apply deleteSession_gone; exact Hok).
  assert (Hsame : observable w2 = observable w1)
    by (apply deleteSession_absent; exact Hgone).
  split; [exact Hgone|]. split.
  - rewrite (observable_sessions _ _ Hsame). exact Hgone.
  - split; [rewrite !deleteSession_run; reflexivity|exact Hsame].
Qed.

Lemma deleteSession_idempotent_witness :
  sessions Sample.world !! Sample.token = Some Sample.row
  /\ sessions (snd (deleteSession Sample.token Sample.world)) !! Sample.token
     = None
  /\ fst (deleteSession Sample.token
            (snd (deleteSession Sample.token Sample.world))) = Ok tt
  /\ observable (snd (deleteSession Sample.token
                        (snd (deleteSession Sample.token Sample.world))))
     = observable (snd (deleteSession Sample.token Sample.world)).
Proof.
  destruct (deleteSession_idempotent Sample.token Sample.world)
    as (Hfirst & _ & Hboth).
  destruct (Hboth eq_refl) as (Hgone & _ & Hsecond & Hsame).
  split; [vm_compute; reflexivity|]. split; [exact Hgone|].
  split; [rewrite Hsecond; exact Hfirst|exact Hsame].
Defined.

(* ===================================================================== *)
(** ** Session store: validate *)
(* ===================================================================== *)

(** [getSession], branch by branch. It never throws. *)
Lemma getSession_run (tenantId : option string) (w : World) :
  getSession tenantId w =
  match cookie w with
  | None => (Ok None, w)
  | Some token =>
    if negb (JsString.truthy token) then (Ok None, w)
    else if negb (next_ok w) then (Ok None, pop_fault w)
    else match sessions w !! token with
         | None => (Ok None, pop_fault w)
         | Some s =>
           if Session.expiresAt s <? now w
           then (Ok None, snd (deleteSession token (pop_fault w)))
           else if tenant_mismatch tenantId s then (Ok None, pop_fault w)
           else (Ok (Some (identity_of s)), pop_fault w)
         end
  end.
Proof.
  unfold getSession, try_catch, bind, cookies_get.
  destruct (cookie w) as [token|]; [|reflexivity].
  destruct (negb (JsString.truthy token)); [reflexivity|].
  unfold prisma_session.findUnique.
  destruct (next_ok w) eqn:Hok; cbn [negb].
  - rewrite prisma_ok by exact Hok.
    rewrite sessions_pop_fault.
    destruct (sessions w !! token) as [s|]; [|reflexivity].
    unfold new_Date. rewrite now_pop_fault.
    destruct (Session.expiresAt s <? now w).
    + rewrite deleteSession_run. reflexivity.
    + destruct (tenant_mismatch tenantId s); reflexivity.
  - rewrite prisma_fault by exact Hok. reflexivity.
Qed.

Lemma getSession_never_throws (tenantId : option string) (w : World) :
  exists r, fst (getSession tenantId w) = Ok r.
Proof.
  rewrite getSession_run.
  repeat match goal with
         | |- context [match ?x with _ => _ end] => destruct x
         end; cbn [fst]; eauto.
Qed.

(** [getSession] hands back an identity only when every test has passed. *)
Lemma getSession_some_inv (tenantId : option string) (w w1 : World)
    (data : SessionData.t) :
  getSession tenantId w = (Ok (Some data), w1) ->
  exists token s,
    cookie w = Some token
    /\ JsString.truthy token = true
    /\ next_ok w = true
    /\ sessions w !! token = Some s
    /\ now w <= Session.expiresAt s
    /\ tenant_mismatch tenantId s = false
    /\ data = identity_of s
    /\ w1 = pop_fault w.
Proof.
  rewrite getSession_run.
  destruct (cookie w) as [token|]; [|discriminate].
  destruct (JsString.truthy token) eqn:Ht; cbn [negb]; [|discriminate].
  destruct (next_ok w) eqn:Hok; cbn [negb]; [|discriminate].
  destruct (sessions w !! token) as [s|] eqn:Hrow; [|discriminate].
  destruct (Z.ltb_spec (Session.expiresAt s) (now w)) as [Hlt|Hge];
    [discriminate|].
  destruct (tenant_mismatch tenantId s) eqn:Hm; [discriminate|].
  intros Heq. injection Heq as <- <-.
  exists token, s. repeat split; try reflexivity; assumption.
Qed.

Lemma tenant_mismatch_true (T : string) (s : Session.t) :
  JsString.truthy T = true -> Session.tenantId s <> T ->
  tenant_mismatch (Some T) s = true.
Proof.
  intros Ht Hne. unfold tenant_mismatch. cbn [JsString.truthy_opt default].
  rewrite Ht. cbn [andb from_option id].
  apply negb_true_iff, String.eqb_neq. exact Hne.
Qed.

Lemma tenant_mismatch_same (s : Session.t) :
  tenant_mismatch (Some (Session.tenantId s)) s = false.
Proof.
  unfold tenant_mismatch. cbn [default from_option id].
  rewrite String.eqb_refl. apply andb_false_r.
Qed.

Lemma tenant_mismatch_falsy (tenantId : option string) (s : Session.t) :
  tenantId = None \/ tenantId = Some "" -> tenant_mismatch tenantId s = false.
Proof. intros [->| ->]; reflexivity. Qed.

(** C1. Tenants T1 and T2 with different ids (T2's id, a primary key of the
    store, is not the empty string), a user U1 of T1 and a session [s] of
    U1 stamped with U1's tenant. Validating the cookie of [s] against T2
    answers [null], whatever the expiry of [s] and whatever the state of
    the store; it is the very answer given to a request [w'] whose cookie
    is absent or names no session; and when [s] has not expired the call
    leaves tables and cookie as they were, as it does for an unknown
    token. *)
Theorem cross_tenant_replay_invalid
    (T1 T2 : Tenant.t) (U1 : User.t) (s : Session.t) (token : string)
    (w w' : World) :
  Tenant.id T1 <> Tenant.id T2 ->
  JsString.truthy (Tenant.id T2) = true ->
  User.tenantId U1 = Tenant.id T1 ->
  Session.userId s = User.id U1 ->
  Session.tenantId s = User.tenantId U1 ->
  cookie w = Some token ->
  sessions w !! token = Some s ->
  (cookie w' = None
   \/ exists unknown, cookie w' = Some unknown /\ sessions w' !! unknown = None) ->
  fst (getSession (Some (Tenant.id T2)) w) = Ok None
  /\ fst (getSession (Some (Tenant.id T2)) w') = Ok None
  /\ fst (getSession (Some (Tenant.id T2)) w)
     = fst (getSession (Some (Tenant.id T2)) w')
  /\ (now w <= Session.expiresAt s ->
      observable (snd (getSession (Some (Tenant.id T2)) w)) = observable w)
  /\ observable (snd (getSession (Some (Tenant.id T2)) w')) = observable w'.
Proof.
  intros Hdiff Htruthy Huser Hsu Hst Hcookie Hrow Hbad.
  assert (Hmis : tenant_mismatch (Some (Tenant.id T2)) s = true).
  { apply tenant_mismatch_true; [exact Htruthy|]. congruence. }
  assert (H1 : fst (getSession (Some (Tenant.id T2)) w) = Ok None).
  { rewrite getSession_run, Hcookie, Hrow, Hmis.
    destruct (negb (JsString.truthy token)); [reflexivity|].
    destruct (negb (next_ok w)); [reflexivity|].
    destruct (Session.expiresAt s <? now w); reflexivity. }
  assert (H2 : fst (getSession (Some (Tenant.id T2)) w') = Ok None
               /\ observable (snd (getSession (Some (Tenant.id T2)) w'))
                  = observable w').
  { rewrite getSession_run.
    destruct Hbad as [-> | (unknown & -> & ->)]; [split; reflexivity|].
    destruct (negb (JsString.truthy unknown)); [split; reflexivity|].
    destruct (negb (next_ok w')); cbn [fst snd];
      (split; [reflexivity|apply observable_pop_fault]). }
  destruct H2 as [H2 H2'].
  repeat split; try assumption; [congruence|].
  intros Hlive. rewrite getSession_run, Hcookie, Hrow, Hmis.
  destruct (negb (JsString.truthy token)); [reflexivity|].
  destruct (negb (next_ok w)); cbn [snd]; [apply observable_pop_fault|].
  destruct (Z.ltb_spec (Session.expiresAt s) (now w)); [lia|].
  apply observable_pop_fault.
Qed.

Lemma cross_tenant_replay_invalid_witness :
  fst (getSession (Some "t-other") Sample.world) = Ok None
  /\ fst (getSession (Some "t-other") (set_cookie None Sample.world)) = Ok None
  /\ fst (getSession (Some "t-acme") Sample.world)
     = Ok (Some (SessionData.mk "u-alice" "t-acme" Sample.token)).
Proof.
  destruct (cross_tenant_replay_invalid Sample.acme Sample.other Sample.alice
              Sample.row Sample.token Sample.world
              (set_cookie None Sample.world))
    as (H1 & H2 & _).
  - discriminate.
  - reflexivity.
  - reflexivity.
  - reflexivity.
  - reflexivity.
  - reflexivity.
  - vm_compute. reflexivity.
  - left. reflexivity.
  - split; [exact H1|]. split; [exact H2|]. vm_compute. reflexivity.
Defined.

(** [getSession] on a row that is there and has not expired, when the store
    answers: the tenant test alone decides. *)
Lemma getSession_live (tenantId : option string) (s : Session.t)
    (token : string) (w : World) :
  cookie w = Some token ->
  JsString.truthy token = true ->
  next_ok w = true ->
  sessions w !! token = Some s ->
  now w <= Session.expiresAt s ->
  getSession tenantId w
  = (Ok (if tenant_mismatch tenantId s then None else Some (identity_of s)),
     pop_fault w).
Proof.
  intros Hcookie Ht Hok Hrow Hlive.
  rewrite getSession_run, Hcookie, Ht, Hok, Hrow. cbn [negb].
  destruct (Z.ltb_spec (Session.expiresAt s) (now w)); [lia|].
  destruct (tenant_mismatch tenantId s); reflexivity.
Qed.

(** C10. The tenant test of [getSession] is made only for a truthy expected
    tenant: with the argument omitted or the empty string, a live session
    of any tenant is handed back; with a non-empty one the answer is [null]
    exactly when the row carries another tenant. *)
Theorem getSession_falsy_tenant_unchecked
    (s : Session.t) (token : string) (w : World) :
  cookie w = Some token ->
  JsString.truthy token = true ->
  next_ok w = true ->
  sessions w !! token = Some s ->
  now w <= Session.expiresAt s ->
  getSession None w = (Ok (Some (identity_of s)), pop_fault w)
  /\ getSession (Some "") w = (Ok (Some (identity_of s)), pop_fault w)
  /\ forall T : string, JsString.truthy T = true ->
       (fst (getSession (Some T) w) = Ok None <-> Session.tenantId s <> T)
       /\ (fst (getSession (Some T) w) = Ok (Some (identity_of s))
           <-> Session.tenantId s = T).
Proof.
  intros Hcookie Ht Hok Hrow Hlive.
  pose proof (fun t => getSession_live t s token w Hcookie Ht Hok Hrow Hlive)
    as Hrun.
  split; [rewrite Hrun; reflexivity|].
  split; [rewrite Hrun; reflexivity|].
  intros T HT. rewrite Hrun. cbn [fst].
  destruct (String.eqb_spec (Session.tenantId s) T) as [Heq|Hne].
  - subst T. rewrite tenant_mismatch_same.
    split; split; intros; try reflexivity; try discriminate; contradiction.
  - rewrite tenant_mismatch_true by assumption.
    split; split; intros; try reflexivity; try discriminate; try assumption.
    contradiction.
Qed.

Lemma getSession_falsy_tenant_unchecked_witness :
  getSession (Some "") Sample.world
  = (Ok (Some (SessionData.mk "u-alice" "t-acme" Sample.token)),
     pop_fault Sample.world)
  /\ fst (getSession (Some "t-other") Sample.world) = Ok None.
Proof.
  destruct (getSession_falsy_tenant_unchecked Sample.row Sample.token
              Sample.world) as (_ & Hempty & Hcheck).
  - reflexivity.
  - reflexivity.
  - reflexivity.
  - vm_compute. reflexivity.
  - vm_compute. discriminate.
  - split; [exact Hempty|].
    apply (Hcheck "t-other"); [reflexivity|]. discriminate.
Defined.

(** C3 as stated fails. At time 5000 Alice's session, which expires at
    5000, is still handed back and its row is still there. *)
Lemma expiry_boundary_not_expired :
  Session.expiresAt Sample.row = now (set_now 5000 Sample.world)
  /\ fst (getSession (Some "t-acme") (set_now 5000 Sample.world)) <> Ok None
  /\ sessions (snd (getSession (Some "t-acme") (set_now 5000 Sample.world)))
       !! Sample.token = Some Sample.row.
Proof.
  split; [reflexivity|]. split.
  - vm_compute. discriminate.
  - vm_compute. reflexivity.
Qed.

(** C3, as the code has it. The test is [expiresAt < now]. A session whose
    [expiresAt] equals the time of validation passes the expiry test: it
    is handed back when the tenant test passes too, and its row stays. A
    session whose [expiresAt] lies before the time of validation is
    answered with [null], and the same call removes its row when the store
    carries out the delete. *)
Theorem getSession_expiry_boundary (tenantId : option string)
    (s : Session.t) (token : string) (w : World) :
  cookie w = Some token ->
  JsString.truthy token = true ->
  next_ok w = true ->
  sessions w !! token = Some s ->
  (Session.expiresAt s = now w ->
   tenant_mismatch tenantId s = false ->
   fst (getSession tenantId w) = Ok (Some (identity_of s))
   /\ sessions (snd (getSession tenantId w)) !! token = Some s)
  /\ (Session.expiresAt s < now w ->
      fst (getSession tenantId w) = Ok None
      /\ (next_ok (pop_fault w) = true ->
          sessions (snd (getSession tenantId w)) !! token = None)).
Proof.
  intros Hcookie Ht Hok Hrow. split.
  - intros Heq Hm.
    rewrite (getSession_live tenantId s token w) by (assumption || lia).
    rewrite Hm. cbn [fst snd]. rewrite sessions_pop_fault. auto.
  - intros Hlt. rewrite getSession_run, Hcookie, Ht, Hok, Hrow. cbn [negb].
    destruct (Z.ltb_spec (Session.expiresAt s) (now w)); [|lia].
    cbn [fst snd]. split; [reflexivity|].
    apply deleteSession_gone.
Qed.

Lemma getSession_expiry_boundary_witness :
  (fst (getSession (Some "t-acme") (set_now 5000 Sample.world))
   = Ok (Some (identity_of Sample.row)))
  /\ fst (getSession (Some "t-acme") (set_now 5001 Sample.world)) = Ok None
  /\ sessions (snd (getSession (Some "t-acme") (set_now 5001 Sample.world)))
       !! Sample.token = None.
Proof.
  destruct (getSession_expiry_boundary (Some "t-acme") Sample.row Sample.token
              (set_now 5000 Sample.world)) as (Hat & _);
    [reflexivity|reflexivity|reflexivity|vm_compute; reflexivity|].
  destruct (getSession_expiry_boundary (Some "t-acme") Sample.row Sample.token
              (set_now 5001 Sample.world)) as (_ & Hpast);
    [reflexivity|reflexivity|reflexivity|vm_compute; reflexivity|].
  destruct Hat as (Hat & _); [reflexivity|reflexivity|].
  destruct Hpast as (Hnull & Hgone); [reflexivity|].
  split; [exact Hat|]. split; [exact Hnull|]. apply Hgone. reflexivity.
Defined.

(* ===================================================================== *)
(** ** Session store: create, and the round trip *)
(* ===================================================================== *)

Lemma next_token_truthy (w : World) : JsString.truthy (next_token w) = true.
Proof. reflexivity. Qed.

(** [createSession], branch by branch. *)
Lemma createSession_run (userId tenantId : string) (w : World) :
  let token := next_token w in
  let expiresAt := plus_days (LocalTZA w) SESSION_EXPIRATION_DAYS (now w) in
  let w0 := pop_fault (set_rpos (rpos w + 32)%nat w) in
  createSession userId tenantId w =
  if negb (next_ok w) then (Throw StorageError, w0)
  else match sessions w !! token with
       | Some _ => (Throw UniqueConstraint, w0)
       | None =>
           (Ok token,
            set_cookie (Some token)
              (set_sessions
                 (<[token := Session.mk userId tenantId token expiresAt]>
                    (sessions w))
                 w0))
       end.
Proof.
  cbn zeta.
  unfold createSession, generateSessionToken, bind, randomBytes, ret, new_Date,
    setDate_getDate_plus, prisma_session.create, cookies_set, next_token.
  set (w0 := set_rpos (rpos w + 32)%nat w).
  assert (Hok0 : next_ok w0 = next_ok w) by reflexivity.
  destruct (next_ok w) eqn:Hok; cbn [negb].
  - rewrite prisma_ok by exact Hok0.
    cbn [Session.token]. rewrite sessions_pop_fault.
    change (sessions w0) with (sessions w). change (now w0) with (now w).
    change (LocalTZA w0) with (LocalTZA w).
    destruct (sessions w !! _); reflexivity.
  - rewrite prisma_fault by exact Hok0. reflexivity.
Qed.

(** [setDate(getDate() + n)] moves a date by [n] days of twenty-four hours
    and by the difference between the offset of the zone at the start and
    its offset at the local time that is reached. *)
Lemma plus_days_offsets (tza : Z -> bool -> Z) (n time : Z) :
  plus_days tza n time
  = time + n * MS_PER_DAY
    + (tza time true - tza (time + tza time true + n * MS_PER_DAY) false).
Proof.
  unfold plus_days, MakeDate, Day, TimeWithinDay. cbn zeta.
  set (t := time + tza time true).
  assert (Hday : MS_PER_DAY <> 0) by (vm_compute; discriminate).
  assert (Hlocal : (t / MS_PER_DAY + n) * MS_PER_DAY + t mod MS_PER_DAY
                   = t + n * MS_PER_DAY).
  { pose proof (Z.div_mod t MS_PER_DAY Hday) as Hdm.
    rewrite Hdm at 3. ring. }
  rewrite Hlocal. unfold t. ring.
Qed.

(** Where the offsets of the zone stay within a day of UTC, the date that
    is reached lies within two days of [n] days on. *)
Lemma plus_days_bounds (tza : Z -> bool -> Z) (n time : Z) :
  (forall t isUTC, Z.abs (tza t isUTC) <= MS_PER_DAY) ->
  time + (n - 2) * MS_PER_DAY <= plus_days tza n time
  /\ plus_days tza n time <= time + (n + 2) * MS_PER_DAY.
Proof.
  intros Hzone. rewrite plus_days_offsets.
  pose proof (Hzone time true) as H1.
  pose proof (Hzone (time + tza time true + n * MS_PER_DAY) false) as H2.
  lia.
Qed.

(** Across a change of the clocks the thirty days are not thirty times
    twenty-four hours: a day before the clocks of [Sample.eastern] move
    forward, the date reached lies 719 hours on. *)
Remark plus_days_across_clock_change :
  plus_days Sample.eastern 30 (1000000000 - MS_PER_DAY)
  = (1000000000 - MS_PER_DAY) + 719 * (60 * 60 * 1000)
  /\ plus_days Sample.utc 30 1000 = 1000 + 720 * (60 * 60 * 1000).
Proof. split; reflexivity. Qed.

(** C5. Round trip. When the store answers and the drawn token is fresh,
    [createSession userId tenantId] returns the token, sets the cookie to
    it and stores the row, whose expiry is the date [setDate] reaches from
    the time of creation: thirty days on, corrected by the difference
    between the offset of the zone then and its offset at the expiry. A
    validation against [tenantId] that follows at any time up to the expiry
    of the stored row returns the identity [{ userId, tenantId }] (with the
    token), and nothing else; so does, in a zone whose offsets stay within
    a day of UTC, the validation that follows at once. *)
Theorem create_then_validate (userId tenantId : string) (w : World) :
  next_ok w = true ->
  sessions w !! next_token w = None ->
  exists w1 row,
    createSession userId tenantId w = (Ok (next_token w), w1)
    /\ cookie w1 = Some (next_token w)
    /\ sessions w1 !! next_token w = Some row
    /\ Session.expiresAt row
       = now w + 30 * MS_PER_DAY
         + (LocalTZA w (now w) true
            - LocalTZA w (now w + LocalTZA w (now w) true + 30 * MS_PER_DAY)
                false)
    /\ (forall date : Z,
          date <= Session.expiresAt row ->
          next_ok w1 = true ->
          getSession (Some tenantId) (set_now date w1)
          = (Ok (Some (SessionData.mk userId tenantId (next_token w))),
             pop_fault (set_now date w1)))
    /\ ((forall t isUTC, Z.abs (LocalTZA w t isUTC) <= MS_PER_DAY) ->
        next_ok w1 = true ->
        getSession (Some tenantId) w1
        = (Ok (Some (SessionData.mk userId tenantId (next_token w))),
           pop_fault w1)).
Proof.
  intros Hok Hfresh.
  pose proof (createSession_run userId tenantId w) as Hrun. cbn zeta in Hrun.
  rewrite Hok, Hfresh in Hrun. cbn [negb] in Hrun.
  set (row := Session.mk userId tenantId (next_token w)
                (plus_days (LocalTZA w) SESSION_EXPIRATION_DAYS (now w)))
    in Hrun.
  assert (Hvalid : forall w2 : World,
             cookie w2 = Some (next_token w) ->
             sessions w2 !! next_token w = Some row ->
             now w2 <= Session.expiresAt row ->
             next_ok w2 = true ->
             getSession (Some tenantId) w2
             = (Ok (Some (SessionData.mk userId tenantId (next_token w))),
                pop_fault w2)).
  { intros w2 Hcookie Hrow Hlive Hok2.
    rewrite (getSession_live (Some tenantId) row (next_token w));
      try assumption; [|apply next_token_truthy].
    replace (tenant_mismatch (Some tenantId) row) with false; [reflexivity|].
    symmetry. apply (tenant_mismatch_same row). }
  eexists. exists row. split; [exact Hrun|]. split; [reflexivity|].
  assert (Hrow : sessions
                   (set_cookie (Some (next_token w))
                      (set_sessions (<[next_token w := row]> (sessions w))
                         (pop_fault (set_rpos (rpos w + 32)%nat w))))
                 !! next_token w = Some row).
  { cbn [sessions set_cookie set_sessions]. apply lookup_insert_eq. }
  split; [exact Hrow|]. split; [apply plus_days_offsets|]. split.
  - intros date Hdate Hok1. apply Hvalid; [reflexivity|exact Hrow|exact Hdate|].
    exact Hok1.
  - intros Hzone Hok1. apply Hvalid; [reflexivity|exact Hrow| |exact Hok1].
    cbn [now set_cookie set_sessions]. rewrite now_pop_fault.
    cbn [now set_rpos Session.expiresAt row].
    destruct (plus_days_bounds (LocalTZA w) SESSION_EXPIRATION_DAYS (now w)
                Hzone) as [Hlow _].
    set (expiry := plus_days _ _ _) in Hlow |- *.
    unfold SESSION_EXPIRATION_DAYS, MS_PER_DAY in Hlow. lia.
Qed.

Lemma create_then_validate_witness :
  exists w1,
    createSession "u-alice" "t-acme" Sample.world
    = (Ok (next_token Sample.world), w1)
    /\ getSession (Some "t-acme") w1
       = (Ok (Some (SessionData.mk "u-alice" "t-acme"
                      (next_token Sample.world))),
          pop_fault w1).
Proof.
  destruct (create_then_validate "u-alice" "t-acme" Sample.world)
    as (w1 & row & Hcreate & _ & _ & _ & _ & Hvalidate).
  - reflexivity.
  - vm_compute. reflexivity.
  - exists w1. split; [exact Hcreate|].
    assert (Hw1 : w1 = snd (createSession "u-alice" "t-acme" Sample.world))
      by (rewrite Hcreate; reflexivity).
    apply Hvalidate.
    + intros t isUTC. vm_compute. discriminate.
    + rewrite Hw1. reflexivity.
Defined.

(* ===================================================================== *)
(** ** Authentication gate *)
(* ===================================================================== *)

(** [getSessionUser] once [getSession] has handed back an identity. *)
Lemma getSessionUser_run (tenantId : string) (w w1 : World)
    (data : SessionData.t) :
  getSession (Some tenantId) w = (Ok (Some data), w1) ->
  getSessionUser tenantId w =
  if negb (next_ok w1) then (Throw StorageError, pop_fault w1)
  else match user_by_id (SessionData.userId data) (users w1) with
       | None => (Ok None, pop_fault w1)
       | Some user =>
           if String.eqb (User.tenantId user) tenantId
           then (Ok (Some (selected user)), pop_fault w1)
           else (Ok None, pop_fault w1)
       end.
Proof.
  intros Hs. unfold getSessionUser, bind. rewrite Hs.
  unfold prisma_user.findUnique_id.
  destruct (next_ok w1) eqn:Hok; cbn [negb].
  - rewrite prisma_ok by exact Hok. rewrite users_pop_fault.
    destruct (user_by_id _ _) as [user|]; [|reflexivity].
    destruct (String.eqb (User.tenantId user) tenantId); reflexivity.
  - rewrite prisma_fault by exact Hok. reflexivity.
Qed.

Lemma getSessionUser_none (tenantId : string) (w w1 : World) :
  getSession (Some tenantId) w = (Ok None, w1) ->
  getSessionUser tenantId w = (Ok None, w1).
Proof. intros Hs. unfold getSessionUser, bind. rewrite Hs. reflexivity. Qed.

(** A user comes back only when every test has passed, and then it is the
    row the session names, of the tenant asked for. *)
Lemma getSessionUser_some_inv (tenantId : string) (w w' : World)
    (user : SessionUser.t) :
  getSessionUser tenantId w = (Ok (Some user), w') ->
  exists token s row,
    cookie w = Some token
    /\ sessions w !! token = Some s
    /\ now w <= Session.expiresAt s
    /\ tenant_mismatch (Some tenantId) s = false
    /\ user_by_id (Session.userId s) (users w) = Some row
    /\ User.tenantId row = tenantId
    /\ user = selected row.
Proof.
  intros Hrun.
  destruct (getSession (Some tenantId) w) as [[[data|]|e] w1] eqn:Hs.
  - rewrite (getSessionUser_run _ _ _ _ Hs) in Hrun.
    apply getSession_some_inv in Hs.
    destruct Hs as (token & s & Hc & _ & _ & Hrow & Hlive & Hm & -> & ->).
    rewrite users_pop_fault in Hrun. cbn [identity_of SessionData.userId] in Hrun.
    destruct (negb (next_ok (pop_fault w))); [discriminate|].
    destruct (user_by_id (Session.userId s) (users w)) as [row|] eqn:Hu;
      [|discriminate].
    destruct (String.eqb_spec (User.tenantId row) tenantId) as [Ht|];
      [|discriminate].
    injection Hrun as <- _.
    exists token, s, row. repeat split; assumption.
  - rewrite (getSessionUser_none _ _ _ Hs) in Hrun. discriminate.
  - destruct (getSession_never_throws (Some tenantId) w) as [r Hr].
    rewrite Hs in Hr. discriminate.
Qed.

(** C2. [getSessionUser T] returns [null] or a user whose [tenantId] is
    [T], and a user only when the cookie names a live session that passes
    the tenant test and the row that session names exists and belongs to
    [T]. When the session is accepted and the store answers, a missing
    user row, or one of another tenant, gives [null]. What
    [getAuthenticatedUser] returns is what [getSessionUser] returns for
    the id of the tenant resolved from the request; so it is [null] or a
    user of that tenant. *)
Theorem authentication_gate_tenant (T : string) (request : NextRequest)
    (w : World) :
  (forall user w',
     getSessionUser T w = (Ok (Some user), w') ->
     SessionUser.tenantId user = T
     /\ exists token s row,
          cookie w = Some token
          /\ sessions w !! token = Some s
          /\ now w <= Session.expiresAt s
          /\ tenant_mismatch (Some T) s = false
          /\ user_by_id (Session.userId s) (users w) = Some row
          /\ User.tenantId row = T
          /\ user = selected row)
  /\ (forall data w1,
        getSession (Some T) w = (Ok (Some data), w1) ->
        next_ok w1 = true ->
        (user_by_id (SessionData.userId data) (users w) = None
         \/ exists row,
              user_by_id (SessionData.userId data) (users w) = Some row
              /\ User.tenantId row <> T) ->
        getSessionUser T w = (Ok None, pop_fault w1))
  /\ (forall user w',
        getAuthenticatedUser request w = (Ok (Some user), w') ->
        exists tenant w0,
          getTenantFromRequest request w = (Ok (Some tenant), w0)
          /\ getSessionUser (Tenant.id tenant) w0 = (Ok (Some user), w')
          /\ SessionUser.tenantId user = Tenant.id tenant).
Proof.
  split; [|split].
  - intros user w' Hrun.
    destruct (getSessionUser_some_inv _ _ _ _ Hrun)
      as (token & s & row & Hc & Hrow & Hlive & Hm & Hu & Ht & ->).
    split; [exact Ht|]. exists token, s, row. repeat split; assumption.
  - intros data w1 Hs Hok Hbad.
    rewrite (getSessionUser_run _ _ _ _ Hs), Hok. cbn [negb].
    assert (Hw1 : users w1 = users w).
    { apply getSession_some_inv in Hs.
      destruct Hs as (? & ? & _ & _ & _ & _ & _ & _ & _ & ->).
      apply users_pop_fault. }
    rewrite Hw1.
    destruct Hbad as [-> | (row & -> & Hne)]; [reflexivity|].
    destruct (String.eqb_spec (User.tenantId row) T); [contradiction|reflexivity].
  - intros user w' Hrun. unfold getAuthenticatedUser, bind in Hrun.
    destruct (getTenantFromRequest request w) as [[[tenant|]|e] w0] eqn:Ht;
      try discriminate.
    destruct (getSessionUser (Tenant.id tenant) w0) as [[r|e] w2] eqn:Hu;
      try discriminate.
    unfold ret in Hrun. injection Hrun as -> ->.
    exists tenant, w0. split; [reflexivity|]. split; [exact Hu|].
    destruct (getSessionUser_some_inv _ _ _ _ Hu)
      as (_ & _ & row & _ & _ & _ & _ & _ & Hrow & ->).
    exact Hrow.
Qed.

Lemma authentication_gate_tenant_witness :
  (exists tenant w0,
     getTenantFromRequest Sample.request Sample.world = (Ok (Some tenant), w0)
     /\ getSessionUser (Tenant.id tenant) w0
        = (Ok (Some (selected Sample.alice)), Sample.world)
     /\ SessionUser.tenantId (selected Sample.alice) = Tenant.id tenant)
  /\ getSessionUser "t-acme" (set_users [] Sample.world)
     = (Ok None, set_users [] Sample.world).
Proof.
  split.
  - destruct (authentication_gate_tenant "t-acme" Sample.request Sample.world)
      as (_ & _ & Hgate).
    apply Hgate. vm_compute. reflexivity.
  - destruct (authentication_gate_tenant "t-acme" Sample.request
                (set_users [] Sample.world)) as (_ & Hmissing & _).
    apply (Hmissing (identity_of Sample.row) (set_users [] Sample.world)).
    + vm_compute. reflexivity.
    + reflexivity.
    + left. reflexivity.
Defined.

(* ===================================================================== *)
(** ** Tenant directory *)
(* ===================================================================== *)

(** [getTenantBySubdomain] in one equation: it never throws, and a store
    that fails is answered like a subdomain without a tenant. *)
Lemma getTenantBySubdomain_run (subdomain : string) (w : World) :
  getTenantBySubdomain subdomain w
  = (Ok (if next_ok w
         then tenant_by_subdomain (normalized subdomain) (tenants w)
         else None),
     pop_fault w).
Proof.
  unfold getTenantBySubdomain, try_catch, bind, prisma_tenant.findUnique, ret.
  destruct (next_ok w) eqn:Hok.
  - rewrite prisma_ok by exact Hok.
    destruct (pop_fault_frame w) as (-> & _). reflexivity.
  - rewrite prisma_fault by exact Hok. reflexivity.
Qed.

Lemma tenant_by_subdomain_none (key : string) (rows : list Tenant.t) :
  Forall (fun t => Tenant.subdomain t <> key) rows ->
  tenant_by_subdomain key rows = None.
Proof.
  unfold tenant_by_subdomain.
  induction 1 as [|t rows Hne _ IH]; [reflexivity|].
  cbn [List.find]. destruct (String.eqb_spec (Tenant.subdomain t) key);
    [contradiction|exact IH].
Qed.

Lemma tenant_by_subdomain_some (key : string) (rows : list Tenant.t)
    (t : Tenant.t) :
  tenant_by_subdomain key rows = Some t ->
  In t rows /\ Tenant.subdomain t = key.
Proof.
  unfold tenant_by_subdomain. intros Hf.
  apply List.find_some in Hf. destruct Hf as [Hin Heq].
  apply String.eqb_eq in Heq. auto.
Qed.

Section Normalisation.

Lemma is_space_lower (c : ascii) :
  JsString.is_space (JsString.lower_char c) = JsString.is_space c.
Proof. destruct c as [[] [] [] [] [] [] [] []]; reflexivity. Qed.

Lemma all_space_lower (s : string) :
  JsString.all_space (JsString.toLowerCase s) = JsString.all_space s.
Proof.
  induction s as [|c r IH]; [reflexivity|].
  cbn [JsString.toLowerCase JsString.all_space].
  rewrite is_space_lower, IH. reflexivity.
Qed.

Lemma trimStart_lower (s : string) :
  JsString.trimStart (JsString.toLowerCase s)
  = JsString.toLowerCase (JsString.trimStart s).
Proof.
  induction s as [|c r IH]; [reflexivity|].
  cbn [JsString.toLowerCase JsString.trimStart].
  rewrite is_space_lower. destruct (JsString.is_space c); [exact IH|reflexivity].
Qed.

Lemma trimEnd_lower (s : string) :
  JsString.trimEnd (JsString.toLowerCase s)
  = JsString.toLowerCase (JsString.trimEnd s).
Proof.
  induction s as [|c r IH]; [reflexivity|].
  change (JsString.toLowerCase (String c r))
    with (String (JsString.lower_char c) (JsString.toLowerCase r)).
  cbn [JsString.trimEnd].
  change (String (JsString.lower_char c) (JsString.toLowerCase r))
    with (JsString.toLowerCase (String c r)).
  rewrite all_space_lower.
  destruct (JsString.all_space (String c r)); [reflexivity|].
  cbn [JsString.toLowerCase]. rewrite IH. reflexivity.
Qed.

(** Lower-casing then trimming is trimming then lower-casing. *)
Lemma normalized_commutes (s : string) :
  normalized s = JsString.toLowerCase (JsString.trim s).
Proof.
  unfold normalized, JsString.trim.
  rewrite trimStart_lower, trimEnd_lower. reflexivity.
Qed.

End Normalisation.

(** C7. For a subdomain string, a world [w_absent] in which no tenant has
    the normalised subdomain and a world [w_down] whose store fails: the
    directory answers [null] in both, the same value. In no world does the
    lookup throw, so a storage failure never reaches the caller as an
    error. When the store answers, the result is the row whose subdomain
    is the input lower-cased and trimmed (in either order), and any tenant
    that is returned carries that subdomain. Lower-casing and trimming are
    those of ECMAScript on the code units a header value holds: white
    space includes the NO-BREAK SPACE, capitals the accented ones. *)
Theorem getTenantBySubdomain_collapses (subdomain : string)
    (w_absent w_down : World) :
  Forall (fun t => Tenant.subdomain t <> normalized subdomain)
         (tenants w_absent) ->
  next_ok w_down = false ->
  fst (getTenantBySubdomain subdomain w_absent) = Ok None
  /\ fst (getTenantBySubdomain subdomain w_down) = Ok None
  /\ fst (getTenantBySubdomain subdomain w_absent)
     = fst (getTenantBySubdomain subdomain w_down)
  /\ (forall w, exists r, fst (getTenantBySubdomain subdomain w) = Ok r)
  /\ (forall w, next_ok w = true ->
        fst (getTenantBySubdomain subdomain w)
        = Ok (tenant_by_subdomain (normalized subdomain) (tenants w)))
  /\ (forall w t, fst (getTenantBySubdomain subdomain w) = Ok (Some t) ->
        In t (tenants w) /\ Tenant.subdomain t = normalized subdomain)
  /\ normalized subdomain = JsString.toLowerCase (JsString.trim subdomain).
Proof.
  intros Habsent Hdown.
  assert (H1 : fst (getTenantBySubdomain subdomain w_absent) = Ok None).
  { rewrite getTenantBySubdomain_run. cbn [fst].
    rewrite (tenant_by_subdomain_none _ _ Habsent).
    destruct (next_ok w_absent); reflexivity. }
  assert (H2 : fst (getTenantBySubdomain subdomain w_down) = Ok None).
  { rewrite getTenantBySubdomain_run, Hdown. reflexivity. }
  split; [exact H1|]. split; [exact H2|]. split; [congruence|].
  split; [|split; [|split]].
  - intros w. rewrite getTenantBySubdomain_run. eauto.
  - intros w Hok. rewrite getTenantBySubdomain_run, Hok. reflexivity.
  - intros w t. rewrite getTenantBySubdomain_run. cbn [fst].
    destruct (next_ok w); [|discriminate].
    intros Heq. injection Heq as Heq.
    apply tenant_by_subdomain_some. exact Heq.
  - apply normalized_commutes.
Qed.

Lemma getTenantBySubdomain_collapses_witness :
  fst (getTenantBySubdomain "nobody" Sample.world) = Ok None
  /\ fst (getTenantBySubdomain "nobody" (set_faults [true] Sample.world))
     = Ok None
  /\ fst (getTenantBySubdomain "  ACME " Sample.world) = Ok (Some Sample.acme)
  /\ fst (getTenantBySubdomain "  ACME " (set_faults [true] Sample.world))
     = Ok None
  /\ fst (getTenantBySubdomain (String Sample.nbsp "Acme") Sample.world)
     = Ok (Some Sample.acme).
Proof.
  destruct (getTenantBySubdomain_collapses "nobody" Sample.world
              (set_faults [true] Sample.world)) as (Habsent & Hdown & _).
  { repeat constructor; discriminate. }
  { reflexivity. }
  split; [exact Habsent|]. split; [exact Hdown|]. repeat split; reflexivity.
Defined.

(* ===================================================================== *)
(** ** Requests: tenant resolution and the scoped user lookups *)
(* ===================================================================== *)

Lemma getTenantFromRequest_run (request : NextRequest) (w : World) :
  getTenantFromRequest request w =
  match x_tenant_subdomain request with
  | None => (Ok None, w)
  | Some subdomain =>
      if JsString.truthy subdomain
      then getTenantBySubdomain subdomain w
      else (Ok None, w)
  end.
Proof.
  unfold getTenantFromRequest.
  destruct (x_tenant_subdomain request) as [subdomain|]; [|reflexivity].
  destruct (JsString.truthy subdomain); reflexivity.
Qed.

(** Resolving the tenant never throws and changes nothing observable. *)
Lemma getTenantFromRequest_frame (request : NextRequest) (w : World) :
  (exists r, fst (getTenantFromRequest request w) = Ok r)
  /\ observable (snd (getTenantFromRequest request w)) = observable w.
Proof.
  rewrite getTenantFromRequest_run.
  destruct (x_tenant_subdomain request) as [subdomain|]; [|eauto].
  destruct (JsString.truthy subdomain); [|eauto].
  rewrite getTenantBySubdomain_run. cbn [fst snd].
  split; [eauto|apply observable_pop_fault].
Qed.

Lemma dbUser_findByEmail_run (tenantId email : string) (w : World) :
  dbUser.findByEmail tenantId email w =
  if negb (next_ok w) then (Throw StorageError, pop_fault w)
  else (Ok (user_by_email_tenantId email tenantId (users w)), pop_fault w).
Proof.
  unfold dbUser.findByEmail, prisma_user.findUnique_email_tenantId.
  destruct (next_ok w) eqn:Hok; cbn [negb].
  - rewrite prisma_ok by exact Hok. rewrite users_pop_fault. reflexivity.
  - rewrite prisma_fault by exact Hok. reflexivity.
Qed.

(** A user with that address exists in the tenant exactly when the unique
    lookup finds one. *)
Lemma user_by_email_tenantId_some (email tenantId : string)
    (rows : list User.t) :
  (exists u, In u rows /\ User.email u = email /\ User.tenantId u = tenantId)
  <-> exists u, user_by_email_tenantId email tenantId rows = Some u.
Proof.
  unfold user_by_email_tenantId. split.
  - intros (u & Hin & He & Ht).
    destruct (List.find _ rows) as [v|] eqn:Hf; [eauto|].
    apply (List.find_none _ _ Hf) in Hin.
    rewrite He, Ht, !String.eqb_refl in Hin. discriminate.
  - intros (u & Hf). apply List.find_some in Hf. destruct Hf as [Hin Hb].
    apply andb_true_iff in Hb. destruct Hb as [He Ht].
    apply String.eqb_eq in He, Ht. eauto.
Qed.

(* ===================================================================== *)
(** ** Login *)
(* ===================================================================== *)

Section LoginFacts.
Context `{Password}.

(** The two rejections of a well-formed login. *)
Lemma login_rejected (request : NextRequest) (w w1 : World)
    (tenant : Tenant.t) (email password : string) (name : option string) :
  getTenantFromRequest request w = (Ok (Some tenant), w1) ->
  json request = Some (Body.mk (Some email) (Some password) name) ->
  JsString.truthy email = true ->
  JsString.truthy password = true ->
  next_ok w1 = true ->
  (user_by_email_tenantId email (Tenant.id tenant) (users w1) = None
   \/ exists user,
        user_by_email_tenantId email (Tenant.id tenant) (users w1) = Some user
        /\ comparePassword password (User.password user) = false) ->
  Login.POST request w = (Ok invalid_credentials, pop_fault w1).
Proof.
  intros Ht Hjson He Hp Hok Hcase.
  unfold Login.POST, try_catch, bind. rewrite Ht.
  unfold request_json. rewrite Hjson. unfold ret at 1.
  cbn [Body.email Body.password JsString.truthy_opt default from_option id].
  rewrite He, Hp. cbn [negb orb].
  rewrite dbUser_findByEmail_run, Hok. cbn [negb].
  destruct Hcase as [-> | (user & -> & Hcmp)]; [reflexivity|].
  rewrite Hcmp. reflexivity.
Qed.

End LoginFacts.

Lemma user_by_email_tenantId_none (email tenantId : string)
    (rows : list User.t) :
  (forall u, In u rows ->
     ~ (User.email u = email /\ User.tenantId u = tenantId)) ->
  user_by_email_tenantId email tenantId rows = None.
Proof.
  intros Hno.
  destruct (user_by_email_tenantId email tenantId rows) as [u|] eqn:Hf;
    [|reflexivity].
  destruct (proj2 (user_by_email_tenantId_some email tenantId rows))
    as (v & Hin & He & Ht); [eauto|].
  exfalso. apply (Hno v Hin). auto.
Qed.

Lemma resolved_users (request : NextRequest) (w w1 : World)
    (r : option Tenant.t) :
  getTenantFromRequest request w = (Ok r, w1) ->
  observable w1 = observable w.
Proof.
  intros Hr. destruct (getTenantFromRequest_frame request w) as [_ Hobs].
  rewrite Hr in Hobs. exact Hobs.
Qed.

(** C6. Two well-formed logins, each with its tenant resolved and the
    store answering: run A names an address that no user of the tenant
    has, run B names the address of a user but a password that does not
    verify. The two responses are the same value, status 401 with the
    message "Invalid email or password", and neither run changes tables or
    cookie. *)
Theorem login_no_user_enumeration `{Password}
    (requestA requestB : NextRequest) (wA wA1 wB wB1 : World)
    (tenantA tenantB : Tenant.t)
    (emailA passwordA emailB passwordB : string)
    (nameA nameB : option string) (user : User.t) :
  getTenantFromRequest requestA wA = (Ok (Some tenantA), wA1) ->
  json requestA = Some (Body.mk (Some emailA) (Some passwordA) nameA) ->
  JsString.truthy emailA = true ->
  JsString.truthy passwordA = true ->
  next_ok wA1 = true ->
  (forall u, In u (users wA) ->
     ~ (User.email u = emailA /\ User.tenantId u = Tenant.id tenantA)) ->
  getTenantFromRequest requestB wB = (Ok (Some tenantB), wB1) ->
  json requestB = Some (Body.mk (Some emailB) (Some passwordB) nameB) ->
  JsString.truthy emailB = true ->
  JsString.truthy passwordB = true ->
  next_ok wB1 = true ->
  user_by_email_tenantId emailB (Tenant.id tenantB) (users wB) = Some user ->
  comparePassword passwordB (User.password user) = false ->
  fst (Login.POST requestA wA) = fst (Login.POST requestB wB)
  /\ fst (Login.POST requestA wA)
     = Ok (mkResponse (JsonError "Invalid email or password") 401)
  /\ observable (snd (Login.POST requestA wA)) = observable wA
  /\ observable (snd (Login.POST requestB wB)) = observable wB.
Proof.
  intros HtA HjA HeA HpA HokA HnoA HtB HjB HeB HpB HokB HuB HcmpB.
  pose proof (resolved_users _ _ _ _ HtA) as HobsA.
  pose proof (resolved_users _ _ _ _ HtB) as HobsB.
  rewrite (login_rejected requestA wA wA1 tenantA emailA passwordA nameA);
    try assumption.
  2:{ left. rewrite (observable_users _ _ HobsA).
      apply user_by_email_tenantId_none. exact HnoA. }
  rewrite (login_rejected requestB wB wB1 tenantB emailB passwordB nameB);
    try assumption.
  2:{ right. exists user. rewrite (observable_users _ _ HobsB). auto. }
  cbn [fst snd]. rewrite !observable_pop_fault. auto.
Qed.

Lemma login_no_user_enumeration_witness :
  fst (Login.POST (H := Sample.bcrypt) Sample.login_unknown Sample.world)
  = fst (Login.POST (H := Sample.bcrypt) Sample.login_wrong_password
           Sample.world)
  /\ fst (Login.POST (H := Sample.bcrypt) Sample.login_unknown Sample.world)
     = Ok (mkResponse (JsonError "Invalid email or password") 401)
  /\ fst (Login.POST (H := Sample.bcrypt) Sample.request Sample.world)
     = Ok (mkResponse
             (JsonLogin (PublicUser.mk "u-alice" "alice@x.com" (Some "Alice")))
             200).
Proof.
  destruct (login_no_user_enumeration (H := Sample.bcrypt)
              Sample.login_unknown Sample.login_wrong_password
              Sample.world Sample.world Sample.world Sample.world
              Sample.acme Sample.acme
              "bob@x.com" "secret1" "alice@x.com" "letmein" None None
              Sample.alice)
    as (Hsame & Hresp & _); try reflexivity.
  - intros u [<-|[]] [He _]. discriminate He.
  - split; [exact Hsame|]. split; [exact Hresp|]. vm_compute. reflexivity.
Defined.

(* ===================================================================== *)
(** ** Signup *)
(* ===================================================================== *)

Lemma dbUser_create_run (tenantId email password : string)
    (name : option string) (w : World) :
  let row := new_user tenantId email password name w in
  let w0 := set_rpos (rpos w + 16)%nat (pop_fault w) in
  dbUser.create tenantId email password name w =
  if negb (next_ok w) then (Throw StorageError, pop_fault w)
  else if clashes row (users w) then (Throw UniqueConstraint, w0)
  else (Ok row, set_users (users w ++ [row]) w0).
Proof.
  cbn zeta. unfold dbUser.create, prisma_user.create.
  destruct (next_ok w) eqn:Hok; cbn [negb].
  - rewrite prisma_ok by exact Hok.
    unfold bind, randomBytes, new_user, clashes.
    destruct (pop_fault_frame w) as (_ & Hu & _ & _ & _ & Hr & Hp).
    rewrite Hr, Hp. cbn [users set_rpos User.id User.email User.tenantId].
    rewrite Hu. reflexivity.
  - rewrite prisma_fault by exact Hok. reflexivity.
Qed.

Section SignupFacts.
Context `{Password}.

(** The signup handler, step by step. It never throws. *)
Lemma signup_run (request : NextRequest) (w : World) :
  Signup.POST request w =
  match getTenantFromRequest request w with
  | (Throw _, w1) => (Ok r500, w1)
  | (Ok None, w1) => (Ok r404, w1)
  | (Ok (Some tenant), w1) =>
    match json request with
    | None => (Ok r500, w1)
    | Some body =>
      let email := default "" (Body.email body) in
      let password := default "" (Body.password body) in
      if (negb (JsString.truthy_opt (Body.email body))
          || negb (JsString.truthy_opt (Body.password body)))%bool
      then (Ok r400_required, w1)
      else if negb (Regex.test Signup.emailRegex email)
      then (Ok r400_email, w1)
      else if (String.length password <? 6)%nat
      then (Ok r400_password, w1)
      else
        match dbUser.findByEmail (Tenant.id tenant) email w1 with
        | (Throw _, w2) => (Ok r500, w2)
        | (Ok (Some _), w2) => (Ok r409, w2)
        | (Ok None, w2) =>
          match dbUser.create (Tenant.id tenant) (normalized email)
                  (hashPassword password)
                  (Signup.trimmed_name (Body.name body)) w2 with
          | (Throw _, w3) => (Ok r500, w3)
          | (Ok user, w3) =>
            match createSession (User.id user) (Tenant.id tenant) w3 with
            | (Throw _, w4) => (Ok r500, w4)
            | (Ok _, w4) => (Ok (r201 user), w4)
            end
          end
        end
    end
  end.
Proof.
  unfold Signup.POST, try_catch, bind.
  destruct (getTenantFromRequest request w) as [[[tenant|]|e] w1];
    try reflexivity.
  unfold request_json.
  destruct (json request) as [body|]; [|reflexivity].
  unfold ret at 1. cbn zeta.
  destruct (_ || _)%bool; [reflexivity|].
  destruct (negb (Regex.test _ _)); [reflexivity|].
  destruct (_ <? 6)%nat; [reflexivity|].
  destruct (dbUser.findByEmail _ _ w1) as [[[existing|]|e] w2];
    try reflexivity.
  change (JsString.trim (JsString.toLowerCase ?e)) with (normalized e).
  destruct (dbUser.create _ _ _ _ w2) as [[user|e] w3]; [|reflexivity].
  destruct (createSession _ _ w3) as [[token|e] w4]; reflexivity.
Qed.

End SignupFacts.

Lemma dbUser_findByEmail_inv (tenantId email : string) (w w' : World)
    (r : option User.t) :
  dbUser.findByEmail tenantId email w = (Ok r, w') ->
  r = user_by_email_tenantId email tenantId (users w) /\ w' = pop_fault w.
Proof.
  rewrite dbUser_findByEmail_run.
  destruct (negb (next_ok w)); [discriminate|].
  intros Heq. injection Heq as <- <-. auto.
Qed.

Lemma dbUser_findByEmail_frame (tenantId email : string) (w : World) :
  observable (snd (dbUser.findByEmail tenantId email w)) = observable w.
Proof.
  rewrite dbUser_findByEmail_run.
  destruct (negb (next_ok w)); apply observable_pop_fault.
Qed.

Lemma dbUser_create_inv (tenantId email password : string)
    (name : option string) (w w' : World) (user : User.t) :
  dbUser.create tenantId email password name w = (Ok user, w') ->
  user = new_user tenantId email password name w
  /\ users w' = (users w ++ [user])%list
  /\ sessions w' = sessions w
  /\ tenants w' = tenants w.
Proof.
  pose proof (dbUser_create_run tenantId email password name w) as Hrun.
  cbn zeta in Hrun. rewrite Hrun.
  destruct (negb (next_ok w)); [discriminate|].
  destruct (clashes _ _); [discriminate|].
  intros Heq. injection Heq as <- <-.
  destruct (pop_fault_frame w) as (Ht & _ & Hs & _).
  cbn [users sessions tenants set_users set_rpos]. auto.
Qed.

Lemma createSession_inv (userId tenantId token : string) (w w' : World) :
  createSession userId tenantId w = (Ok token, w') ->
  token = next_token w
  /\ sessions w !! token = None
  /\ sessions w'
     = <[token := Session.mk userId tenantId token
                    (plus_days (LocalTZA w) SESSION_EXPIRATION_DAYS (now w))]>
         (sessions w)
  /\ users w' = users w
  /\ tenants w' = tenants w
  /\ cookie w' = Some token.
Proof.
  pose proof (createSession_run userId tenantId w) as Hrun.
  cbn zeta in Hrun. rewrite Hrun.
  destruct (negb (next_ok w)); [discriminate|].
  destruct (sessions w !! next_token w) eqn:Hfresh; [discriminate|].
  intros Heq. injection Heq as <- <-.
  destruct (pop_fault_frame (set_rpos (rpos w + 32)%nat w))
    as (Ht & Hu & _).
  cbn [users sessions tenants cookie set_cookie set_sessions].
  rewrite Hu, Ht. repeat split; try reflexivity. exact Hfresh.
Qed.

(** A [createSession] that throws has written nothing. *)
Lemma createSession_throw_frame (userId tenantId : string) (w w' : World)
    (e : Error) :
  createSession userId tenantId w = (Throw e, w') ->
  observable w' = observable w.
Proof.
  pose proof (createSession_run userId tenantId w) as Hrun.
  cbn zeta in Hrun. rewrite Hrun.
  assert (Hobs : observable (pop_fault (set_rpos (rpos w + 32)%nat w))
                 = observable w)
    by (rewrite observable_pop_fault; reflexivity).
  destruct (negb (next_ok w)); [|destruct (sessions w !! _)];
    intros Heq; try discriminate; injection Heq as _ <-; exact Hobs.
Qed.

(** However the insert of a user ends, it leaves tenants, sessions and
    cookie alone. *)
Lemma dbUser_create_frame (tenantId email password : string)
    (name : option string) (w : World) :
  tenants (snd (dbUser.create tenantId email password name w)) = tenants w
  /\ sessions (snd (dbUser.create tenantId email password name w))
     = sessions w
  /\ cookie (snd (dbUser.create tenantId email password name w)) = cookie w.
Proof.
  pose proof (dbUser_create_run tenantId email password name w) as Hrun.
  cbn zeta in Hrun. rewrite Hrun.
  destruct (pop_fault_frame w) as (Ht & _ & Hs & Hc & _).
  destruct (negb (next_ok w)); [|destruct (clashes _ _)];
    cbn [snd tenants sessions cookie set_users set_rpos]; auto.
Qed.

Lemma observable_inv (a b : World) :
  observable a = observable b ->
  tenants a = tenants b /\ users a = users b
  /\ sessions a = sessions b /\ cookie a = cookie b.
Proof. unfold observable. intros Hab. injection Hab as H1 H2 H3 H4. auto. Qed.

(** A body passes the presence test exactly when both fields are non-empty
    strings. *)
Lemma required_fields (body : Body.t) :
  (negb (JsString.truthy_opt (Body.email body))
   || negb (JsString.truthy_opt (Body.password body)))%bool = false ->
  exists email password,
    body = Body.mk (Some email) (Some password) (Body.name body)
    /\ JsString.truthy email = true /\ JsString.truthy password = true.
Proof.
  destruct body as [[email|] [password|] name]; cbn;
    try discriminate; try (rewrite orb_true_r; discriminate).
  intros Hb. apply orb_false_iff in Hb. destruct Hb as [He Hp].
  apply negb_false_iff in He, Hp. eauto.
Qed.

Section SignupClaims.
Context `{Password}.

(** The duplicate check fires: 409, and nothing is written. *)
Lemma signup_conflict (request : NextRequest) (w w1 : World)
    (tenant : Tenant.t) (email password : string) (name : option string) :
  getTenantFromRequest request w = (Ok (Some tenant), w1) ->
  json request = Some (Body.mk (Some email) (Some password) name) ->
  JsString.truthy email = true ->
  Regex.test Signup.emailRegex email = true ->
  (6 <= String.length password)%nat ->
  next_ok w1 = true ->
  (exists u, In u (users w)
             /\ User.email u = email /\ User.tenantId u = Tenant.id tenant) ->
  Signup.POST request w = (Ok r409, pop_fault w1).
Proof.
  intros Ht Hjson He Hre Hlen Hok Hdup.
  rewrite signup_run, Ht, Hjson. cbn zeta.
  cbn [Body.email Body.password JsString.truthy_opt default from_option id].
  assert (Hp : JsString.truthy password = true).
  { destruct password; [cbn in Hlen; lia|reflexivity]. }
  rewrite He, Hp, Hre. cbn [negb orb].
  destruct (Nat.ltb_spec (String.length password) 6); [lia|].
  rewrite dbUser_findByEmail_run, Hok. cbn [negb].
  rewrite (observable_users _ _ (resolved_users _ _ _ _ Ht)).
  apply user_by_email_tenantId_some in Hdup. destruct Hdup as [u ->].
  reflexivity.
Qed.

(** A 201 means: tenant resolved, body accepted, no user with the
    submitted pair, one user row added with the normalised address, one
    session row added for it, and the cookie set to that session's token. *)
Lemma signup_created (request : NextRequest) (w w' : World)
    (resp : NextResponse) :
  Signup.POST request w = (Ok resp, w') ->
  status resp = 201 ->
  exists tenant w1 email password name user token expiresAt,
    getTenantFromRequest request w = (Ok (Some tenant), w1)
    /\ json request = Some (Body.mk (Some email) (Some password) name)
    /\ (forall u, In u (users w) ->
          ~ (User.email u = email /\ User.tenantId u = Tenant.id tenant))
    /\ User.email user = normalized email
    /\ User.password user = hashPassword password
    /\ User.tenantId user = Tenant.id tenant
    /\ users w' = (users w ++ [user])%list
    /\ sessions w !! token = None
    /\ sessions w'
       = <[token := Session.mk (User.id user) (Tenant.id tenant) token
                      expiresAt]> (sessions w)
    /\ cookie w' = Some token
    /\ resp = r201 user.
Proof.
  rewrite signup_run.
  destruct (getTenantFromRequest request w) as [[[tenant|]|e] w1] eqn:Ht;
    try (intros Heq Hst; injection Heq as <- <-; discriminate Hst).
  destruct (json request) as [body|] eqn:Hjson;
    try (intros Heq Hst; injection Heq as <- <-; discriminate Hst).
  cbn zeta.
  destruct (_ || _)%bool eqn:Hreq;
    try (intros Heq Hst; injection Heq as <- <-; discriminate Hst).
  apply required_fields in Hreq.
  destruct Hreq as (email & password & Hbody & He & Hp).
  rewrite Hbody.
  cbn [Body.email Body.password Body.name default from_option id].
  destruct (negb (Regex.test _ _));
    try (intros Heq Hst; injection Heq as <- <-; discriminate Hst).
  destruct (_ <? 6)%nat;
    try (intros Heq Hst; injection Heq as <- <-; discriminate Hst).
  destruct (dbUser.findByEmail _ _ w1) as [[[existing|]|e] w2] eqn:Hfind;
    try (intros Heq Hst; injection Heq as <- <-; discriminate Hst).
  destruct (dbUser.create _ _ _ _ w2) as [[user|e] w3] eqn:Hcreate;
    try (intros Heq Hst; injection Heq as <- <-; discriminate Hst).
  destruct (createSession _ _ w3) as [[token|e] w4] eqn:Hsess;
    try (intros Heq Hst; injection Heq as <- <-; discriminate Hst).
  intros Heq _. injection Heq as <- <-.
  apply dbUser_findByEmail_inv in Hfind. destruct Hfind as [Hnone ->].
  apply dbUser_create_inv in Hcreate.
  destruct Hcreate as (Huser & Hu3 & Hs3 & _).
  apply createSession_inv in Hsess.
  destruct Hsess as (_ & Hfresh & Hs4 & Hu4 & _ & Hc4).
  pose proof (resolved_users _ _ _ _ Ht) as Hobs.
  rewrite users_pop_fault, (observable_users _ _ Hobs) in Hu3.
  rewrite (observable_users _ _ Hobs) in Hnone.
  rewrite Hs3, sessions_pop_fault, (observable_sessions _ _ Hobs)
    in Hfresh, Hs4.
  exists tenant, w1, email, password, (Body.name body), user, token,
    (plus_days (LocalTZA w3) SESSION_EXPIRATION_DAYS (now w3)).
  split; [reflexivity|]. split; [congruence|]. split.
  { intros u Hin [Hue Hut]. symmetry in Hnone.
    apply (List.find_none _ _ Hnone) in Hin.
    rewrite Hue, Hut, !String.eqb_refl in Hin. discriminate. }
  rewrite Huser at 1 2 3. cbn [new_user User.email User.password User.tenantId].
  repeat split; try reflexivity; try assumption.
  congruence.
Qed.

(** Every answer other than 201 and 500 leaves tables and cookie alone. *)
Lemma signup_rejection_writes_nothing (request : NextRequest) (w w' : World)
    (resp : NextResponse) :
  Signup.POST request w = (Ok resp, w') ->
  status resp <> 201 -> status resp <> 500 ->
  observable w' = observable w.
Proof.
  rewrite signup_run.
  pose proof (getTenantFromRequest_frame request w) as [_ Hobs].
  destruct (getTenantFromRequest request w) as [[[tenant|]|e] w1] eqn:Ht;
    cbn [snd] in Hobs;
    try (intros Heq H201 H500; injection Heq as <- <-;
         solve [exact Hobs | contradiction H500; reflexivity]).
  destruct (json request) as [body|];
    try (intros Heq H201 H500; injection Heq as <- <-;
         solve [exact Hobs | contradiction H500; reflexivity]).
  cbn zeta.
  destruct (_ || _)%bool;
    try (intros Heq H201 H500; injection Heq as <- <-; exact Hobs).
  destruct (negb (Regex.test _ _));
    try (intros Heq H201 H500; injection Heq as <- <-; exact Hobs).
  destruct (_ <? 6)%nat;
    try (intros Heq H201 H500; injection Heq as <- <-; exact Hobs).
  pose proof (dbUser_findByEmail_frame (Tenant.id tenant)
                (default "" (Body.email body)) w1) as Hfind.
  destruct (dbUser.findByEmail _ _ w1) as [[[existing|]|e] w2];
    cbn [snd] in Hfind;
    try (intros Heq H201 H500; injection Heq as <- <-;
         solve [congruence | contradiction H500; reflexivity]).
  destruct (dbUser.create _ _ _ _ w2) as [[user|e] w3];
    try (intros Heq H201 H500; injection Heq as <- <-;
         contradiction H500; reflexivity).
  destruct (createSession _ _ w3) as [[token|e] w4];
    intros Heq H201 H500; injection Heq as <- <-;
    [contradiction H201|contradiction H500]; reflexivity.
Qed.

(** A user row is written only once every check has passed, and then it
    is the one row with the normalised address, whatever the answer. *)
Lemma signup_writes_after_checks (request : NextRequest) (w w' : World)
    (resp : NextResponse) :
  Signup.POST request w = (Ok resp, w') ->
  users w' <> users w ->
  exists tenant w1 email password name user,
    getTenantFromRequest request w = (Ok (Some tenant), w1)
    /\ json request = Some (Body.mk (Some email) (Some password) name)
    /\ JsString.truthy email = true
    /\ Regex.test Signup.emailRegex email = true
    /\ (6 <= String.length password)%nat
    /\ (forall u, In u (users w) ->
          ~ (User.email u = email /\ User.tenantId u = Tenant.id tenant))
    /\ User.email user = normalized email
    /\ User.tenantId user = Tenant.id tenant
    /\ users w' = (users w ++ [user])%list.
Proof.
  rewrite signup_run.
  pose proof (getTenantFromRequest_frame request w) as [_ Hobs].
  destruct (getTenantFromRequest request w) as [[[tenant|]|e] w1] eqn:Ht;
    cbn [snd] in Hobs; apply observable_users in Hobs;
    try (intros Heq Hne; injection Heq as <- <-; contradiction).
  destruct (json request) as [body|] eqn:Hjson;
    try (intros Heq Hne; injection Heq as <- <-; contradiction).
  cbn zeta.
  destruct (_ || _)%bool eqn:Hreq;
    try (intros Heq Hne; injection Heq as <- <-; contradiction).
  apply required_fields in Hreq.
  destruct Hreq as (email & password & Hbody & He & Hp).
  rewrite Hbody.
  cbn [Body.email Body.password Body.name default from_option id].
  destruct (Regex.test Signup.emailRegex email) eqn:Hre; cbn [negb];
    try (intros Heq Hne; injection Heq as <- <-; contradiction).
  destruct (Nat.ltb_spec (String.length password) 6) as [|Hlen];
    try (intros Heq Hne; injection Heq as <- <-; contradiction).
  pose proof (dbUser_findByEmail_frame (Tenant.id tenant) email w1) as Hfr.
  destruct (dbUser.findByEmail _ _ w1) as [[[existing|]|e] w2] eqn:Hfind;
    cbn [snd] in Hfr; apply observable_users in Hfr;
    try (intros Heq Hne; injection Heq as <- <-; congruence).
  apply dbUser_findByEmail_inv in Hfind. destruct Hfind as [Hnone _].
  pose proof (dbUser_create_run (Tenant.id tenant) (normalized email)
                (hashPassword password)
                (Signup.trimmed_name (Body.name body)) w2) as Hcr.
  cbn zeta in Hcr.
  destruct (dbUser.create _ _ _ _ w2) as [[user|e] w3] eqn:Hcreate.
  2:{ intros Heq Hne. injection Heq as <- <-. exfalso. apply Hne.
      rewrite <- Hobs, <- Hfr.
      destruct (negb (next_ok w2)); [|destruct (clashes _ _)];
        try discriminate Hcr; injection Hcr as _ ->;
        cbn [users set_rpos]; apply users_pop_fault. }
  apply dbUser_create_inv in Hcreate.
  destruct Hcreate as (Huser & Hu3 & _ & _).
  assert (Hu4 : forall r w4,
             createSession (User.id user) (Tenant.id tenant) w3 = (r, w4) ->
             users w4 = users w3).
  { intros r w4. pose proof (createSession_run (User.id user)
                               (Tenant.id tenant) w3) as Hrun.
    cbn zeta in Hrun. rewrite Hrun.
    destruct (pop_fault_frame (set_rpos (rpos w3 + 32)%nat w3))
      as (_ & Hu & _).
    destruct (negb (next_ok w3)); [|destruct (sessions w3 !! _)];
      intros Heq; injection Heq as _ <-;
      cbn [users set_cookie set_sessions]; exact Hu. }
  assert (Hfinal : forall r w4,
             createSession (User.id user) (Tenant.id tenant) w3 = (r, w4) ->
             users w4 = (users w ++ [user])%list).
  { intros r w4 Hs. rewrite (Hu4 _ _ Hs), Hu3, Hfr, Hobs. reflexivity. }
  intros Hrun _.
  exists tenant, w1, email, password, (Body.name body), user.
  split; [reflexivity|]. split; [congruence|]. split; [exact He|].
  split; [exact Hre|]. split; [exact Hlen|]. split.
  { rewrite Hobs in Hnone.
    intros u Hin [Hue Hut]. symmetry in Hnone.
    apply (List.find_none _ _ Hnone) in Hin.
    rewrite Hue, Hut, !String.eqb_refl in Hin. discriminate. }
  split; [rewrite Huser; reflexivity|]. split; [rewrite Huser; reflexivity|].
  destruct (createSession _ _ w3) as [[token|e] w4] eqn:Hs;
    injection Hrun as _ <-; apply (Hfinal _ _ eq_refl).
Qed.

(** Only a 201 comes with a session row and the cookie: every other
    answer, the 500 of a failed session insert too, leaves tenants,
    sessions and cookie as they were. *)
Lemma signup_failure_frame (request : NextRequest) (w w' : World)
    (resp : NextResponse) :
  Signup.POST request w = (Ok resp, w') ->
  status resp <> 201 ->
  tenants w' = tenants w /\ sessions w' = sessions w /\ cookie w' = cookie w.
Proof.
  rewrite signup_run.
  pose proof (getTenantFromRequest_frame request w) as [_ Hobs].
  assert (Hfr : forall a b : World,
             observable a = observable b ->
             tenants a = tenants b /\ sessions a = sessions b
             /\ cookie a = cookie b).
  { intros a b Hab. apply observable_inv in Hab. tauto. }
  destruct (getTenantFromRequest request w) as [[[tenant|]|e] w1] eqn:Ht;
    cbn [snd] in Hobs;
    try (intros Heq Hst; injection Heq as <- <-; apply Hfr; exact Hobs).
  destruct (json request) as [body|];
    try (intros Heq Hst; injection Heq as <- <-; apply Hfr; exact Hobs).
  cbn zeta.
  destruct (_ || _)%bool;
    try (intros Heq Hst; injection Heq as <- <-; apply Hfr; exact Hobs).
  destruct (negb (Regex.test _ _));
    try (intros Heq Hst; injection Heq as <- <-; apply Hfr; exact Hobs).
  destruct (_ <? 6)%nat;
    try (intros Heq Hst; injection Heq as <- <-; apply Hfr; exact Hobs).
  pose proof (dbUser_findByEmail_frame (Tenant.id tenant)
                (default "" (Body.email body)) w1) as Hfind.
  destruct (dbUser.findByEmail _ _ w1) as [[[existing|]|e] w2];
    cbn [snd] in Hfind;
    try (intros Heq Hst; injection Heq as <- <-; apply Hfr; congruence).
  assert (H2 : tenants w2 = tenants w /\ sessions w2 = sessions w
               /\ cookie w2 = cookie w) by (apply Hfr; congruence).
  destruct H2 as (Ht2 & Hs2 & Hc2).
  pose proof (dbUser_create_frame (Tenant.id tenant)
                (normalized (default "" (Body.email body)))
                (hashPassword (default "" (Body.password body)))
                (Signup.trimmed_name (Body.name body)) w2) as Hcr.
  destruct (dbUser.create _ _ _ _ w2) as [[user|e] w3]; cbn [snd] in Hcr;
    destruct Hcr as (Ht3 & Hs3 & Hc3).
  2:{ intros Heq Hst. injection Heq as <- <-. repeat split; congruence. }
  destruct (createSession _ _ w3) as [[token|e] w4] eqn:Hs;
    intros Heq Hst; injection Heq as <- <-.
  - contradiction Hst. reflexivity.
  - apply createSession_throw_frame, Hfr in Hs.
    destruct Hs as (Ht4 & Hs4 & Hc4). repeat split; congruence.
Qed.

Lemma signup_never_throws (request : NextRequest) (w : World) :
  exists resp, fst (Signup.POST request w) = Ok resp.
Proof.
  unfold Signup.POST, try_catch.
  match goal with
  | |- context [match ?m w with _ => _ end] => destruct (m w) as [[resp|e] w1]
  end; cbn [fst ret]; eauto.
Qed.

End SignupClaims.

(** C8 as stated fails, in two ways. When the store fails at the insert of
    the session, the handler answers 500, yet the user row has been
    written and stays, without a session and without a cookie: a user is
    not created only on success. And a signup that is repeated word for
    word, its address written with capitals, is answered with 201 and then
    with 500, not 409: the row stored by the first, under the lower-cased
    address, is not the one the duplicate check of the second looks for,
    and it is the unique key of the store that refuses the second row. *)
Lemma signup_row_without_success :
  (fst (Signup.POST (H := Sample.bcrypt) Sample.signup_new
          Sample.world_fourth_call_fails) = Ok r500
   /\ users (snd (Signup.POST (H := Sample.bcrypt) Sample.signup_new
                    Sample.world_fourth_call_fails))
      = [Sample.alice; Sample.bob_row]
   /\ sessions (snd (Signup.POST (H := Sample.bcrypt) Sample.signup_new
                       Sample.world_fourth_call_fails))
      = sessions Sample.world
   /\ cookie (snd (Signup.POST (H := Sample.bcrypt) Sample.signup_new
                     Sample.world_fourth_call_fails))
      = cookie Sample.world)
  /\ (fst (Signup.POST (H := Sample.bcrypt) Sample.signup_new Sample.world)
      = Ok (r201 Sample.bob_row)
      /\ users (snd (Signup.POST (H := Sample.bcrypt) Sample.signup_new
                       Sample.world))
         = [Sample.alice; Sample.bob_row]
      /\ fst (Signup.POST (H := Sample.bcrypt) Sample.signup_new
                (snd (Signup.POST (H := Sample.bcrypt) Sample.signup_new
                        Sample.world)))
         = Ok r500
      /\ r500 <> r409).
Proof.
  split; repeat split; try (vm_compute; reflexivity).
  discriminate.
Qed.

(** C8. With the tenant resolved, the body accepted by the validation and
    the store answering the lookup: when a user of the tenant is stored
    under the address exactly as it is submitted, the answer is 409 and
    neither tables nor cookie change. An answer of 201 means that no user
    had the submitted pair, that exactly one user row was added, carrying
    the address lower-cased and trimmed, the digest of the password and the
    id of the resolved tenant, that a session row for this user and tenant
    was added, and that the cookie holds its token. Every answer other than
    201 and 500 (so 404, 400 and 409) leaves tables and cookie as they
    were. Whatever the answer, a user row is written only after the tenant
    was resolved, the body passed the validation and the duplicate check
    found nobody, and it is that one normalised row; the answer is then 201
    or 500, and with every answer other than 201, the 500 that follows a
    failed session insert too, no session row is written and the cookie is
    left alone. When the user has been inserted and [createSession] then
    throws, the answer is 500 and the user row stays, without a session.
    The handler always answers. *)
Theorem signup_conflict_and_creation `{Password}
    (request : NextRequest) (w : World) :
  (forall tenant w1 email password name,
     getTenantFromRequest request w = (Ok (Some tenant), w1) ->
     json request = Some (Body.mk (Some email) (Some password) name) ->
     JsString.truthy email = true ->
     Regex.test Signup.emailRegex email = true ->
     (6 <= String.length password)%nat ->
     next_ok w1 = true ->
     (exists u, In u (users w)
                /\ User.email u = email /\ User.tenantId u = Tenant.id tenant) ->
     fst (Signup.POST request w)
     = Ok (mkResponse (JsonError "User with this email already exists") 409)
     /\ observable (snd (Signup.POST request w)) = observable w)
  /\ (forall resp w',
        Signup.POST request w = (Ok resp, w') ->
        status resp = 201 ->
        exists tenant w1 email password name user token expiresAt,
          getTenantFromRequest request w = (Ok (Some tenant), w1)
          /\ json request = Some (Body.mk (Some email) (Some password) name)
          /\ (forall u, In u (users w) ->
                ~ (User.email u = email /\ User.tenantId u = Tenant.id tenant))
          /\ User.email user = JsString.trim (JsString.toLowerCase email)
          /\ User.password user = hashPassword password
          /\ User.tenantId user = Tenant.id tenant
          /\ users w' = (users w ++ [user])%list
          /\ sessions w !! token = None
          /\ sessions w'
             = <[token := Session.mk (User.id user) (Tenant.id tenant) token
                            expiresAt]> (sessions w)
          /\ cookie w' = Some token
          /\ resp = r201 user)
  /\ (forall resp w',
        Signup.POST request w = (Ok resp, w') ->
        status resp <> 201 -> status resp <> 500 ->
        observable w' = observable w)
  /\ (forall resp w',
        Signup.POST request w = (Ok resp, w') ->
        users w' <> users w ->
        exists tenant w1 email password name user,
          getTenantFromRequest request w = (Ok (Some tenant), w1)
          /\ json request = Some (Body.mk (Some email) (Some password) name)
          /\ JsString.truthy email = true
          /\ Regex.test Signup.emailRegex email = true
          /\ (6 <= String.length password)%nat
          /\ (forall u, In u (users w) ->
                ~ (User.email u = email /\ User.tenantId u = Tenant.id tenant))
          /\ User.email user = JsString.trim (JsString.toLowerCase email)
          /\ User.tenantId user = Tenant.id tenant
          /\ users w' = (users w ++ [user])%list
          /\ (status resp = 201 \/ status resp = 500))
  /\ (forall resp w',
        Signup.POST request w = (Ok resp, w') ->
        status resp <> 201 ->
        tenants w' = tenants w /\ sessions w' = sessions w
        /\ cookie w' = cookie w)
  /\ (forall tenant w1 w2 w3 w4 email password name user e,
        getTenantFromRequest request w = (Ok (Some tenant), w1) ->
        json request = Some (Body.mk (Some email) (Some password) name) ->
        JsString.truthy email = true ->
        Regex.test Signup.emailRegex email = true ->
        (6 <= String.length password)%nat ->
        dbUser.findByEmail (Tenant.id tenant) email w1 = (Ok None, w2) ->
        dbUser.create (Tenant.id tenant)
          (JsString.trim (JsString.toLowerCase email)) (hashPassword password)
          (Signup.trimmed_name name) w2 = (Ok user, w3) ->
        createSession (User.id user) (Tenant.id tenant) w3 = (Throw e, w4) ->
        Signup.POST request w = (Ok r500, w4)
        /\ users w4 = (users w ++ [user])%list
        /\ sessions w4 = sessions w /\ cookie w4 = cookie w)
  /\ exists resp, fst (Signup.POST request w) = Ok resp.
Proof.
  split; [|split; [|split; [|split; [|split; [|split]]]]].
  - intros tenant w1 email password name Ht Hjson He Hre Hlen Hok Hdup.
    rewrite (signup_conflict request w w1 tenant email password name)
      by assumption.
    cbn [fst snd]. split; [reflexivity|].
    rewrite observable_pop_fault. exact (resolved_users _ _ _ _ Ht).
  - intros resp w'. apply signup_created.
  - intros resp w'. apply signup_rejection_writes_nothing.
  - intros resp w' Hrun Hne.
    destruct (signup_writes_after_checks request w w' resp Hrun Hne)
      as (tenant & w1 & email & password & name & user & Hchecks).
    exists tenant, w1, email, password, name, user.
    repeat (split; [apply Hchecks|]).
    destruct (Z.eq_dec (status resp) 201) as [|H201]; [left; assumption|].
    destruct (Z.eq_dec (status resp) 500) as [|H500]; [right; assumption|].
    contradiction Hne.
    exact (observable_users _ _
             (signup_rejection_writes_nothing request w w' resp Hrun H201 H500)).
  - intros resp w'. apply signup_failure_frame.
  - intros tenant w1 w2 w3 w4 email password name user e
      Ht Hjson He Hre Hlen Hfind Hcreate Hsess.
    assert (Hp : JsString.truthy password = true).
    { destruct password; [cbn in Hlen; lia|reflexivity]. }
    assert (Hrun : Signup.POST request w = (Ok r500, w4)).
    { rewrite signup_run, Ht, Hjson. cbn zeta.
      cbn [Body.email Body.password Body.name JsString.truthy_opt default
           from_option id].
      rewrite He, Hp, Hre. cbn [negb orb].
      destruct (Nat.ltb_spec (String.length password) 6); [lia|].
      unfold normalized. rewrite Hfind, Hcreate, Hsess. reflexivity. }
    split; [exact Hrun|].
    destruct (signup_failure_frame request w w4 r500 Hrun) as (_ & Hs & Hc);
      [discriminate|].
    split; [|split; assumption].
    apply dbUser_findByEmail_inv in Hfind. destruct Hfind as [_ ->].
    apply dbUser_create_inv in Hcreate. destruct Hcreate as (_ & Hu3 & _).
    apply createSession_throw_frame, observable_users in Hsess.
    rewrite Hsess, Hu3, users_pop_fault.
    rewrite (observable_users _ _ (resolved_users _ _ _ _ Ht)). reflexivity.
  - apply signup_never_throws.
Qed.

Lemma signup_conflict_and_creation_witness :
  (fst (Signup.POST (H := Sample.bcrypt) Sample.request Sample.world)
   = Ok r409
   /\ observable (snd (Signup.POST (H := Sample.bcrypt) Sample.request
                         Sample.world))
      = observable Sample.world)
  /\ exists user,
       fst (Signup.POST (H := Sample.bcrypt) Sample.signup_new Sample.world)
       = Ok (r201 user)
       /\ User.email user = "bob@x.com"
       /\ users (snd (Signup.POST (H := Sample.bcrypt) Sample.signup_new
                        Sample.world))
          = [Sample.alice; user].
Proof.
  split.
  - destruct (signup_conflict_and_creation (H := Sample.bcrypt)
                Sample.request Sample.world) as (Hconflict & _).
    apply (Hconflict Sample.acme Sample.world "alice@x.com" "secret1" None);
      try reflexivity.
    + cbn. lia.
    + exists Sample.alice. split; [left; reflexivity|]. split; reflexivity.
  - destruct (signup_conflict_and_creation (H := Sample.bcrypt)
                Sample.signup_new Sample.world) as (_ & Hcreated & _).
    destruct (Signup.POST (H := Sample.bcrypt) Sample.signup_new Sample.world)
      as [[resp|e] w'] eqn:Hrun; [|vm_compute in Hrun; discriminate Hrun].
    destruct (Hcreated resp w' eq_refl) as
      (tenant & w1 & email & password & name & user & token & expiresAt
       & _ & Hjson & _ & Hemail & _ & _ & Husers & _ & _ & _ & ->).
    + vm_compute in Hrun. injection Hrun as <- _. reflexivity.
    + injection Hjson as <- _ _.
      exists user. split; [reflexivity|]. split; [exact Hemail|exact Husers].
Defined.

(** The duplicate check compares the address as submitted while the row
    stores it lower-cased: an address that differs from a stored one in
    case alone passes the check, the insert is refused by the unique key,
    and the handler answers 500; nothing is written. *)
Remark signup_case_variant_refused :
  fst (Signup.POST (H := Sample.bcrypt) Sample.signup_case_variant Sample.world)
  = Ok r500
  /\ observable (snd (Signup.POST (H := Sample.bcrypt)
                        Sample.signup_case_variant Sample.world))
     = observable Sample.world.
Proof. split; vm_compute; reflexivity. Qed.

(* ===================================================================== *)
(** ** Bulk deletion of sessions *)
(* ===================================================================== *)

Section DeleteMany.
Variable selects : string -> Session.t -> bool.

Lemma deleteMany_run (w : World) :
  prisma_session_deleteMany selects w =
  if negb (next_ok w) then (Throw StorageError, pop_fault w)
  else (Ok (size (filter (fun kv => selects kv.1 kv.2 = true) (sessions w))),
        set_sessions (filter (fun kv => selects kv.1 kv.2 = false) (sessions w))
                     (pop_fault w)).
Proof.
  unfold prisma_session_deleteMany.
  destruct (next_ok w) eqn:Hok; cbn [negb].
  - rewrite prisma_ok by exact Hok. rewrite sessions_pop_fault. reflexivity.
  - rewrite prisma_fault by exact Hok. reflexivity.
Qed.

(** A row survives exactly when the filter does not select it. *)
Lemma kept_lookup (m : gmap string Session.t) (k : string) :
  filter (fun kv => selects kv.1 kv.2 = false) m !! k
  = match m !! k with
    | Some s => if selects k s then None else Some s
    | None => None
    end.
Proof.
  destruct (m !! k) as [s|] eqn:Hk.
  - destruct (selects k s) eqn:Hs.
    + apply map_lookup_filter_None_2. right. intros x Hx.
      rewrite Hk in Hx. injection Hx as <-. cbn. rewrite Hs. discriminate.
    + apply map_lookup_filter_Some_2; [exact Hk|exact Hs].
  - apply map_lookup_filter_None_2. left. exact Hk.
Qed.

(** The rows removed and the rows kept add up to the rows there were. *)
Lemma deleteMany_size (m : gmap string Session.t) :
  (size (filter (fun kv => selects kv.1 kv.2 = true) m)
   + size (filter (fun kv => selects kv.1 kv.2 = false) m))%nat
  = size m.
Proof.
  rewrite <- (map_filter_union_complement
                (fun kv => selects kv.1 kv.2 = true) m) at 3.
  rewrite map_size_disj_union by apply map_disjoint_filter_complement.
  f_equal. f_equal. apply map_filter_ext. intros k s _. cbn.
  destruct (selects k s); split; intros; congruence.
Qed.

End DeleteMany.

Lemma cleanupExpiredSessions_run (w : World) :
  cleanupExpiredSessions w =
  if negb (next_ok w) then (Throw StorageError, pop_fault w)
  else (Ok (size (filter (fun kv => (Session.expiresAt kv.2 <? now w) = true)
                         (sessions w))),
        set_sessions
          (filter (fun kv => (Session.expiresAt kv.2 <? now w) = false)
                  (sessions w))
          (pop_fault w)).
Proof.
  unfold cleanupExpiredSessions, bind, new_Date.
  rewrite deleteMany_run.
  destruct (negb (next_ok w)); reflexivity.
Qed.

(** X1. The sweep. When the store fails, [cleanupExpiredSessions] throws
    and removes nothing. When it answers, the rows that are left are the
    rows with [now <= expiresAt], unchanged; the number returned is the
    number of rows removed; users, tenants and cookie are untouched. *)
Theorem cleanupExpiredSessions_sweep (w : World) :
  (next_ok w = false ->
   fst (cleanupExpiredSessions w) = Throw StorageError
   /\ observable (snd (cleanupExpiredSessions w)) = observable w)
  /\ (next_ok w = true ->
      exists count w',
        cleanupExpiredSessions w = (Ok count, w')
        /\ (forall k s,
              sessions w' !! k = Some s
              <-> sessions w !! k = Some s /\ now w <= Session.expiresAt s)
        /\ (count + size (sessions w'))%nat = size (sessions w)
        /\ tenants w' = tenants w /\ users w' = users w
        /\ cookie w' = cookie w).
Proof.
  split; intros Hok; rewrite cleanupExpiredSessions_run, Hok; cbn [negb fst snd].
  - split; [reflexivity|apply observable_pop_fault].
  - eexists _, _. split; [reflexivity|].
    destruct (pop_fault_frame w) as (Ht & Hu & _ & Hc & _).
    cbn [sessions tenants users cookie set_sessions].
    split; [|split;
      [apply (deleteMany_size (fun _ s => Session.expiresAt s <? now w))|auto]].
    intros k s.
    rewrite (kept_lookup (fun _ s => Session.expiresAt s <? now w)).
    destruct (sessions w !! k) as [r|]; [|split; [discriminate|intros [? _]; discriminate]].
    destruct (Z.ltb_spec (Session.expiresAt r) (now w)).
    + split; [discriminate|]. intros [Heq Hle]. injection Heq as ->. lia.
    + split; [intros Heq; injection Heq as ->; auto|intros [? _]; assumption].
Qed.

Lemma cleanupExpiredSessions_sweep_witness :
  fst (cleanupExpiredSessions Scenario.world) = Ok 2%nat
  /\ sessions (snd (cleanupExpiredSessions Scenario.world)) !! "aa02" = None
  /\ sessions (snd (cleanupExpiredSessions Scenario.world)) !! "aa01"
     = Some Scenario.live_alice
  /\ fst (cleanupExpiredSessions (set_faults [true] Scenario.world))
     = Throw StorageError.
Proof.
  destruct (cleanupExpiredSessions_sweep Scenario.world) as (_ & Hup).
  destruct (Hup eq_refl) as (count & w' & Hrun & Hrows & _).
  destruct (cleanupExpiredSessions_sweep (set_faults [true] Scenario.world))
    as (Hdown & _).
  destruct (Hdown eq_refl) as (Hthrow & _).
  rewrite Hrun. cbn [fst snd]. split; [|split; [|split]].
  - vm_compute in Hrun. injection Hrun as <- _. reflexivity.
  - destruct (sessions w' !! "aa02") as [s|] eqn:Hs; [|reflexivity].
    apply Hrows in Hs. destruct Hs as [Hs Hlive].
    vm_compute in Hs. injection Hs as <-. vm_compute in Hlive.
    exfalso. apply Hlive. reflexivity.
  - apply Hrows. split; [vm_compute; reflexivity|vm_compute; discriminate].
  - exact Hthrow.
Defined.

Lemma next_ok_set_faults (fs : list bool) (w1 w2 : World) :
  next_ok (set_faults fs w1) = next_ok (set_faults fs w2).
Proof. reflexivity. Qed.

(** X2. The sweep cannot be told from the lazy reaping of [getSession]:
    for every cookie and every expected tenant, validation answers the
    same after a sweep as it would have without it; and a second sweep at
    the same time finds nothing to remove. *)
Theorem sweep_invisible_to_validation (tenantId : option string)
    (w : World) (fs : list bool) :
  next_ok w = true ->
  fst (getSession tenantId (set_faults fs (snd (cleanupExpiredSessions w))))
  = fst (getSession tenantId (set_faults fs w))
  /\ (next_ok (snd (cleanupExpiredSessions w)) = true ->
      fst (cleanupExpiredSessions (snd (cleanupExpiredSessions w))) = Ok 0%nat).
Proof.
  intros Hok. rewrite (cleanupExpiredSessions_run w), Hok. cbn [negb snd].
  set (kept := filter (fun kv => (Session.expiresAt kv.2 <? now w) = false)
                      (sessions w)).
  split.
  - rewrite !getSession_run.
    rewrite (next_ok_set_faults fs (set_sessions kept (pop_fault w)) w).
    cbn [cookie set_faults set_sessions sessions now].
    rewrite cookie_pop_fault, now_pop_fault.
    destruct (cookie w) as [token|]; [|reflexivity].
    destruct (negb (JsString.truthy token)); [reflexivity|].
    destruct (negb (next_ok (set_faults fs w))); [reflexivity|].
    unfold kept. rewrite (kept_lookup (fun _ s => Session.expiresAt s <? now w)).
    destruct (sessions w !! token) as [s|]; [|reflexivity].
    destruct (Session.expiresAt s <? now w) eqn:Hexp; [reflexivity|].
    rewrite Hexp. destruct (tenant_mismatch tenantId s); reflexivity.
  - intros Hok'. rewrite cleanupExpiredSessions_run, Hok'. cbn [negb fst].
    cbn [sessions set_sessions now]. rewrite now_pop_fault.
    f_equal. apply map_size_empty_iff, map_empty. intros k.
    apply map_lookup_filter_None_2.
    destruct (kept !! k) as [s|] eqn:Hk; [right|left; reflexivity].
    intros x Hx. injection Hx as <-.
    unfold kept in Hk. apply map_lookup_filter_Some_1_2 in Hk.
    cbn in Hk |- *. rewrite Hk. discriminate.
Qed.

Lemma sweep_invisible_to_validation_witness :
  fst (getSession (Some "t-acme")
         (set_cookie (Some "aa02") (snd (cleanupExpiredSessions Scenario.world))))
  = fst (getSession (Some "t-acme") (set_cookie (Some "aa02") Scenario.world))
  /\ fst (cleanupExpiredSessions (snd (cleanupExpiredSessions Scenario.world)))
     = Ok 0%nat.
Proof.
  destruct (sweep_invisible_to_validation (Some "t-acme")
              (set_cookie (Some "aa02") Scenario.world) []) as (Hsame & Hagain);
    [reflexivity|].
  split.
  - exact Hsame.
  - apply (proj2 (sweep_invisible_to_validation None Scenario.world [] eq_refl)).
    reflexivity.
Defined.

(* ===================================================================== *)
(** ** lib/db.ts: scoped deletions and lookups of sessions *)
(* ===================================================================== *)

(** X3. Log out everywhere. When the store answers,
    [dbSession.deleteByUserId tenantId userId] leaves no session of that
    user within that tenant, leaves every other row as it was (sessions of
    other users, and sessions carrying the same user id under another
    tenant), and returns the number of rows it removed. When the store
    fails it throws and removes nothing. *)
Theorem deleteByUserId_scoped (tenantId userId : string) (w : World) :
  (next_ok w = true ->
   exists count w',
     dbSession.deleteByUserId tenantId userId w = (Ok count, w')
     /\ (forall k s, sessions w' !! k = Some s ->
           ~ (Session.userId s = userId /\ Session.tenantId s = tenantId))
     /\ (forall k s, sessions w !! k = Some s ->
           Session.userId s <> userId \/ Session.tenantId s <> tenantId ->
           sessions w' !! k = Some s)
     /\ (count + size (sessions w'))%nat = size (sessions w)
     /\ users w' = users w /\ cookie w' = cookie w)
  /\ (next_ok w = false ->
      fst (dbSession.deleteByUserId tenantId userId w) = Throw StorageError
      /\ observable (snd (dbSession.deleteByUserId tenantId userId w))
         = observable w).
Proof.
  unfold dbSession.deleteByUserId.
  set (sel := fun (_ : string) (s : Session.t) =>
                (String.eqb (Session.userId s) userId
                 && String.eqb (Session.tenantId s) tenantId)%bool).
  split; intros Hok; rewrite deleteMany_run, Hok; cbn [negb fst snd].
  - eexists _, _. split; [reflexivity|].
    destruct (pop_fault_frame w) as (_ & Hu & _ & Hc & _).
    cbn [sessions users cookie set_sessions].
    split; [|split; [|split; [apply deleteMany_size|auto]]].
    + intros k s. rewrite (kept_lookup sel).
      destruct (sessions w !! k) as [r|]; [|discriminate].
      destruct (sel k r) eqn:Hsel; [discriminate|].
      intros Heq [Hu' Ht']. injection Heq as ->.
      unfold sel in Hsel. rewrite Hu', Ht', !String.eqb_refl in Hsel.
      discriminate.
    + intros k s Hk Hother. rewrite (kept_lookup sel), Hk.
      replace (sel k s) with false; [reflexivity|].
      symmetry. unfold sel. apply andb_false_iff.
      destruct Hother as [Hne|Hne]; [left|right]; apply String.eqb_neq, Hne.
  - split; [reflexivity|apply observable_pop_fault].
Qed.

Lemma deleteByUserId_scoped_witness :
  fst (dbSession.deleteByUserId "t-acme" "u-alice" Scenario.world) = Ok 2%nat
  /\ sessions (snd (dbSession.deleteByUserId "t-acme" "u-alice" Scenario.world))
       !! "bb02" = Some Scenario.stale_bob
  /\ fst (dbSession.deleteByUserId "t-other" "u-alice" Scenario.world)
     = Ok 0%nat.
Proof.
  destruct (deleteByUserId_scoped "t-acme" "u-alice" Scenario.world)
    as (Hup & _).
  destruct (Hup eq_refl) as (count & w' & Hrun & _ & Hkeep & _).
  rewrite Hrun. cbn [fst snd]. split; [|split].
  - vm_compute in Hrun. injection Hrun as <- _. reflexivity.
  - apply Hkeep; [vm_compute; reflexivity|]. left. discriminate.
  - vm_compute. reflexivity.
Defined.

(** The rows [dbSession.deleteByToken] keeps. *)
Lemma deleteByToken_kept (tenantId token : string)
    (m : gmap string Session.t) :
  filter (fun kv => (String.eqb kv.1 token
                     && String.eqb (Session.tenantId kv.2) tenantId)%bool
                    = false) m
  = match m !! token with
    | Some s => if String.eqb (Session.tenantId s) tenantId
                then base.delete token m else m
    | None => m
    end.
Proof.
  apply map_eq. intros k.
  rewrite (kept_lookup (fun k s => (String.eqb k token
                  && String.eqb (Session.tenantId s) tenantId)%bool)).
  destruct (String.eqb_spec k token) as [->|Hne].
  - destruct (m !! token) as [s|] eqn:Hk; [|rewrite Hk; reflexivity].
    cbn [andb].
    destruct (String.eqb (Session.tenantId s) tenantId);
      [rewrite lookup_delete_eq; reflexivity|rewrite Hk; reflexivity].
  - cbn [andb].
    assert (Hsame : (match m !! token with
                     | Some s => if String.eqb (Session.tenantId s) tenantId
                                 then base.delete token m else m
                     | None => m
                     end) !! k = m !! k).
    { destruct (m !! token) as [s|]; [|reflexivity].
      destruct (String.eqb (Session.tenantId s) tenantId); [|reflexivity].
      apply lookup_delete_ne. congruence. }
    rewrite Hsame. destruct (m !! k); reflexivity.
Qed.

(** X4. Scoped revoke. When the store answers,
    [dbSession.deleteByToken tenantId token] removes the row of the token
    only if it carries [tenantId], and then leaves the tables as
    [deleteSession token] does, returning 1; a token of another tenant, or
    a token without a row, gives 0, no error, and an unchanged table. *)
Theorem deleteByToken_scoped (tenantId token : string) (w : World) :
  next_ok w = true ->
  exists count w',
    dbSession.deleteByToken tenantId token w = (Ok count, w')
    /\ (forall s, sessions w !! token = Some s ->
          Session.tenantId s = tenantId ->
          count = 1%nat
          /\ observable w' = observable (snd (deleteSession token w)))
    /\ (forall s, sessions w !! token = Some s ->
          Session.tenantId s <> tenantId ->
          count = 0%nat /\ observable w' = observable w)
    /\ (sessions w !! token = None ->
        count = 0%nat /\ observable w' = observable w).
Proof.
  intros Hok. unfold dbSession.deleteByToken.
  rewrite deleteMany_run, Hok. cbn [negb].
  eexists _, _. split; [reflexivity|].
  pose proof (deleteMany_size
                (fun k s => (String.eqb k token
                  && String.eqb (Session.tenantId s) tenantId)%bool)
                (sessions w)) as Hsize.
  cbn beta in Hsize |- *. rewrite deleteByToken_kept in Hsize |- *.
  assert (Hkeep : observable (set_sessions (sessions w) (pop_fault w))
                  = observable w).
  { rewrite <- (sessions_pop_fault w), set_sessions_same.
    apply observable_pop_fault. }
  split; [|split].
  - intros s Hk Ht. rewrite Hk in Hsize |- *.
    apply String.eqb_eq in Ht. rewrite Ht in Hsize |- *.
    rewrite map_size_delete, Hk in Hsize.
    assert (size (sessions w) <> 0%nat)
      by (apply map_size_ne_0_lookup_2 with token; eauto).
    split; [cbn in Hsize; lia|].
    rewrite deleteSession_run, Hok. reflexivity.
  - intros s Hk Hne. rewrite Hk in Hsize |- *.
    apply String.eqb_neq in Hne. rewrite Hne in Hsize |- *.
    split; [lia|exact Hkeep].
  - intros Hk. rewrite Hk in Hsize |- *. split; [lia|exact Hkeep].
Qed.

Lemma deleteByToken_scoped_witness :
  fst (dbSession.deleteByToken "t-acme" "aa01" Scenario.world) = Ok 1%nat
  /\ fst (dbSession.deleteByToken "t-other" "aa01" Scenario.world) = Ok 0%nat
  /\ observable (snd (dbSession.deleteByToken "t-other" "aa01" Scenario.world))
     = observable Scenario.world.
Proof.
  destruct (deleteByToken_scoped "t-acme" "aa01" Scenario.world eq_refl)
    as (c1 & w1 & Hrun1 & Hmine & _).
  destruct (deleteByToken_scoped "t-other" "aa01" Scenario.world eq_refl)
    as (c2 & w2 & Hrun2 & _ & Hforeign & _).
  rewrite Hrun1, Hrun2. cbn [fst snd].
  destruct (Hmine Scenario.live_alice) as [-> _];
    [vm_compute; reflexivity|reflexivity|].
  destruct (Hforeign Scenario.live_alice) as [-> Hobs];
    [vm_compute; reflexivity|discriminate|].
  auto.
Defined.

(** X5. The per-tenant sweep. When the store answers,
    [dbSession.deleteExpired tenantId] keeps exactly the rows that belong
    to another tenant or have [now <= expiresAt]; so the expired rows of
    other tenants stay. The number returned is the number removed. *)
Theorem deleteExpired_scoped (tenantId : string) (w : World) :
  next_ok w = true ->
  exists count w',
    dbSession.deleteExpired tenantId w = (Ok count, w')
    /\ (forall k s,
          sessions w' !! k = Some s
          <-> sessions w !! k = Some s
              /\ (Session.tenantId s <> tenantId
                  \/ now w <= Session.expiresAt s))
    /\ (count + size (sessions w'))%nat = size (sessions w)
    /\ users w' = users w /\ cookie w' = cookie w.
Proof.
  intros Hok. unfold dbSession.deleteExpired, bind, new_Date.
  set (sel := fun (_ : string) (s : Session.t) =>
                (String.eqb (Session.tenantId s) tenantId
                 && (Session.expiresAt s <? now w))%bool).
  rewrite (deleteMany_run sel), Hok. cbn [negb].
  eexists _, _. split; [reflexivity|].
  destruct (pop_fault_frame w) as (_ & Hu & _ & Hc & _).
  cbn [sessions users cookie set_sessions].
  split; [|split; [apply (deleteMany_size sel)|auto]].
  intros k s. rewrite (kept_lookup sel).
  destruct (sessions w !! k) as [r|];
    [|split; [discriminate|intros [? _]; discriminate]].
  unfold sel.
  destruct (String.eqb_spec (Session.tenantId r) tenantId) as [Ht|Ht];
    destruct (Z.ltb_spec (Session.expiresAt r) (now w)) as [Hexp|Hexp];
    cbn [andb]; split;
    try discriminate;
    try (intros Heq; injection Heq as ->; split; [reflexivity|auto]);
    try (intros [Heq _]; exact Heq).
  intros [Heq [Hne|Hlive]]; injection Heq as ->; [contradiction|lia].
Qed.

Lemma deleteExpired_scoped_witness :
  fst (dbSession.deleteExpired "t-acme" Scenario.world) = Ok 1%nat
  /\ sessions (snd (dbSession.deleteExpired "t-acme" Scenario.world)) !! "bb02"
     = Some Scenario.stale_bob.
Proof.
  destruct (deleteExpired_scoped "t-acme" Scenario.world eq_refl)
    as (count & w' & Hrun & Hrows & _).
  rewrite Hrun. cbn [fst snd]. split.
  - vm_compute in Hrun. injection Hrun as <- _. reflexivity.
  - apply Hrows. split; [vm_compute; reflexivity|]. left. discriminate.
Defined.

(** X6. The scoped lookup and validation agree. For a request whose cookie
    names [token] and a non-empty expected tenant [T], with the store
    answering: [dbSession.findByToken T token] returns a row only if the
    row carries [T], and [getSession (Some T)] hands back an identity
    exactly when the scoped lookup finds a row that has not expired, the
    identity of that row. *)
Theorem findByToken_agrees_with_validation (T token : string) (w : World) :
  cookie w = Some token ->
  JsString.truthy token = true ->
  JsString.truthy T = true ->
  next_ok w = true ->
  (forall s, fst (dbSession.findByToken T token w) = Ok (Some s) ->
     Session.tenantId s = T /\ sessions w !! token = Some s)
  /\ (forall data,
        fst (getSession (Some T) w) = Ok (Some data)
        <-> exists s, fst (dbSession.findByToken T token w) = Ok (Some s)
                      /\ now w <= Session.expiresAt s
                      /\ data = identity_of s).
Proof.
  intros Hcookie Htok HT Hok.
  unfold dbSession.findByToken. rewrite prisma_ok by exact Hok.
  rewrite sessions_pop_fault. cbn [fst].
  rewrite getSession_run, Hcookie, Htok, Hok. cbn [negb].
  destruct (sessions w !! token) as [r|];
    [|split; [discriminate|intros data; split;
                           [discriminate|intros (s & Hs & _); discriminate]]].
  unfold tenant_mismatch. cbn [JsString.truthy_opt default from_option id].
  rewrite HT. cbn [andb].
  destruct (String.eqb_spec (Session.tenantId r) T) as [Ht|Ht]; cbn [negb].
  - split; [intros s Hs; injection Hs as <-; auto|].
    intros data.
    destruct (Z.ltb_spec (Session.expiresAt r) (now w)) as [Hexp|Hlive];
      cbn [fst]; split.
    + discriminate.
    + intros (s & Hs & Hle & _). injection Hs as <-. lia.
    + intros Hd. injection Hd as <-. exists r. auto.
    + intros (s & Hs & _ & ->). injection Hs as <-. reflexivity.
  - split; [discriminate|].
    intros data.
    destruct (Session.expiresAt r <? now w); cbn [fst];
      (split; [discriminate|intros (s & Hs & _); discriminate]).
Qed.

Lemma findByToken_agrees_with_validation_witness :
  fst (dbSession.findByToken "t-acme" "aa01" Scenario.world)
  = Ok (Some Scenario.live_alice)
  /\ fst (getSession (Some "t-acme") Scenario.world)
     = Ok (Some (identity_of Scenario.live_alice))
  /\ fst (dbSession.findByToken "t-other" "aa01" Scenario.world) = Ok None.
Proof.
  destruct (findByToken_agrees_with_validation "t-acme" "aa01" Scenario.world)
    as (_ & Hagree); try reflexivity.
  split; [vm_compute; reflexivity|]. split; [|vm_compute; reflexivity].
  apply Hagree. exists Scenario.live_alice.
  split; [vm_compute; reflexivity|]. split; [vm_compute; discriminate|reflexivity].
Defined.

(** The scoped filter finds the row the id names when that row belongs to
    the tenant. *)
Lemma find_scoped_agrees (T id : string) (rows : list User.t) (u : User.t) :
  user_by_id id rows = Some u ->
  User.tenantId u = T ->
  List.find (fun r => (String.eqb (User.id r) id
                       && String.eqb (User.tenantId r) T)%bool) rows
  = Some u.
Proof.
  unfold user_by_id. intros Hfind Ht.
  induction rows as [|x rows IH]; [discriminate|].
  cbn [List.find] in Hfind |- *.
  destruct (String.eqb (User.id x) id); cbn [andb].
  - injection Hfind as ->. rewrite Ht, String.eqb_refl. reflexivity.
  - apply IH. exact Hfind.
Qed.

(** X7. [dbUser.findById tenantId userId], when the store answers: a row
    that comes back is a row of the table with that id and of that tenant;
    [null] comes back exactly when no row has both, so a right id asked
    under a wrong tenant finds nothing; and when the row that
    [getSessionUser] would load by id belongs to the tenant, the scoped
    lookup returns that same row. The lookup writes nothing. *)
Theorem findById_scoped (tenantId userId : string) (w : World) :
  next_ok w = true ->
  exists r,
    dbUser_findById tenantId userId w = (Ok r, pop_fault w)
    /\ (forall u, r = Some u ->
          In u (users w) /\ User.id u = userId /\ User.tenantId u = tenantId)
    /\ (r = None <->
        forall u, In u (users w) ->
          ~ (User.id u = userId /\ User.tenantId u = tenantId))
    /\ (forall u, user_by_id userId (users w) = Some u ->
          User.tenantId u = tenantId -> r = Some u).
Proof.
  intros Hok. unfold dbUser_findById. rewrite prisma_ok by exact Hok.
  rewrite users_pop_fault. eexists. split; [reflexivity|].
  split; [|split].
  - intros u Hf. apply List.find_some in Hf. destruct Hf as [Hin Hb].
    apply andb_true_iff in Hb. destruct Hb as [Hi Ht].
    apply String.eqb_eq in Hi, Ht. auto.
  - split.
    + intros Hnone u Hin [Hi Ht].
      apply (List.find_none _ _ Hnone) in Hin.
      rewrite Hi, Ht, !String.eqb_refl in Hin. discriminate.
    + intros Hno.
      destruct (List.find _ (users w)) as [u|] eqn:Hf; [|reflexivity].
      apply List.find_some in Hf. destruct Hf as [Hin Hb].
      apply andb_true_iff in Hb. destruct Hb as [Hi Ht].
      apply String.eqb_eq in Hi, Ht. exfalso. apply (Hno u Hin). auto.
  - intros u Hu Ht. apply find_scoped_agrees; assumption.
Qed.

Lemma findById_scoped_witness :
  fst (dbUser_findById "t-acme" "u-alice" Scenario.world)
  = Ok (Some Sample.alice)
  /\ fst (dbUser_findById "t-other" "u-alice" Scenario.world) = Ok None.
Proof.
  destruct (findById_scoped "t-acme" "u-alice" Scenario.world eq_refl)
    as (r & Hrun & _ & _ & Hagree).
  rewrite Hrun. cbn [fst]. split; [|vm_compute; reflexivity].
  f_equal. apply Hagree; reflexivity.
Defined.

(* ===================================================================== *)
(** ** lib/session.ts: what create, validate and logout leave behind *)
(* ===================================================================== *)

(** X8. [createSession] is all or nothing. When it throws (the store
    failed, or the drawn token is taken) no row has been written and the
    cookie is as it was. When it returns a token, that token had no row
    before, exactly one row was added, under that token and with the
    given user and tenant; its expiry is the date that
    [setDate(getDate() + 30)] reaches from the time of creation in the zone
    of the host, which is thirty days of twenty-four hours on where the
    offset of the zone is the same at both ends. Every other row, the
    users and the tenants are untouched, and the cookie holds the token. *)
Theorem createSession_all_or_nothing (userId tenantId : string) (w : World) :
  (forall e w',
     createSession userId tenantId w = (Throw e, w') ->
     observable w' = observable w
     /\ (e = StorageError
         \/ (e = UniqueConstraint /\ is_Some (sessions w !! next_token w))))
  /\ (forall token w',
        createSession userId tenantId w = (Ok token, w') ->
        sessions w !! token = None
        /\ sessions w' !! token
           = Some (Session.mk userId tenantId token
                     (plus_days (LocalTZA w) SESSION_EXPIRATION_DAYS (now w)))
        /\ (LocalTZA w (now w) true
            = LocalTZA w (now w + LocalTZA w (now w) true + 30 * MS_PER_DAY)
                false ->
            plus_days (LocalTZA w) SESSION_EXPIRATION_DAYS (now w)
            = now w + 30 * MS_PER_DAY)
        /\ (forall k, k <> token -> sessions w' !! k = sessions w !! k)
        /\ size (sessions w') = S (size (sessions w))
        /\ users w' = users w /\ tenants w' = tenants w
        /\ cookie w' = Some token).
Proof.
  split.
  - intros e w'. pose proof (createSession_run userId tenantId w) as Hrun.
    cbn zeta in Hrun. rewrite Hrun.
    assert (Hobs : observable (pop_fault (set_rpos (rpos w + 32)%nat w))
                   = observable w)
      by (rewrite observable_pop_fault; reflexivity).
    destruct (negb (next_ok w)).
    + intros Heq. injection Heq as <- <-. auto.
    + destruct (sessions w !! next_token w) as [s|] eqn:Hs; [|discriminate].
      intros Heq. injection Heq as <- <-. split; [exact Hobs|]. right. eauto.
  - intros token w' Hrun. apply createSession_inv in Hrun.
    destruct Hrun as (_ & Hfresh & Hs & Hu & Ht & Hc).
    rewrite Hs. split; [exact Hfresh|]. split; [apply lookup_insert_eq|].
    split.
    { intros Hzone. rewrite plus_days_offsets.
      unfold SESSION_EXPIRATION_DAYS. lia. }
    split; [intros k Hk; apply lookup_insert_ne; congruence|].
    split; [apply map_size_insert_None; exact Hfresh|auto].
Qed.

Lemma createSession_all_or_nothing_witness :
  (exists token w',
     createSession "u-bob" "t-other" Scenario.world = (Ok token, w')
     /\ sessions w' !! "aa01" = Some Scenario.live_alice
     /\ size (sessions w') = 5%nat)
  /\ observable (snd (createSession "u-bob" "t-other"
                        (set_faults [true] Scenario.world)))
     = observable Scenario.world.
Proof.
  destruct (createSession_all_or_nothing "u-bob" "t-other" Scenario.world)
    as (_ & Hok).
  destruct (createSession_all_or_nothing "u-bob" "t-other"
              (set_faults [true] Scenario.world)) as (Hfail & _).
  split.
  - destruct (createSession "u-bob" "t-other" Scenario.world)
      as [[token|e] w'] eqn:Hrun; [|vm_compute in Hrun; discriminate Hrun].
    destruct (Hok token w' eq_refl) as (_ & _ & _ & Hframe & Hsize & _).
    exists token, w'. split; [reflexivity|]. split.
    + rewrite Hframe; [vm_compute; reflexivity|].
      vm_compute in Hrun. injection Hrun as <- _. discriminate.
    + rewrite Hsize. vm_compute. reflexivity.
  - destruct (createSession "u-bob" "t-other" (set_faults [true] Scenario.world))
      as [[token|e] w'] eqn:Hrun; [vm_compute in Hrun; discriminate Hrun|].
    destruct (Hfail e w' eq_refl) as (Hobs & _). exact Hobs.
Defined.

Lemma hex_digit_is_hex (n : nat) :
  (n < 16)%nat -> is_lower_hex (hex_digit n) = true.
Proof.
  intros Hn. do 16 (destruct n as [|n]; [reflexivity|]). lia.
Qed.

Lemma toHex_format (bytes : list ascii) :
  String.length (toHex bytes) = (2 * length bytes)%nat
  /\ string_forallb is_lower_hex (toHex bytes) = true.
Proof.
  induction bytes as [|b r [IHlen IHhex]]; [split; reflexivity|].
  cbn [toHex String.length string_forallb length]. split; [lia|].
  pose proof (nat_ascii_bounded b) as Hb.
  rewrite !hex_digit_is_hex, IHhex; [reflexivity| |].
  - apply Nat.mod_upper_bound. discriminate.
  - apply Nat.Div0.div_lt_upper_bound. exact Hb.
Qed.

(** X9. The token [createSession] returns, and puts in the cookie, is 64
    lower-case hexadecimal digits: the 32 random bytes, two digits each. *)
Theorem session_token_format (userId tenantId token : string) (w w' : World) :
  createSession userId tenantId w = (Ok token, w') ->
  String.length token = 64%nat
  /\ string_forallb is_lower_hex token = true
  /\ token = toHex (map (random w) (seq (rpos w) 32))
  /\ cookie w' = Some token.
Proof.
  intros Hrun. apply createSession_inv in Hrun.
  destruct Hrun as (-> & _ & _ & _ & _ & Hc).
  destruct (toHex_format (map (random w) (seq (rpos w) 32))) as [Hlen Hhex].
  rewrite length_map, length_seq in Hlen.
  unfold next_token. auto.
Qed.

Lemma session_token_format_witness :
  exists token,
    fst (createSession "u-alice" "t-acme" Scenario.world) = Ok token
    /\ String.length token = 64%nat
    /\ string_forallb is_lower_hex token = true.
Proof.
  destruct (createSession "u-alice" "t-acme" Scenario.world)
    as [[token|e] w'] eqn:Hrun; [|vm_compute in Hrun; discriminate Hrun].
  destruct (session_token_format _ _ _ _ _ Hrun) as (Hlen & Hhex & _).
  exists token. auto.
Defined.

(** X10. What validation may change. [getSession] never touches users,
    tenants or the cookie and never adds a session row; the only row it
    can remove is the one the cookie names, and only when that row has
    expired: every row with [now <= expiresAt] and every row of another
    token is still there afterwards. *)
Theorem getSession_frame (tenantId : option string) (w : World) :
  tenants (snd (getSession tenantId w)) = tenants w
  /\ users (snd (getSession tenantId w)) = users w
  /\ cookie (snd (getSession tenantId w)) = cookie w
  /\ (forall k s, sessions (snd (getSession tenantId w)) !! k = Some s ->
        sessions w !! k = Some s)
  /\ (forall k, cookie w <> Some k ->
        sessions (snd (getSession tenantId w)) !! k = sessions w !! k)
  /\ (forall k s, sessions w !! k = Some s -> now w <= Session.expiresAt s ->
        sessions (snd (getSession tenantId w)) !! k = Some s).
Proof.
  rewrite getSession_run.
  assert (Hkeep : forall x : World,
            observable x = observable w ->
            tenants x = tenants w /\ users x = users w /\ cookie x = cookie w
            /\ (forall k s, sessions x !! k = Some s -> sessions w !! k = Some s)
            /\ (forall k, cookie w <> Some k -> sessions x !! k = sessions w !! k)
            /\ (forall k s, sessions w !! k = Some s ->
                  now w <= Session.expiresAt s -> sessions x !! k = Some s)).
  { intros x Hobs. unfold observable in Hobs.
    injection Hobs as -> -> -> ->. repeat split; auto. }
  destruct (cookie w) as [token|] eqn:Hcookie; [|apply Hkeep; reflexivity].
  destruct (negb (JsString.truthy token)); [apply Hkeep; reflexivity|].
  destruct (negb (next_ok w)); [apply Hkeep, observable_pop_fault|].
  destruct (sessions w !! token) as [row|] eqn:Hrow;
    [|apply Hkeep, observable_pop_fault].
  destruct (Z.ltb_spec (Session.expiresAt row) (now w)) as [Hexp|Hlive].
  2:{ destruct (tenant_mismatch tenantId row);
        apply Hkeep, observable_pop_fault. }
  rewrite deleteSession_run. cbn [snd].
  destruct (pop_fault_frame (pop_fault w)) as (Ht & Hu & Hs & Hc & _).
  destruct (pop_fault_frame w) as (Ht' & Hu' & Hs' & Hc' & _).
  destruct (next_ok (pop_fault w));
    [cbn [tenants users cookie sessions set_sessions]|];
    rewrite ?Ht, ?Hu, ?Hc, ?Hs, ?Ht', ?Hu', ?Hc', ?Hs';
    repeat split; auto.
  - intros k s Hk. apply lookup_delete_Some in Hk. tauto.
  - intros k Hk. apply lookup_delete_ne. congruence.
  - intros k s Hk Hle. rewrite lookup_delete_ne; [exact Hk|].
    intros <-. rewrite Hrow in Hk. injection Hk as <-. lia.
Qed.

(** [deleteCurrentSession] in one equation. *)
Lemma deleteCurrentSession_run (w : World) :
  deleteCurrentSession w
  = (Ok tt,
     set_cookie None
       (match cookie w with
        | Some token => if JsString.truthy token
                        then snd (deleteSession token w) else w
        | None => w
        end)).
Proof.
  unfold deleteCurrentSession, try_catch, bind, cookies_get, cookies_delete.
  destruct (cookie w) as [token|]; cbn [JsString.truthy_opt]; [|reflexivity].
  destruct (JsString.truthy token); [|reflexivity].
  cbn [default from_option id]. rewrite deleteSession_run. reflexivity.
Qed.

(** X11. Logging out the current session. [deleteCurrentSession] never
    throws and always clears the cookie, whether or not the cookie named a
    session and whether or not the store answers; it touches no user, no
    tenant and no session row other than the one the cookie named; and
    when the store answers, that row is gone. *)
Theorem deleteCurrentSession_clears (w : World) :
  fst (deleteCurrentSession w) = Ok tt
  /\ cookie (snd (deleteCurrentSession w)) = None
  /\ users (snd (deleteCurrentSession w)) = users w
  /\ tenants (snd (deleteCurrentSession w)) = tenants w
  /\ (forall k, cookie w <> Some k ->
        sessions (snd (deleteCurrentSession w)) !! k = sessions w !! k)
  /\ (forall token, cookie w = Some token -> JsString.truthy token = true ->
        next_ok w = true ->
        sessions (snd (deleteCurrentSession w)) !! token = None).
Proof.
  rewrite deleteCurrentSession_run. cbn [fst snd cookie set_cookie].
  split; [reflexivity|]. split; [reflexivity|].
  cbn [users tenants sessions set_cookie].
  destruct (cookie w) as [token|] eqn:Hcookie.
  2:{ repeat split; auto. intros token Hc. discriminate. }
  destruct (JsString.truthy token) eqn:Htok.
  2:{ repeat split; auto. intros t Hc Ht. injection Hc as <-. congruence. }
  rewrite deleteSession_run. cbn [snd].
  destruct (pop_fault_frame w) as (Ht & Hu & Hs & _).
  destruct (next_ok w); cbn [users tenants sessions set_sessions];
    rewrite ?Ht, ?Hu, ?Hs; repeat split; auto.
  - intros k Hk. apply lookup_delete_ne. congruence.
  - intros t Hc _ _. injection Hc as <-. apply lookup_delete_eq.
  - intros t _ _ Hfalse. discriminate.
Qed.

Lemma deleteCurrentSession_clears_witness :
  cookie (snd (deleteCurrentSession Scenario.world)) = None
  /\ sessions (snd (deleteCurrentSession Scenario.world)) !! "aa01" = None
  /\ sessions (snd (deleteCurrentSession Scenario.world)) !! "bb01"
     = Some Scenario.live_bob.
Proof.
  destruct (deleteCurrentSession_clears Scenario.world)
    as (_ & Hcookie & _ & _ & Hothers & Hgone).
  split; [exact Hcookie|]. split.
  - apply Hgone; reflexivity.
  - rewrite Hothers; [vm_compute; reflexivity|discriminate].
Defined.

(** X12. The logout handler always answers 200 with the success message:
    its error branch cannot be reached, because [deleteCurrentSession]
    swallows every failure. After it, the caller has no cookie, and
    validation answers [null] for every expected tenant without asking
    the store. *)
Theorem logout_always_succeeds (request : NextRequest) (w : World)
    (tenantId : option string) :
  fst (Logout.POST request w)
  = Ok (LogoutSuccess "Logged out successfully", 200)
  /\ cookie (snd (Logout.POST request w)) = None
  /\ getSession tenantId (snd (Logout.POST request w))
     = (Ok None, snd (Logout.POST request w)).
Proof.
  assert (Hrun : Logout.POST request w
                 = (Ok (LogoutSuccess "Logged out successfully", 200),
                    snd (deleteCurrentSession w))).
  { unfold Logout.POST, try_catch, bind.
    rewrite deleteCurrentSession_run. reflexivity. }
  rewrite Hrun. cbn [fst snd].
  assert (Hc : cookie (snd (deleteCurrentSession w)) = None)
    by (rewrite deleteCurrentSession_run; reflexivity).
  split; [reflexivity|]. split; [exact Hc|].
  rewrite getSession_run, Hc. reflexivity.
Qed.

Lemma getSession_frame_witness :
  sessions (snd (getSession (Some "t-acme")
                   (set_cookie (Some "aa02") Scenario.world))) !! "aa02" = None
  /\ sessions (snd (getSession (Some "t-acme")
                      (set_cookie (Some "aa02") Scenario.world))) !! "bb02"
     = Some Scenario.stale_bob
  /\ sessions (snd (getSession (Some "t-other") Scenario.world)) !! "aa01"
     = Some Scenario.live_alice.
Proof.
  destruct (getSession_frame (Some "t-acme")
              (set_cookie (Some "aa02") Scenario.world))
    as (_ & _ & _ & _ & Hothers & _).
  destruct (getSession_frame (Some "t-other") Scenario.world)
    as (_ & _ & _ & _ & _ & Hlive).
  split; [vm_compute; reflexivity|]. split.
  - rewrite Hothers; [vm_compute; reflexivity|discriminate].
  - apply Hlive; [vm_compute; reflexivity|vm_compute; discriminate].
Defined.

(* ===================================================================== *)
(** ** Normalisation of subdomains *)
(* ===================================================================== *)

Section TrimFacts.

Lemma lower_char_idem (c : ascii) :
  JsString.lower_char (JsString.lower_char c) = JsString.lower_char c.
Proof. destruct c as [[] [] [] [] [] [] [] []]; reflexivity. Qed.

Lemma toLowerCase_idem (s : string) :
  JsString.toLowerCase (JsString.toLowerCase s) = JsString.toLowerCase s.
Proof.
  induction s as [|c r IH]; [reflexivity|].
  cbn [JsString.toLowerCase]. rewrite lower_char_idem, IH. reflexivity.
Qed.

Lemma toLowerCase_app (a b : string) :
  JsString.toLowerCase (a +:+ b)
  = JsString.toLowerCase a +:+ JsString.toLowerCase b.
Proof.
  induction a as [|c r IH]; [reflexivity|].
  change (String c r +:+ b) with (String c (r +:+ b)).
  cbn [JsString.toLowerCase]. rewrite IH. reflexivity.
Qed.

Lemma all_space_app (a b : string) :
  JsString.all_space (a +:+ b)
  = (JsString.all_space a && JsString.all_space b)%bool.
Proof.
  induction a as [|c r IH]; [reflexivity|].
  change (String c r +:+ b) with (String c (r +:+ b)).
  cbn [JsString.all_space]. rewrite IH, andb_assoc. reflexivity.
Qed.

Lemma trimStart_all_space (s : string) :
  JsString.all_space s = true -> JsString.trimStart s = EmptyString.
Proof.
  induction s as [|c r IH]; [reflexivity|].
  cbn [JsString.all_space JsString.trimStart]. intros Hs.
  apply andb_true_iff in Hs. destruct Hs as [-> Hr]. exact (IH Hr).
Qed.

Lemma trimEnd_all_space (s : string) :
  JsString.all_space s = true -> JsString.trimEnd s = EmptyString.
Proof.
  destruct s as [|c r]; [reflexivity|]. intros Hs.
  cbn [JsString.trimEnd]. rewrite Hs. reflexivity.
Qed.

Lemma trimStart_app_space (pre s : string) :
  JsString.all_space pre = true ->
  JsString.trimStart (pre +:+ s) = JsString.trimStart s.
Proof.
  induction pre as [|c r IH]; [reflexivity|].
  change (String c r +:+ s) with (String c (r +:+ s)).
  cbn [JsString.all_space JsString.trimStart]. intros Hs.
  apply andb_true_iff in Hs. destruct Hs as [-> Hr]. exact (IH Hr).
Qed.

Lemma trimStart_app (s post : string) :
  JsString.trimStart (s +:+ post)
  = if JsString.all_space s then JsString.trimStart post
    else JsString.trimStart s +:+ post.
Proof.
  induction s as [|c r IH]; [reflexivity|].
  change (String c r +:+ post) with (String c (r +:+ post)).
  cbn [JsString.trimStart JsString.all_space].
  destruct (JsString.is_space c); [exact IH|reflexivity].
Qed.

Lemma trimEnd_app_space (s post : string) :
  JsString.all_space post = true ->
  JsString.trimEnd (s +:+ post) = JsString.trimEnd s.
Proof.
  intros Hp. induction s as [|c r IH].
  - change (EmptyString +:+ post) with post.
    apply trimEnd_all_space. exact Hp.
  - change (String c r +:+ post) with (String c (r +:+ post)).
    cbn [JsString.trimEnd JsString.all_space].
    rewrite all_space_app, Hp, andb_true_r, IH. reflexivity.
Qed.

Lemma all_space_trimEnd (s : string) :
  JsString.all_space (JsString.trimEnd s) = JsString.all_space s.
Proof.
  induction s as [|c r IH]; [reflexivity|].
  cbn [JsString.trimEnd].
  destruct (JsString.all_space (String c r)) eqn:Hs; [reflexivity|].
  cbn [JsString.all_space] in Hs |- *. rewrite IH. exact Hs.
Qed.

Lemma trimEnd_idem (s : string) :
  JsString.trimEnd (JsString.trimEnd s) = JsString.trimEnd s.
Proof.
  induction s as [|c r IH]; [reflexivity|].
  cbn [JsString.trimEnd].
  destruct (JsString.all_space (String c r)) eqn:Hs; [reflexivity|].
  cbn [JsString.trimEnd JsString.all_space].
  rewrite all_space_trimEnd.
  cbn [JsString.all_space] in Hs. rewrite Hs, IH. reflexivity.
Qed.

(** What is left of a string once its leading white space is gone does
    not start with white space, and cutting its tail keeps it so. *)
Lemma trimStart_trimEnd_trimStart (s : string) :
  JsString.trimStart (JsString.trimEnd (JsString.trimStart s))
  = JsString.trimEnd (JsString.trimStart s).
Proof.
  induction s as [|c r IH]; [reflexivity|].
  cbn [JsString.trimStart].
  destruct (JsString.is_space c) eqn:Hc; [exact IH|].
  cbn [JsString.trimEnd JsString.all_space]. rewrite Hc. cbn [andb].
  cbn [JsString.trimStart]. rewrite Hc. reflexivity.
Qed.

Lemma trim_idem (s : string) : JsString.trim (JsString.trim s) = JsString.trim s.
Proof.
  unfold JsString.trim.
  rewrite trimStart_trimEnd_trimStart, trimEnd_idem. reflexivity.
Qed.

Lemma trim_padding (pre s post : string) :
  JsString.all_space pre = true -> JsString.all_space post = true ->
  JsString.trim (pre +:+ s +:+ post) = JsString.trim s.
Proof.
  intros Hpre Hpost. unfold JsString.trim.
  rewrite trimStart_app_space by exact Hpre.
  rewrite trimStart_app.
  destruct (JsString.all_space s) eqn:Hs.
  - rewrite (trimStart_all_space post Hpost), (trimStart_all_space s Hs).
    reflexivity.
  - apply trimEnd_app_space. exact Hpost.
Qed.

End TrimFacts.

Lemma normalized_idem (s : string) : normalized (normalized s) = normalized s.
Proof.
  rewrite (normalized_commutes (normalized s)).
  unfold normalized at 1. rewrite trim_idem.
  change (JsString.trim (JsString.toLowerCase s)) with (normalized s).
  rewrite !normalized_commutes, toLowerCase_idem. reflexivity.
Qed.

Lemma normalized_padding (pre s post : string) :
  JsString.all_space pre = true -> JsString.all_space post = true ->
  normalized (pre +:+ s +:+ post) = normalized s.
Proof.
  intros Hpre Hpost. unfold normalized.
  rewrite !toLowerCase_app. apply trim_padding; rewrite all_space_lower; assumption.
Qed.

Lemma normalized_lower (s s' : string) :
  JsString.toLowerCase s' = JsString.toLowerCase s -> normalized s' = normalized s.
Proof. unfold normalized. intros ->. reflexivity. Qed.

Lemma getTenantBySubdomain_key (s s' : string) (w : World) :
  normalized s' = normalized s ->
  getTenantBySubdomain s' w = getTenantBySubdomain s w.
Proof. intros Hn. rewrite !getTenantBySubdomain_run, Hn. reflexivity. Qed.

(** X13. The directory is insensitive to case and to surrounding white
    space: a subdomain padded with white space on either side, a
    subdomain that differs only in the case of its letters, and the
    normalised subdomain itself all resolve exactly as the subdomain
    does; and the subdomain stored on a tenant that was found resolves to
    the same answer again. *)
Theorem tenant_lookup_insensitive (s pre post : string) (w : World) :
  JsString.all_space pre = true ->
  JsString.all_space post = true ->
  getTenantBySubdomain (pre +:+ s +:+ post) w = getTenantBySubdomain s w
  /\ (forall s', JsString.toLowerCase s' = JsString.toLowerCase s ->
        getTenantBySubdomain s' w = getTenantBySubdomain s w)
  /\ getTenantBySubdomain (normalized s) w = getTenantBySubdomain s w
  /\ (forall t, fst (getTenantBySubdomain s w) = Ok (Some t) ->
        getTenantBySubdomain (Tenant.subdomain t) w = getTenantBySubdomain s w).
Proof.
  intros Hpre Hpost. split; [|split; [|split]].
  - apply getTenantBySubdomain_key, normalized_padding; assumption.
  - intros s' Hs. apply getTenantBySubdomain_key, normalized_lower, Hs.
  - apply getTenantBySubdomain_key, normalized_idem.
  - intros t Ht. apply getTenantBySubdomain_key.
    rewrite getTenantBySubdomain_run in Ht. cbn [fst] in Ht.
    destruct (next_ok w); [|discriminate].
    injection Ht as Ht. apply tenant_by_subdomain_some in Ht.
    destruct Ht as [_ ->]. apply normalized_idem.
Qed.

Lemma tenant_lookup_insensitive_witness :
  fst (getTenantBySubdomain "  AcMe  " Scenario.world) = Ok (Some Sample.acme)
  /\ getTenantBySubdomain ("  " +:+ "AcMe" +:+ "  ") Scenario.world
     = getTenantBySubdomain "AcMe" Scenario.world.
Proof.
  destruct (tenant_lookup_insensitive "AcMe" "  " "  " Scenario.world)
    as (Hpad & _); [reflexivity|reflexivity|].
  split; [vm_compute; reflexivity|exact Hpad].
Defined.

(* ===================================================================== *)
(** ** Resolving the tenant of a request *)
(* ===================================================================== *)

(** X14. [getTenantIdFromRequest] never throws, leaves the world as
    [getTenantFromRequest] does, and returns an id exactly when the tenant
    is resolved and its id is not empty, that id. With the
    [x-tenant-subdomain] header missing or empty both functions answer
    [null] without asking the store. *)
Theorem getTenantIdFromRequest_spec (request : NextRequest) (w : World) :
  snd (getTenantIdFromRequest request w) = snd (getTenantFromRequest request w)
  /\ (exists r, fst (getTenantIdFromRequest request w) = Ok r)
  /\ (forall id,
        fst (getTenantIdFromRequest request w) = Ok (Some id)
        <-> id <> ""
            /\ exists t, fst (getTenantFromRequest request w) = Ok (Some t)
                         /\ Tenant.id t = id)
  /\ (x_tenant_subdomain request = None
      \/ x_tenant_subdomain request = Some "" ->
      getTenantFromRequest request w = (Ok None, w)
      /\ getTenantIdFromRequest request w = (Ok None, w)).
Proof.
  unfold getTenantIdFromRequest, bind, ret.
  destruct (getTenantFromRequest_frame request w) as [[r Hr] _].
  destruct (getTenantFromRequest request w) as [[res|e] w1] eqn:Hrun;
    cbn [fst] in Hr; [|discriminate].
  cbn [fst snd]. split; [reflexivity|]. split; [eauto|]. split.
  - intros id. destruct res as [t|].
    + destruct (JsString.truthy (Tenant.id t)) eqn:Ht.
      * split.
        -- intros Heq. injection Heq as <-. split; [|eauto].
           intros Hempty. rewrite Hempty in Ht. discriminate.
        -- intros (_ & t' & Heq & <-). injection Heq as <-. reflexivity.
      * split; [discriminate|].
        intros (Hne & t' & Heq & <-). injection Heq as <-.
        unfold JsString.truthy in Ht. apply negb_false_iff, String.eqb_eq in Ht.
        contradiction.
    + split; [discriminate|]. intros (_ & t & Heq & _). discriminate.
  - intros Hmissing. rewrite getTenantFromRequest_run in Hrun.
    destruct Hmissing as [Hm|Hm]; rewrite Hm in Hrun; cbn in Hrun;
      injection Hrun as <- <-; split; reflexivity.
Qed.

Lemma getTenantIdFromRequest_spec_witness :
  fst (getTenantIdFromRequest Sample.request Scenario.world) = Ok (Some "t-acme")
  /\ getTenantIdFromRequest Scenario.incoming (set_faults [true] Scenario.world)
     = (Ok None, set_faults [true] Scenario.world).
Proof.
  destruct (getTenantIdFromRequest_spec Sample.request Scenario.world)
    as (_ & _ & Hid & _).
  destruct (getTenantIdFromRequest_spec Scenario.incoming
              (set_faults [true] Scenario.world)) as (_ & _ & _ & Hmissing).
  split.
  - apply Hid. split; [discriminate|].
    exists Sample.acme. split; reflexivity.
  - apply Hmissing. left. reflexivity.
Defined.

(* ===================================================================== *)
(** ** The edge middleware *)
(* ===================================================================== *)






Lemma getSubdomain_lower (hostname : string) :
  getSubdomain hostname
  = option_map JsString.toLowerCase (extractSubdomain hostname).
Proof.
  unfold getSubdomain, extractSubdomain.
  destruct (_ || _)%bool; [reflexivity|].
  destruct (3 <=? _)%nat; reflexivity.
Qed.

Lemma truthy_lower (s : string) :
  JsString.truthy (JsString.toLowerCase s) = JsString.truthy s.
Proof. destruct s; reflexivity. Qed.

(** X16. The two edge variants lead to the same tenant. Whatever the
    request, the handlers resolve the same tenant, and authenticate the
    same user, behind the middleware that forwards the first label as
    written and behind the one that lower-cases it. *)
Theorem middleware_variants_agree (request : NextRequest) (w : World) :
  getTenantFromRequest (middleware_lowercase request) w
  = getTenantFromRequest (middleware request) w
  /\ getAuthenticatedUser (middleware_lowercase request) w
     = getAuthenticatedUser (middleware request) w.
Proof.
  assert (Ht : getTenantFromRequest (middleware_lowercase request) w
               = getTenantFromRequest (middleware request) w).
  { unfold middleware_lowercase, middleware. rewrite getSubdomain_lower.
    destruct (extractSubdomain (host_or_empty request)) as [s|];
      [|reflexivity].
    cbn [option_map JsString.truthy_opt]. rewrite truthy_lower.
    destruct (JsString.truthy s) eqn:Hs; [|reflexivity].
    rewrite !getTenantFromRequest_run. cbn [x_tenant_subdomain].
    rewrite truthy_lower, Hs.
    apply getTenantBySubdomain_key, normalized_lower, toLowerCase_idem. }
  split; [exact Ht|].
  unfold getAuthenticatedUser, bind. rewrite Ht. reflexivity.
Qed.

(** X17. Split and single-process resolution agree. For a request that
    carries no [x-tenant-subdomain] header of its own, the tenant the
    handlers resolve behind the edge middleware is the tenant
    [getServerTenant] resolves from the [host] header directly (shown
    with its id, subdomain and name), and the two leave the same world;
    neither throws. *)
Theorem split_resolution_agrees (request : NextRequest) (w : World) :
  x_tenant_subdomain request = None ->
  exists r w',
    getTenantFromRequest (middleware request) w = (Ok r, w')
    /\ getServerTenant request w = (Ok (option_map server_view r), w').
Proof.
  intros Hnone. unfold getServerTenant, try_catch, bind, middleware.
  destruct (extractSubdomain (host_or_empty request)) as [s|];
    cbn [JsString.truthy_opt negb].
  2:{ exists None, w. rewrite getTenantFromRequest_run, Hnone.
      split; reflexivity. }
  destruct (JsString.truthy s) eqn:Hs; cbn [negb].
  2:{ exists None, w. rewrite getTenantFromRequest_run, Hnone.
      split; reflexivity. }
  rewrite getTenantFromRequest_run. cbn [x_tenant_subdomain].
  rewrite Hs. cbn [default from_option id].
  rewrite getTenantBySubdomain_run.
  eexists _, _. split; [reflexivity|].
  destruct (if next_ok w then _ else _); reflexivity.
Qed.

Lemma split_resolution_agrees_witness :
  getServerTenant Scenario.incoming Scenario.world
  = (Ok (Some (server_view Sample.acme)), Scenario.world)
  /\ fst (getTenantFromRequest (middleware Scenario.incoming) Scenario.world)
     = Ok (Some Sample.acme).
Proof.
  destruct (split_resolution_agrees Scenario.incoming Scenario.world eq_refl)
    as (r & w' & Hsplit & Hserver).
  assert (Hr : r = Some Sample.acme /\ w' = Scenario.world).
  { vm_compute in Hsplit. injection Hsplit as <- <-. split; reflexivity. }
  destruct Hr as [-> ->]. rewrite Hsplit. split; [exact Hserver|reflexivity].
Defined.

(** X18. The server-component gate. For a request that carries no
    [x-tenant-subdomain] header of its own, [getServerAuthUser] returns
    what [getAuthenticatedUser] returns behind the edge middleware, and
    [null] where that one throws; it never throws itself; the two leave
    the same world; and a user it returns belongs to a tenant of the
    directory whose subdomain is the normalised first label of the
    host. *)
Theorem server_auth_agrees (request : NextRequest) (w : World) :
  x_tenant_subdomain request = None ->
  fst (getServerAuthUser request w)
  = match fst (getAuthenticatedUser (middleware request) w) with
    | Ok r => Ok r
    | Throw _ => Ok None
    end
  /\ snd (getServerAuthUser request w)
     = snd (getAuthenticatedUser (middleware request) w)
  /\ (forall user,
        fst (getServerAuthUser request w) = Ok (Some user) ->
        exists label tenant,
          extractSubdomain (host_or_empty request) = Some label
          /\ In tenant (tenants w)
          /\ Tenant.subdomain tenant = normalized label
          /\ SessionUser.tenantId user = Tenant.id tenant).
Proof.
  intros Hnone.
  unfold getServerAuthUser, getAuthenticatedUser, try_catch, bind, middleware.
  destruct (extractSubdomain (host_or_empty request)) as [s|];
    cbn [JsString.truthy_opt negb].
  2:{ rewrite getTenantFromRequest_run, Hnone. cbn [fst snd ret].
      repeat split. discriminate. }
  destruct (JsString.truthy s) eqn:Hs; cbn [negb].
  2:{ rewrite getTenantFromRequest_run, Hnone. cbn [fst snd ret].
      repeat split. discriminate. }
  rewrite getTenantFromRequest_run. cbn [x_tenant_subdomain].
  rewrite Hs. cbn [default from_option id].
  rewrite getTenantBySubdomain_run.
  destruct (next_ok w) eqn:Hok.
  2:{ cbn [fst snd ret]. repeat split. discriminate. }
  destruct (tenant_by_subdomain (normalized s) (tenants w)) as [t|] eqn:Ht.
  2:{ cbn [fst snd ret]. repeat split. discriminate. }
  apply tenant_by_subdomain_some in Ht. destruct Ht as [Hin Hsub].
  rewrite <- (proj1 (pop_fault_frame w)) in Hin.
  destruct (getSessionUser (Tenant.id t) (pop_fault w)) as [[r|e] w1] eqn:Hu;
    cbn [fst snd ret]; repeat split; try discriminate.
  intros user Heq. injection Heq as ->.
  exists s, t. rewrite (proj1 (pop_fault_frame w)) in Hin.
  repeat split; try assumption.
  destruct (getSessionUser_some_inv _ _ _ _ Hu)
    as (_ & _ & row & _ & _ & _ & _ & _ & Hrow & ->).
  exact Hrow.
Qed.

Lemma server_auth_agrees_witness :
  fst (getServerAuthUser Scenario.incoming Scenario.world)
  = Ok (Some (selected Sample.alice))
  /\ fst (getServerAuthUser Scenario.incoming
            (set_faults [false; false; true] Scenario.world)) = Ok None
  /\ fst (getAuthenticatedUser (middleware Scenario.incoming)
            (set_faults [false; false; true] Scenario.world))
     = Throw StorageError.
Proof.
  destruct (server_auth_agrees Scenario.incoming Scenario.world eq_refl)
    as (Hsame & _).
  destruct (server_auth_agrees Scenario.incoming
              (set_faults [false; false; true] Scenario.world) eq_refl)
    as (Hdown & _).
  split; [rewrite Hsame; vm_compute; reflexivity|].
  split; [rewrite Hdown; vm_compute; reflexivity|vm_compute; reflexivity].
Defined.

(* ===================================================================== *)
(** ** Login: what it writes, and what a success means *)
(* ===================================================================== *)

Section LoginRun.
Context `{Password}.

(** The login handler, step by step. *)
Lemma login_run (request : NextRequest) (w : World) :
  Login.POST request w =
  match getTenantFromRequest request w with
  | (Throw _, w1) => (Ok r500, w1)
  | (Ok None, w1) => (Ok r404, w1)
  | (Ok (Some tenant), w1) =>
    match json request with
    | None => (Ok r500, w1)
    | Some body =>
      if (negb (JsString.truthy_opt (Body.email body))
          || negb (JsString.truthy_opt (Body.password body)))%bool
      then (Ok r400_required, w1)
      else
        match dbUser.findByEmail (Tenant.id tenant)
                (default "" (Body.email body)) w1 with
        | (Throw _, w2) => (Ok r500, w2)
        | (Ok None, w2) => (Ok invalid_credentials, w2)
        | (Ok (Some user), w2) =>
          if negb (comparePassword (default "" (Body.password body))
                                   (User.password user))
          then (Ok invalid_credentials, w2)
          else
            match createSession (User.id user) (Tenant.id tenant) w2 with
            | (Throw _, w3) => (Ok r500, w3)
            | (Ok _, w3) =>
                (Ok (mkResponse
                       (JsonLogin (PublicUser.mk (User.id user)
                                     (User.email user) (User.name user)))
                       200), w3)
            end
        end
    end
  end.
Proof.
  unfold Login.POST, try_catch, bind.
  destruct (getTenantFromRequest request w) as [[[tenant|]|e] w1];
    try reflexivity.
  unfold request_json.
  destruct (json request) as [body|]; [|reflexivity].
  unfold ret at 1. cbn zeta.
  destruct (_ || _)%bool; [reflexivity|].
  destruct (dbUser.findByEmail _ _ w1) as [[[user|]|e] w2]; try reflexivity.
  destruct (negb (comparePassword _ _)); [reflexivity|].
  destruct (createSession _ _ w2) as [[token|e] w3]; reflexivity.
Qed.

(** [createSession] leaves users and tenants alone, however it ends. *)
Lemma createSession_users (userId tenantId : string) (w : World) :
  users (snd (createSession userId tenantId w)) = users w
  /\ tenants (snd (createSession userId tenantId w)) = tenants w.
Proof.
  pose proof (createSession_run userId tenantId w) as Hrun.
  cbn zeta in Hrun. rewrite Hrun.
  destruct (pop_fault_frame (set_rpos (rpos w + 32)%nat w)) as (Ht & Hu & _).
  destruct (negb (next_ok w)); [|destruct (sessions w !! _)];
    cbn [snd users tenants set_cookie set_sessions]; auto.
Qed.

(** X19. What a login writes. Every answer other than 200 leaves tables
    and cookie as they were, also the 500 of a failed session insert. An
    answer of 200 means: the tenant was resolved, a user of that tenant
    has the submitted address, the submitted password verifies against
    that user's digest, exactly one session row was added, for that user
    and tenant under a token that was free, and the cookie holds that
    token; the user table is never written. *)
Theorem login_writes (request : NextRequest) (w w' : World)
    (resp : NextResponse) :
  Login.POST request w = (Ok resp, w') ->
  (status resp <> 200 -> observable w' = observable w)
  /\ (status resp = 200 ->
      exists tenant w1 email password name user token expiresAt,
        getTenantFromRequest request w = (Ok (Some tenant), w1)
        /\ json request = Some (Body.mk (Some email) (Some password) name)
        /\ In user (users w)
        /\ User.email user = email
        /\ User.tenantId user = Tenant.id tenant
        /\ comparePassword password (User.password user) = true
        /\ sessions w !! token = None
        /\ sessions w'
           = <[token := Session.mk (User.id user) (Tenant.id tenant) token
                          expiresAt]> (sessions w)
        /\ users w' = users w
        /\ cookie w' = Some token
        /\ resp = mkResponse
                    (JsonLogin (PublicUser.mk (User.id user) (User.email user)
                                              (User.name user)))
                    200).
Proof.
  rewrite login_run.
  pose proof (getTenantFromRequest_frame request w) as [_ Hobs].
  destruct (getTenantFromRequest request w) as [[[tenant|]|e] w1] eqn:Ht;
    cbn [snd] in Hobs;
    try (intros Heq; injection Heq as <- <-;
         split; [intros _; exact Hobs|intros Hst; discriminate Hst]).
  destruct (json request) as [body|] eqn:Hjson;
    try (intros Heq; injection Heq as <- <-;
         split; [intros _; exact Hobs|intros Hst; discriminate Hst]).
  destruct (_ || _)%bool eqn:Hreq;
    try (intros Heq; injection Heq as <- <-;
         split; [intros _; exact Hobs|intros Hst; discriminate Hst]).
  apply required_fields in Hreq.
  destruct Hreq as (email & password & Hbody & He & Hp).
  rewrite Hbody.
  cbn [Body.email Body.password Body.name default from_option id].
  pose proof (dbUser_findByEmail_frame (Tenant.id tenant) email w1) as Hfr.
  destruct (dbUser.findByEmail _ _ w1) as [[[user|]|e] w2] eqn:Hfind;
    cbn [snd] in Hfr;
    try (intros Heq; injection Heq as <- <-;
         split; [intros _; congruence|intros Hst; discriminate Hst]).
  destruct (comparePassword password (User.password user)) eqn:Hcmp;
    cbn [negb];
    try (intros Heq; injection Heq as <- <-;
         split; [intros _; congruence|intros Hst; discriminate Hst]).
  destruct (createSession _ _ w2) as [[token|e] w3] eqn:Hsess;
    intros Heq; injection Heq as <- <-.
  2:{ split; [|intros Hst; discriminate Hst].
      intros _. rewrite (createSession_throw_frame _ _ _ _ _ Hsess).
      congruence. }
  split; [intros Hne; contradiction Hne; reflexivity|]. intros _.
  apply dbUser_findByEmail_inv in Hfind. destruct Hfind as [Hfound _].
  symmetry in Hfound. apply List.find_some in Hfound.
  destruct Hfound as [Hin Hb]. apply andb_true_iff in Hb.
  destruct Hb as [Hue Hut]. apply String.eqb_eq in Hue, Hut.
  apply createSession_inv in Hsess.
  destruct Hsess as (_ & Hfresh & Hs & Hu & _ & Hc).
  assert (Hus : users w2 = users w)
    by (rewrite (observable_users _ _ Hfr); exact (observable_users _ _ Hobs)).
  assert (Hss : sessions w2 = sessions w)
    by (rewrite (observable_sessions _ _ Hfr);
        exact (observable_sessions _ _ Hobs)).
  rewrite Hss in Hfresh, Hs. rewrite (observable_users _ _ Hobs) in Hin.
  exists tenant, w1, email, password, (Body.name body), user, token,
    (plus_days (LocalTZA w2) SESSION_EXPIRATION_DAYS (now w2)).
  repeat split; try assumption; congruence.
Qed.

End LoginRun.

Lemma login_writes_witness :
  (exists w',
     Login.POST (H := Sample.bcrypt) Sample.request Scenario.world
     = (Ok (mkResponse
              (JsonLogin (PublicUser.mk "u-alice" "alice@x.com" (Some "Alice")))
              200), w')
     /\ users w' = users Scenario.world
     /\ size (sessions w') = 5%nat)
  /\ observable (snd (Login.POST (H := Sample.bcrypt)
                        Sample.login_wrong_password Scenario.world))
     = observable Scenario.world.
Proof.
  split.
  - destruct (Login.POST (H := Sample.bcrypt) Sample.request Scenario.world)
      as [[resp|e] w'] eqn:Hrun; [|vm_compute in Hrun; discriminate Hrun].
    destruct (login_writes (H := Sample.bcrypt) _ _ _ _ Hrun) as (_ & H200).
    assert (Hresp : resp = mkResponse
              (JsonLogin (PublicUser.mk "u-alice" "alice@x.com" (Some "Alice")))
              200)
      by (vm_compute in Hrun; injection Hrun as <- _; reflexivity).
    destruct H200
      as (tenant & w1 & email & password & name & user & token & expiresAt
          & _ & _ & _ & _ & _ & _ & Hfresh & Hs & Hu & _ & _);
      [rewrite Hresp; reflexivity|].
    exists w'. rewrite Hresp. split; [reflexivity|]. split; [exact Hu|].
    rewrite Hs, map_size_insert_None by exact Hfresh.
    vm_compute. reflexivity.
  - destruct (Login.POST (H := Sample.bcrypt) Sample.login_wrong_password
                Scenario.world) as [[resp|e] w'] eqn:Hrun;
      [|vm_compute in Hrun; discriminate Hrun].
    destruct (login_writes (H := Sample.bcrypt) _ _ _ _ Hrun) as (Hrej & _).
    apply Hrej. vm_compute in Hrun. injection Hrun as <- _. discriminate.
Defined.

(* ===================================================================== *)
(** ** A healthy store *)
(* ===================================================================== *)

Lemma healthy_pop (w : World) : faults w = [] -> pop_fault w = w.
Proof. unfold pop_fault. intros ->. reflexivity. Qed.

Lemma healthy_ok (w : World) : faults w = [] -> next_ok w = true.
Proof. unfold next_ok. intros ->. reflexivity. Qed.

(** With a healthy store the tenant of a request depends on the tenant
    table alone, and resolving it changes nothing. *)
Lemma getTenantFromRequest_healthy (request : NextRequest) (w w' : World)
    (r : option Tenant.t) :
  faults w = [] -> faults w' = [] -> tenants w' = tenants w ->
  getTenantFromRequest request w = (Ok r, w) ->
  getTenantFromRequest request w' = (Ok r, w').
Proof.
  intros Hf Hf' Ht. rewrite !getTenantFromRequest_run.
  destruct (x_tenant_subdomain request) as [s|];
    [|intros Heq; injection Heq as <-; reflexivity].
  destruct (JsString.truthy s);
    [|intros Heq; injection Heq as <-; reflexivity].
  rewrite !getTenantBySubdomain_run.
  rewrite (healthy_ok _ Hf), (healthy_ok _ Hf'), (healthy_pop _ Hf),
    (healthy_pop _ Hf'), Ht.
  intros Heq. injection Heq as <-. reflexivity.
Qed.

(** Once the cookie names a live session of a user of the tenant, and the
    store is healthy, the gate lets that user in. *)
Lemma getSessionUser_accepts (T token : string) (s : Session.t)
    (user : User.t) (w : World) :
  faults w = [] ->
  cookie w = Some token -> JsString.truthy token = true ->
  sessions w !! token = Some s ->
  now w <= Session.expiresAt s ->
  Session.tenantId s = T ->
  user_by_id (Session.userId s) (users w) = Some user ->
  User.tenantId user = T ->
  getSessionUser T w = (Ok (Some (selected user)), w).
Proof.
  intros Hf Hc Htok Hrow Hlive Ht Hu Hut.
  assert (Hs : getSession (Some T) w = (Ok (Some (identity_of s)), w)).
  { rewrite (getSession_live (Some T) s token w); try assumption;
      [|apply healthy_ok; exact Hf].
    rewrite <- Ht, tenant_mismatch_same, (healthy_pop _ Hf). reflexivity. }
  rewrite (getSessionUser_run _ _ _ _ Hs).
  rewrite (healthy_ok _ Hf), (healthy_pop _ Hf). cbn [negb].
  cbn [identity_of SessionData.userId]. rewrite Hu, Hut, String.eqb_refl.
  reflexivity.
Qed.

Section LoginRoundTrip.
Context `{Password}.

(** X20. Login, then the gate. With a healthy store, the tenant resolved,
    a well-formed body, a user of the tenant under the submitted address
    whose digest verifies the password, and a free token: the answer is
    200 with that user's id, address and name, a session row is stored
    under the drawn token, and at every time up to the expiry of that row
    (the date [setDate(getDate() + 30)] reached in the zone of the host)
    [getAuthenticatedUser] on a request of the same tenant returns that
    user (the user row being the one its id names). *)
Theorem login_then_authenticated (request : NextRequest) (w : World)
    (tenant : Tenant.t) (email password : string) (name : option string)
    (user : User.t) :
  faults w = [] ->
  getTenantFromRequest request w = (Ok (Some tenant), w) ->
  json request = Some (Body.mk (Some email) (Some password) name) ->
  JsString.truthy email = true ->
  JsString.truthy password = true ->
  user_by_email_tenantId email (Tenant.id tenant) (users w) = Some user ->
  comparePassword password (User.password user) = true ->
  sessions w !! next_token w = None ->
  user_by_id (User.id user) (users w) = Some user ->
  exists w' row,
    Login.POST request w
    = (Ok (mkResponse
             (JsonLogin (PublicUser.mk (User.id user) (User.email user)
                                       (User.name user)))
             200), w')
    /\ sessions w' !! next_token w = Some row
    /\ Session.expiresAt row
       = plus_days (LocalTZA w) SESSION_EXPIRATION_DAYS (now w)
    /\ forall date,
         date <= Session.expiresAt row ->
         getAuthenticatedUser request (set_now date w')
         = (Ok (Some (selected user)), set_now date w').
Proof.
  intros Hf Ht Hjson He Hp Hfind Hcmp Hfresh Hid.
  rewrite login_run, Ht, Hjson.
  cbn [Body.email Body.password JsString.truthy_opt default from_option id].
  rewrite He, Hp. cbn [negb orb].
  rewrite dbUser_findByEmail_run, (healthy_ok _ Hf), (healthy_pop _ Hf).
  cbn [negb]. rewrite Hfind, Hcmp. cbn [negb].
  pose proof (createSession_run (User.id user) (Tenant.id tenant) w) as Hrun.
  cbn zeta in Hrun. rewrite (healthy_ok _ Hf), Hfresh in Hrun.
  cbn [negb] in Hrun.
  rewrite (healthy_pop (set_rpos (rpos w + 32)%nat w) Hf) in Hrun.
  rewrite Hrun.
  set (row := Session.mk (User.id user) (Tenant.id tenant) (next_token w)
                (plus_days (LocalTZA w) SESSION_EXPIRATION_DAYS (now w))).
  eexists. exists row. split; [reflexivity|].
  split; [cbn [sessions set_cookie set_sessions]; apply lookup_insert_eq|].
  split; [reflexivity|].
  intros date Hdate.
  set (w' := set_now date _).
  assert (Hut : User.tenantId user = Tenant.id tenant).
  { apply List.find_some in Hfind. destruct Hfind as [_ Hb].
    apply andb_true_iff in Hb. destruct Hb as [_ Hb].
    apply String.eqb_eq in Hb. exact Hb. }
  unfold getAuthenticatedUser, bind.
  rewrite (getTenantFromRequest_healthy request w w' (Some tenant) Hf Hf
             eq_refl Ht).
  rewrite (getSessionUser_accepts (Tenant.id tenant) (next_token w) row user w');
    try reflexivity; try assumption.
  apply lookup_insert_eq.
Qed.

End LoginRoundTrip.

Lemma login_then_authenticated_witness :
  exists w',
    fst (Login.POST (H := Sample.bcrypt) Sample.request Scenario.world)
    = Ok (mkResponse
            (JsonLogin (PublicUser.mk "u-alice" "alice@x.com" (Some "Alice")))
            200)
    /\ w' = snd (Login.POST (H := Sample.bcrypt) Sample.request Scenario.world)
    /\ getAuthenticatedUser Sample.request w'
       = (Ok (Some (selected Sample.alice)), w').
Proof.
  destruct (login_then_authenticated (H := Sample.bcrypt) Sample.request
              Scenario.world Sample.acme "alice@x.com" "secret1" None
              Sample.alice) as (w' & row & Hrun & _ & Hexp & Hauth);
    try reflexivity.
  exists w'. rewrite Hrun. split; [reflexivity|]. split; [reflexivity|].
  assert (Hw : w' = snd (Login.POST (H := Sample.bcrypt) Sample.request
                           Scenario.world))
    by (rewrite Hrun; reflexivity).
  assert (Hnow : set_now 1000 w' = w') by (rewrite Hw; reflexivity).
  rewrite <- Hnow. apply Hauth. rewrite Hexp. vm_compute. discriminate.
Defined.

(* ===================================================================== *)
(** ** The derivative matcher against the language of an expression *)
(* ===================================================================== *)

Section RegexFacts.

Lemma append_nil_inv (s t : string) :
  s +:+ t = EmptyString -> s = EmptyString /\ t = EmptyString.
Proof. destruct s; [auto|discriminate]. Qed.

Lemma nullable_matches (r : Regex.re) :
  Regex.nullable r = true -> matches r EmptyString.
Proof.
  induction r as [| |p|a IHa b IHb|a IHa b IHb|a IHa]; cbn [Regex.nullable];
    intros Hn; try discriminate.
  - constructor.
  - apply andb_true_iff in Hn. destruct Hn as [Ha Hb].
    apply (matches_seq a b EmptyString EmptyString); auto.
  - apply orb_true_iff in Hn.
    destruct Hn as [Ha|Hb]; [apply matches_alt_l|apply matches_alt_r]; auto.
  - constructor.
Qed.

Lemma matches_nullable (r : Regex.re) (s : string) :
  matches r s -> s = EmptyString -> Regex.nullable r = true.
Proof.
  induction 1 as [|p c Hp|a b s t _ IHa _ IHb|a b s _ IH|a b s _ IH
                  |a|a s t _ _ _ _]; intros Hs; cbn [Regex.nullable];
    try reflexivity; try discriminate.
  - apply append_nil_inv in Hs. destruct Hs as [Hs Ht].
    rewrite (IHa Hs), (IHb Ht). reflexivity.
  - rewrite (IH Hs). reflexivity.
  - rewrite (IH Hs). apply orb_true_r.
Qed.

Lemma deriv_sound (c : ascii) (r : Regex.re) :
  forall s, matches (Regex.deriv c r) s -> matches r (String c s).
Proof.
  induction r as [| |p|a IHa b IHb|a IHa b IHb|a IHa]; intros s;
    cbn [Regex.deriv].
  - inversion 1.
  - inversion 1.
  - destruct (p c) eqn:Hp; inversion 1; subst. constructor. exact Hp.
  - assert (Hseq : matches (Regex.Seq (Regex.deriv c a) b) s ->
                   matches (Regex.Seq a b) (String c s)).
    { inversion 1 as [| |a' b' s1 s2 H1 H2| | | |]; subst.
      apply (matches_seq a b (String c s1) s2); auto. }
    destruct (Regex.nullable a) eqn:Hn; [|exact Hseq].
    inversion 1 as [| | |a' b' s' Hl|a' b' s' Hr| |]; subst; [auto|].
    apply (matches_seq a b EmptyString (String c s));
      [apply nullable_matches; exact Hn|auto].
  - inversion 1 as [| | |a' b' s' Hl|a' b' s' Hr| |]; subst;
      [apply matches_alt_l|apply matches_alt_r]; auto.
  - inversion 1 as [| |a' b' s1 s2 H1 H2| | | |]; subst.
    apply (matches_star_cons a (String c s1) s2); auto.
Qed.

Lemma deriv_complete (r : Regex.re) (t : string) :
  matches r t ->
  forall c s, t = String c s -> matches (Regex.deriv c r) s.
Proof.
  induction 1 as [|p c' Hp|a b s1 t1 Ha IHa Hb IHb|a b s' _ IH|a b s' _ IH
                  |a|a s1 t1 Ha IHa Hs IHs]; intros c s Heq;
    cbn [Regex.deriv]; try discriminate.
  - injection Heq as -> <-. rewrite Hp. constructor.
  - destruct s1 as [|c1 s1].
    + change (EmptyString +:+ t1) with t1 in Heq.
      rewrite (matches_nullable a EmptyString Ha eq_refl).
      apply matches_alt_r. apply IHb. exact Heq.
    + change (String c1 s1 +:+ t1) with (String c1 (s1 +:+ t1)) in Heq.
      injection Heq as -> <-.
      assert (Hseq : matches (Regex.Seq (Regex.deriv c a) b) (s1 +:+ t1))
        by (apply matches_seq; [apply IHa; reflexivity|exact Hb]).
      destruct (Regex.nullable a); [apply matches_alt_l|]; exact Hseq.
  - apply matches_alt_l. apply IH. exact Heq.
  - apply matches_alt_r. apply IH. exact Heq.
  - destruct s1 as [|c1 s1].
    + change (EmptyString +:+ t1) with t1 in Heq.
      specialize (IHs c s Heq). cbn [Regex.deriv] in IHs. exact IHs.
    + change (String c1 s1 +:+ t1) with (String c1 (s1 +:+ t1)) in Heq.
      injection Heq as -> <-.
      apply matches_seq; [apply IHa; reflexivity|exact Hs].
Qed.

(** The matcher decides the language. *)
Lemma test_matches (s : string) :
  forall r, Regex.test r s = true <-> matches r s.
Proof.
  induction s as [|c s IH]; intros r; cbn [Regex.test].
  - split; [apply nullable_matches|].
    intros Hm. apply (matches_nullable r EmptyString Hm eq_refl).
  - rewrite IH. split; [apply deriv_sound|].
    intros Hm. apply (deriv_complete r (String c s) Hm c s eq_refl).
Qed.

Lemma forallb_app (p : ascii -> bool) (a b : string) :
  string_forallb p (a +:+ b)
  = (string_forallb p a && string_forallb p b)%bool.
Proof.
  induction a as [|c r IH]; [reflexivity|].
  change (String c r +:+ b) with (String c (r +:+ b)).
  cbn [string_forallb]. rewrite IH, andb_assoc. reflexivity.
Qed.

Lemma matches_star_class (p : ascii -> bool) (r : Regex.re) (s : string) :
  matches r s -> r = Regex.Star (Regex.Class p) ->
  string_forallb p s = true.
Proof.
  induction 1 as [| | | | |a|a s1 t1 Ha _ Hs IHs]; intros Hr;
    try discriminate; [reflexivity|].
  injection Hr as ->. rewrite forallb_app, (IHs eq_refl), andb_true_r.
  inversion Ha; subst. cbn [string_forallb]. rewrite andb_true_r. assumption.
Qed.

Lemma star_class_matches (p : ascii -> bool) (s : string) :
  string_forallb p s = true -> matches (Regex.Star (Regex.Class p)) s.
Proof.
  induction s as [|c r IH]; [constructor|].
  cbn [string_forallb]. intros Hp. apply andb_true_iff in Hp.
  destruct Hp as [Hc Hr].
  apply (matches_star_cons (Regex.Class p) (String c EmptyString) r);
    [constructor; exact Hc|auto].
Qed.

(** One or more characters of a class. *)
Lemma matches_plus_class (p : ascii -> bool) (s : string) :
  matches (Regex.Plus (Regex.Class p)) s
  <-> s <> EmptyString /\ string_forallb p s = true.
Proof.
  unfold Regex.Plus. split.
  - inversion 1 as [| |a b s1 s2 H1 H2| | | |]; subst.
    inversion H1; subst.
    change (String c EmptyString +:+ s2) with (String c s2).
    split; [discriminate|]. cbn [string_forallb].
    rewrite (matches_star_class p _ s2 H2 eq_refl), andb_true_r. assumption.
  - intros [Hne Hp]. destruct s as [|c r]; [contradiction|].
    cbn [string_forallb] in Hp. apply andb_true_iff in Hp.
    destruct Hp as [Hc Hr].
    apply (matches_seq (Regex.Class p) _ (String c EmptyString) r);
      [constructor; exact Hc|apply star_class_matches; exact Hr].
Qed.

Lemma matches_seq_inv (a b : Regex.re) (s : string) :
  matches (Regex.Seq a b) s
  <-> exists s1 s2, s = s1 +:+ s2 /\ matches a s1 /\ matches b s2.
Proof.
  split.
  - inversion 1; subst; eauto.
  - intros (s1 & s2 & -> & Ha & Hb). constructor; assumption.
Qed.

Lemma matches_char_inv (c : ascii) (s : string) :
  matches (Regex.Class (Ascii.eqb c)) s <-> s = String c EmptyString.
Proof.
  split.
  - inversion 1 as [|p c' Hp| | | | |]; subst.
    apply Ascii.eqb_eq in Hp. subst. reflexivity.
  - intros ->. constructor. apply Ascii.eqb_refl.
Qed.

End RegexFacts.

(* ===================================================================== *)
(** ** Signup: the address test *)
(* ===================================================================== *)

(** The shape the address test accepts. *)
Lemma email_shape (e : string) :
  Regex.test Signup.emailRegex e = true
  <-> exists l d1 d2,
        e = l +:+ String "@" (d1 +:+ String "." d2)
        /\ address_part l /\ address_part d1 /\ address_part d2.
Proof.
  rewrite test_matches. unfold Signup.emailRegex, address_part.
  rewrite matches_seq_inv. split.
  - intros (l & r1 & -> & Hl & H1).
    apply matches_seq_inv in H1. destruct H1 as (x & r2 & -> & Hx & H2).
    apply matches_char_inv in Hx. subst x.
    apply matches_seq_inv in H2. destruct H2 as (d1 & r3 & -> & Hd1 & H3).
    apply matches_seq_inv in H3. destruct H3 as (y & d2 & -> & Hy & Hd2).
    apply matches_char_inv in Hy. subst y.
    apply matches_plus_class in Hl, Hd1, Hd2.
    exists l, d1, d2. auto.
  - intros (l & d1 & d2 & -> & Hl & Hd1 & Hd2).
    apply matches_plus_class in Hl, Hd1, Hd2.
    exists l, (String "@" (d1 +:+ String "." d2)). split; [reflexivity|].
    split; [exact Hl|]. apply matches_seq_inv.
    exists (String "@" EmptyString), (d1 +:+ String "." d2).
    split; [reflexivity|]. split; [apply matches_char_inv; reflexivity|].
    apply matches_seq_inv. exists d1, (String "." d2).
    split; [reflexivity|]. split; [exact Hd1|]. apply matches_seq_inv.
    exists (String "." EmptyString), d2.
    split; [reflexivity|]. split; [apply matches_char_inv; reflexivity|].
    exact Hd2.
Qed.

Lemma not_space_at_lower (c : ascii) :
  Signup.not_space_at (JsString.lower_char c) = Signup.not_space_at c.
Proof. destruct c as [[] [] [] [] [] [] [] []]; reflexivity. Qed.

Lemma address_part_lower (s : string) :
  address_part s -> address_part (JsString.toLowerCase s).
Proof.
  intros [Hne Hp]. split; [destruct s; [contradiction|discriminate]|].
  clear Hne. induction s as [|c r IH]; [reflexivity|].
  cbn [JsString.toLowerCase string_forallb] in *.
  apply andb_true_iff in Hp. destruct Hp as [Hc Hr].
  rewrite not_space_at_lower, Hc, (IH Hr). reflexivity.
Qed.

Lemma address_part_no_space (s : string) :
  address_part s ->
  string_forallb (fun c => negb (JsString.is_space c)) s = true.
Proof.
  intros [_ Hp]. induction s as [|c r IH]; [reflexivity|].
  cbn [string_forallb] in *. apply andb_true_iff in Hp.
  destruct Hp as [Hc Hr]. rewrite (IH Hr), andb_true_r.
  unfold Signup.not_space_at in Hc. apply negb_true_iff, orb_false_iff in Hc.
  destruct Hc as [-> _]. reflexivity.
Qed.

Lemma trim_no_space (s : string) :
  string_forallb (fun c => negb (JsString.is_space c)) s = true ->
  JsString.trim s = s.
Proof.
  intros Hp. unfold JsString.trim.
  assert (Hstart : JsString.trimStart s = s).
  { destruct s as [|c r]; [reflexivity|].
    cbn [string_forallb] in Hp. apply andb_true_iff in Hp.
    destruct Hp as [Hc _]. apply negb_true_iff in Hc.
    cbn [JsString.trimStart]. rewrite Hc. reflexivity. }
  rewrite Hstart. induction s as [|c r IH]; [reflexivity|].
  cbn [string_forallb] in Hp. apply andb_true_iff in Hp.
  destruct Hp as [Hc Hr]. apply negb_true_iff in Hc.
  cbn [JsString.trimEnd JsString.all_space]. rewrite Hc. cbn [andb].
  rewrite IH; [reflexivity|exact Hr|].
  destruct r as [|c' r']; [reflexivity|].
  cbn [string_forallb] in Hr. apply andb_true_iff in Hr.
  destruct Hr as [Hc' _]. apply negb_true_iff in Hc'.
  cbn [JsString.trimStart]. rewrite Hc'. reflexivity.
Qed.

(** An accepted address has no white space: trimming does nothing to it,
    and its lower-case form is not empty and is accepted again. *)
Lemma accepted_address_normal (e : string) :
  Regex.test Signup.emailRegex e = true ->
  JsString.trim e = e
  /\ JsString.trim (JsString.toLowerCase e) = JsString.toLowerCase e
  /\ JsString.truthy (JsString.trim (JsString.toLowerCase e)) = true
  /\ Regex.test Signup.emailRegex (JsString.trim (JsString.toLowerCase e))
     = true.
Proof.
  intros Hre. apply email_shape in Hre.
  destruct Hre as (l & d1 & d2 & -> & Hl & Hd1 & Hd2).
  assert (Hns : forall a b c : string,
            address_part a -> address_part b -> address_part c ->
            string_forallb (fun c => negb (JsString.is_space c))
              (a +:+ String "@" (b +:+ String "." c)) = true).
  { intros a b c Ha Hb Hc.
    rewrite forallb_app. cbn [string_forallb].
    rewrite forallb_app. cbn [string_forallb].
    rewrite !address_part_no_space by assumption. reflexivity. }
  assert (Hlow : JsString.toLowerCase (l +:+ String "@" (d1 +:+ String "." d2))
                 = JsString.toLowerCase l
                   +:+ String "@" (JsString.toLowerCase d1
                                   +:+ String "." (JsString.toLowerCase d2))).
  { rewrite toLowerCase_app. cbn [JsString.toLowerCase].
    rewrite toLowerCase_app. reflexivity. }
  split; [apply trim_no_space, Hns; assumption|].
  rewrite Hlow.
  rewrite trim_no_space by (apply Hns; apply address_part_lower; assumption).
  split; [reflexivity|]. split.
  - destruct Hl as [Hne _]. destruct l; [contradiction|reflexivity].
  - apply email_shape.
    exists (JsString.toLowerCase l), (JsString.toLowerCase d1),
      (JsString.toLowerCase d2).
    split; [reflexivity|]. auto using address_part_lower.
Qed.

(** X21. The address test of the signup handler accepts exactly the
    strings [l@d1.d2] whose three parts are non-empty and free of white
    space and at-signs. An accepted address therefore contains no white
    space, so trimming does nothing to it and the address stored is its
    lower-case form, which is not empty and passes the test again. *)
Theorem signup_address_test (e : string) :
  (Regex.test Signup.emailRegex e = true
   <-> exists l d1 d2,
         e = l +:+ String "@" (d1 +:+ String "." d2)
         /\ address_part l /\ address_part d1 /\ address_part d2)
  /\ (Regex.test Signup.emailRegex e = true ->
      JsString.trim e = e
      /\ JsString.trim (JsString.toLowerCase e) = JsString.toLowerCase e
      /\ JsString.truthy (JsString.trim (JsString.toLowerCase e)) = true
      /\ Regex.test Signup.emailRegex (JsString.trim (JsString.toLowerCase e))
         = true).
Proof.
  split; [apply email_shape|apply accepted_address_normal].
Qed.

Lemma signup_address_test_witness :
  JsString.trim (JsString.toLowerCase "Bob@X.com") = "bob@x.com"
  /\ Regex.test Signup.emailRegex "bob@x.com" = true
  /\ Regex.test Signup.emailRegex "bob @x.com" = false.
Proof.
  destruct (signup_address_test "Bob@X.com") as (_ & Hnormal).
  destruct (Hnormal eq_refl) as (_ & _ & _ & Hagain).
  split; [reflexivity|]. split; [exact Hagain|reflexivity].
Defined.

(* ===================================================================== *)
(** ** Signup: success, and what follows it *)
(* ===================================================================== *)

Lemma clashes_false (row : User.t) (rows : list User.t) :
  clashes row rows = false ->
  forall u, In u rows ->
    User.id u <> User.id row
    /\ ~ (User.email u = User.email row /\ User.tenantId u = User.tenantId row).
Proof.
  unfold clashes. intros Hc u Hin.
  assert (Hu : (String.eqb (User.id u) (User.id row)
                || (String.eqb (User.email u) (User.email row)
                    && String.eqb (User.tenantId u) (User.tenantId row)))%bool
               = false).
  { destruct (_ || _)%bool eqn:Hb; [|reflexivity].
    assert (Hex : existsb (fun u => (String.eqb (User.id u) (User.id row)
                    || (String.eqb (User.email u) (User.email row)
                        && String.eqb (User.tenantId u) (User.tenantId row)))%bool)
                    rows = true)
      by (apply existsb_exists; eauto).
    congruence. }
  apply orb_false_iff in Hu. destruct Hu as [Hid Hpair].
  split; [apply String.eqb_neq; exact Hid|].
  intros [He Ht]. rewrite He, Ht, !String.eqb_refl in Hpair. discriminate.
Qed.

Lemma user_by_id_last (row : User.t) (rows : list User.t) :
  (forall u, In u rows -> User.id u <> User.id row) ->
  user_by_id (User.id row) (rows ++ [row]) = Some row.
Proof.
  unfold user_by_id. induction rows as [|x rows IH]; intros Hfresh.
  - cbn. rewrite String.eqb_refl. reflexivity.
  - cbn [app List.find].
    destruct (String.eqb_spec (User.id x) (User.id row)) as [Heq|_].
    + exfalso. apply (Hfresh x); [left; reflexivity|exact Heq].
    + apply IH. intros u Hin. apply Hfresh. right. exact Hin.
Qed.

Lemma user_by_email_last (email tenantId : string) (row : User.t)
    (rows : list User.t) :
  (forall u, In u rows ->
     ~ (User.email u = email /\ User.tenantId u = tenantId)) ->
  user_by_email_tenantId email tenantId (rows ++ [row])
  = if (String.eqb (User.email row) email
        && String.eqb (User.tenantId row) tenantId)%bool
    then Some row else None.
Proof.
  unfold user_by_email_tenantId. induction rows as [|x rows IH]; intros Hno.
  - cbn. destruct (_ && _)%bool; reflexivity.
  - cbn [app List.find].
    destruct (String.eqb (User.email x) email
              && String.eqb (User.tenantId x) tenantId)%bool eqn:Hb.
    + exfalso. apply andb_true_iff in Hb. destruct Hb as [He Ht].
      apply String.eqb_eq in He, Ht.
      apply (Hno x); [left; reflexivity|auto].
    + apply IH. intros u Hin. apply Hno. right. exact Hin.
Qed.

Lemma dbUser_create_fresh (tenantId email password : string)
    (name : option string) (w w' : World) (user : User.t) :
  dbUser.create tenantId email password name w = (Ok user, w') ->
  clashes user (users w) = false.
Proof.
  pose proof (dbUser_create_run tenantId email password name w) as Hrun.
  cbn zeta in Hrun. rewrite Hrun.
  destruct (negb (next_ok w)); [discriminate|].
  destruct (clashes _ _) eqn:Hc; [discriminate|].
  intros Heq. injection Heq as <- _. exact Hc.
Qed.

Section SignupSuccess.
Context `{Password}.

(** A 201, with everything the later steps need. *)
Lemma signup_created_full (request : NextRequest) (w w' : World)
    (resp : NextResponse) :
  Signup.POST request w = (Ok resp, w') ->
  status resp = 201 ->
  exists tenant w1 email password name user,
    getTenantFromRequest request w = (Ok (Some tenant), w1)
    /\ json request = Some (Body.mk (Some email) (Some password) name)
    /\ JsString.truthy email = true
    /\ JsString.truthy password = true
    /\ Regex.test Signup.emailRegex email = true
    /\ (forall u, In u (users w) ->
          ~ (User.email u = email /\ User.tenantId u = Tenant.id tenant))
    /\ clashes user (users w) = false
    /\ User.email user = normalized email
    /\ User.password user = hashPassword password
    /\ User.tenantId user = Tenant.id tenant
    /\ users w' = (users w ++ [user])%list
    /\ tenants w' = tenants w
    /\ resp = r201 user.
Proof.
  rewrite signup_run.
  pose proof (getTenantFromRequest_frame request w) as [_ Hobs].
  destruct (getTenantFromRequest request w) as [[[tenant|]|e] w1] eqn:Ht;
    cbn [snd] in Hobs;
    try (intros Heq Hst; injection Heq as <- <-; discriminate Hst).
  destruct (json request) as [body|] eqn:Hjson;
    try (intros Heq Hst; injection Heq as <- <-; discriminate Hst).
  cbn zeta.
  destruct (_ || _)%bool eqn:Hreq;
    try (intros Heq Hst; injection Heq as <- <-; discriminate Hst).
  apply required_fields in Hreq.
  destruct Hreq as (email & password & Hbody & He & Hp).
  rewrite Hbody.
  cbn [Body.email Body.password Body.name default from_option id].
  destruct (Regex.test Signup.emailRegex email) eqn:Hre; cbn [negb];
    try (intros Heq Hst; injection Heq as <- <-; discriminate Hst).
  destruct (_ <? 6)%nat;
    try (intros Heq Hst; injection Heq as <- <-; discriminate Hst).
  pose proof (dbUser_findByEmail_frame (Tenant.id tenant) email w1) as Hfr.
  destruct (dbUser.findByEmail _ _ w1) as [[[existing|]|e] w2] eqn:Hfind;
    cbn [snd] in Hfr;
    try (intros Heq Hst; injection Heq as <- <-; discriminate Hst).
  destruct (dbUser.create _ _ _ _ w2) as [[user|e] w3] eqn:Hcreate;
    try (intros Heq Hst; injection Heq as <- <-; discriminate Hst).
  destruct (createSession _ _ w3) as [[token|e] w4] eqn:Hsess;
    try (intros Heq Hst; injection Heq as <- <-; discriminate Hst).
  intros Heq _. injection Heq as <- <-.
  apply dbUser_findByEmail_inv in Hfind. destruct Hfind as [Hnone _].
  pose proof (dbUser_create_fresh _ _ _ _ _ _ _ Hcreate) as Hfresh.
  apply dbUser_create_inv in Hcreate.
  destruct Hcreate as (Huser & Hu3 & _ & Ht3).
  apply createSession_inv in Hsess.
  destruct Hsess as (_ & _ & _ & Hu4 & Ht4 & _).
  assert (Hus : users w2 = users w)
    by (rewrite (observable_users _ _ Hfr); exact (observable_users _ _ Hobs)).
  assert (Hts : tenants w2 = tenants w).
  { unfold observable in Hfr, Hobs.
    injection Hfr as Hfr _ _ _. injection Hobs as Hobs _ _ _. congruence. }
  rewrite (observable_users _ _ Hobs) in Hnone.
  rewrite Hus in Hfresh, Hu3.
  exists tenant, w1, email, password, (Body.name body), user.
  split; [reflexivity|]. split; [congruence|]. split; [exact He|].
  split; [exact Hp|]. split; [exact Hre|]. split.
  { intros u Hin [Hue Hut]. symmetry in Hnone.
    apply (List.find_none _ _ Hnone) in Hin.
    rewrite Hue, Hut, !String.eqb_refl in Hin. discriminate. }
  split; [exact Hfresh|].
  rewrite Huser at 1 2 3. cbn [new_user User.email User.password User.tenantId].
  repeat split; congruence.
Qed.

End SignupSuccess.

(** A tenant that was resolved once is resolved again by any request with
    the same header, in any world with the same tenants and a healthy
    store. *)
Lemma getTenantFromRequest_again (request request' : NextRequest)
    (w w1 w' : World) (tenant : Tenant.t) :
  getTenantFromRequest request w = (Ok (Some tenant), w1) ->
  faults w' = [] -> tenants w' = tenants w ->
  x_tenant_subdomain request' = x_tenant_subdomain request ->
  getTenantFromRequest request' w' = (Ok (Some tenant), w').
Proof.
  intros Hrun Hf Ht Hh. rewrite !getTenantFromRequest_run, Hh in *.
  destruct (x_tenant_subdomain request) as [s|]; [|discriminate].
  destruct (JsString.truthy s); [|discriminate].
  rewrite getTenantBySubdomain_run in Hrun |- *.
  rewrite (healthy_ok _ Hf), (healthy_pop _ Hf), Ht.
  destruct (next_ok w); [|discriminate].
  injection Hrun as -> _. reflexivity.
Qed.

Section SignupFollowUp.
Context `{Password}.

(** X22. Signup succeeds, and logs in. With a healthy store, the tenant
    resolved, an accepted address, a password of six characters or more,
    nobody of the tenant under the submitted address, a row that breaks
    no unique key (a fresh id, and nobody of the tenant under the
    lower-cased address) and a free token: the answer is 201 for exactly
    that row, the row is appended to the users, a session row is stored
    under the drawn token, and at every time up to the expiry of that row
    (the date [setDate(getDate() + 30)] reached in the zone of the host)
    [getAuthenticatedUser] on the request returns the new user. Users of
    other tenants under the same address are no obstacle. *)
Theorem signup_then_authenticated (request : NextRequest) (w : World)
    (tenant : Tenant.t) (email password : string) (name : option string) :
  let user := new_user (Tenant.id tenant) (normalized email)
                (hashPassword password) (Signup.trimmed_name name) w in
  faults w = [] ->
  getTenantFromRequest request w = (Ok (Some tenant), w) ->
  json request = Some (Body.mk (Some email) (Some password) name) ->
  Regex.test Signup.emailRegex email = true ->
  (6 <= String.length password)%nat ->
  user_by_email_tenantId email (Tenant.id tenant) (users w) = None ->
  clashes user (users w) = false ->
  sessions w !! next_token (set_rpos (rpos w + 16)%nat w) = None ->
  exists w' row,
    Signup.POST request w = (Ok (r201 user), w')
    /\ users w' = (users w ++ [user])%list
    /\ sessions w' !! next_token (set_rpos (rpos w + 16)%nat w) = Some row
    /\ Session.expiresAt row
       = plus_days (LocalTZA w) SESSION_EXPIRATION_DAYS (now w)
    /\ forall date,
         date <= Session.expiresAt row ->
         getAuthenticatedUser request (set_now date w')
         = (Ok (Some (selected user)), set_now date w').
Proof.
  intros user Hf Ht Hjson Hre Hlen Hnone Hclash Hfresh.
  assert (He : JsString.truthy email = true)
    by (destruct email; [discriminate Hre|reflexivity]).
  assert (Hp : JsString.truthy password = true)
    by (destruct password; [cbn in Hlen; lia|reflexivity]).
  rewrite signup_run, Ht, Hjson. cbn zeta.
  cbn [Body.email Body.password Body.name JsString.truthy_opt default
       from_option id].
  rewrite He, Hp, Hre. cbn [negb orb].
  destruct (Nat.ltb_spec (String.length password) 6); [lia|].
  rewrite dbUser_findByEmail_run, (healthy_ok _ Hf), (healthy_pop _ Hf).
  cbn [negb]. rewrite Hnone.
  pose proof (dbUser_create_run (Tenant.id tenant) (normalized email)
                (hashPassword password) (Signup.trimmed_name name) w) as Hcr.
  cbn zeta in Hcr.
  rewrite (healthy_ok _ Hf), (healthy_pop _ Hf) in Hcr. cbn [negb] in Hcr.
  fold user in Hcr. rewrite Hclash in Hcr. rewrite Hcr.
  set (w3 := set_users (users w ++ [user]) (set_rpos (rpos w + 16)%nat w)).
  assert (Hf3 : faults w3 = []) by exact Hf.
  pose proof (createSession_run (User.id user) (Tenant.id tenant) w3) as Hrun.
  cbn zeta in Hrun. rewrite (healthy_ok _ Hf3) in Hrun.
  change (sessions w3 !! next_token w3)
    with (sessions w !! next_token (set_rpos (rpos w + 16)%nat w)) in Hrun.
  rewrite Hfresh in Hrun. cbn [negb] in Hrun.
  rewrite (healthy_pop (set_rpos (rpos w3 + 32)%nat w3) Hf) in Hrun.
  rewrite Hrun.
  set (row := Session.mk (User.id user) (Tenant.id tenant) (next_token w3)
                (plus_days (LocalTZA w3) SESSION_EXPIRATION_DAYS (now w3))).
  eexists. exists row. split; [reflexivity|]. split; [reflexivity|].
  split; [cbn [sessions set_cookie set_sessions]; apply lookup_insert_eq|].
  split; [reflexivity|].
  intros date Hdate.
  set (w' := set_now date _).
  unfold getAuthenticatedUser, bind.
  rewrite (getTenantFromRequest_healthy request w w' (Some tenant) Hf Hf
             eq_refl Ht).
  rewrite (getSessionUser_accepts (Tenant.id tenant) (next_token w3) row user w');
    try reflexivity; try assumption.
  - apply lookup_insert_eq.
  - apply user_by_id_last. intros u Hin.
    apply (clashes_false user (users w) Hclash u Hin).
Qed.

(** X23. Signup, then login. After a signup answered with 201, in a world
    with a healthy store and for a password capability that verifies what
    it hashed: a login at the same tenant with the stored address (the
    submitted one, lower-cased) and the same password is answered with
    200 for the new user, provided the token drawn is free; a login with
    the address as it was submitted, when that differs from the stored
    one, is turned down with 401, because the lookup takes the address as
    typed. *)
Theorem signup_then_login (request login : NextRequest) (w w' : World)
    (resp : NextResponse) :
  (forall p, comparePassword p (hashPassword p) = true) ->
  Signup.POST request w = (Ok resp, w') ->
  status resp = 201 ->
  faults w' = [] ->
  x_tenant_subdomain login = x_tenant_subdomain request ->
  exists email password name user,
    json request = Some (Body.mk (Some email) (Some password) name)
    /\ resp = r201 user
    /\ User.email user = JsString.toLowerCase email
    /\ (forall n,
          json login = Some (Body.mk (Some (User.email user)) (Some password) n) ->
          sessions w' !! next_token w' = None ->
          fst (Login.POST login w')
          = Ok (mkResponse
                  (JsonLogin (PublicUser.mk (User.id user) (User.email user)
                                            (User.name user)))
                  200))
    /\ (forall n,
          json login = Some (Body.mk (Some email) (Some password) n) ->
          email <> User.email user ->
          fst (Login.POST login w') = Ok invalid_credentials).
Proof.
  intros Hlaw Hrun Hst Hf Hh.
  destruct (signup_created_full _ _ _ _ Hrun Hst)
    as (tenant & w1 & email & password & name & user & Ht & Hjson & He & Hp
        & Hre & Hraw & Hclash & Hue & Hup & Hut & Hus & Hts & ->).
  destruct (accepted_address_normal email Hre) as (_ & Hnorm & Htruthy & _).
  pose proof (getTenantFromRequest_again request login w w1 w' tenant
                Ht Hf Hts Hh) as Ht'.
  exists email, password, name, user.
  split; [exact Hjson|]. split; [reflexivity|].
  split; [rewrite Hue; exact Hnorm|]. split.
  - intros n Hbody Hfresh. rewrite login_run, Ht', Hbody.
    cbn [Body.email Body.password JsString.truthy_opt default from_option id].
    rewrite Hue. fold (normalized email) in Htruthy. rewrite Htruthy, Hp.
    cbn [negb orb].
    rewrite dbUser_findByEmail_run, (healthy_ok _ Hf), (healthy_pop _ Hf).
    cbn [negb]. rewrite Hus.
    rewrite (user_by_email_last (normalized email) (Tenant.id tenant) user).
    2:{ intros u Hin.
        destruct (clashes_false user (users w) Hclash u Hin) as [_ Hpair].
        rewrite Hue, Hut in Hpair. exact Hpair. }
    rewrite Hue, Hut, !String.eqb_refl. cbn [andb].
    rewrite Hup, Hlaw. cbn [negb].
    pose proof (createSession_run (User.id user) (Tenant.id tenant) w') as Hcs.
    cbn zeta in Hcs. rewrite (healthy_ok _ Hf), Hfresh in Hcs.
    cbn [negb] in Hcs. rewrite Hcs. rewrite <- Hue. reflexivity.
  - intros n Hbody Hne. rewrite login_run, Ht', Hbody.
    cbn [Body.email Body.password JsString.truthy_opt default from_option id].
    rewrite He, Hp. cbn [negb orb].
    rewrite dbUser_findByEmail_run, (healthy_ok _ Hf), (healthy_pop _ Hf).
    cbn [negb]. rewrite Hus.
    rewrite (user_by_email_last email (Tenant.id tenant) user) by exact Hraw.
    replace (String.eqb (User.email user) email) with false; [reflexivity|].
    symmetry. apply String.eqb_neq. congruence.
Qed.

(** X24. Two signups in a row that are both answered with 201 have
    appended two rows to the users, in that order, with different ids,
    and not with the same address under the same tenant: the same
    address can only have been registered under two tenants. *)
Theorem signups_make_distinct_users (request1 request2 : NextRequest)
    (w w' w'' : World) (resp1 resp2 : NextResponse) :
  Signup.POST request1 w = (Ok resp1, w') ->
  status resp1 = 201 ->
  Signup.POST request2 w' = (Ok resp2, w'') ->
  status resp2 = 201 ->
  exists u1 u2,
    resp1 = r201 u1 /\ resp2 = r201 u2
    /\ users w'' = (users w ++ [u1; u2])%list
    /\ User.id u1 <> User.id u2
    /\ ~ (User.email u1 = User.email u2 /\ User.tenantId u1 = User.tenantId u2).
Proof.
  intros Hrun1 Hst1 Hrun2 Hst2.
  destruct (signup_created_full _ _ _ _ Hrun1 Hst1)
    as (t1 & _ & e1 & p1 & n1 & u1 & _ & _ & _ & _ & _ & _ & _ & _ & _ & _
        & Hus1 & _ & ->).
  destruct (signup_created_full _ _ _ _ Hrun2 Hst2)
    as (t2 & _ & e2 & p2 & n2 & u2 & _ & _ & _ & _ & _ & _ & Hclash & _ & _ & _
        & Hus2 & _ & ->).
  exists u1, u2. split; [reflexivity|]. split; [reflexivity|].
  split; [rewrite Hus2, Hus1, <- app_assoc; reflexivity|].
  rewrite Hus1 in Hclash.
  apply (clashes_false u2 (users w ++ [u1]) Hclash u1).
  apply in_or_app. right. left. reflexivity.
Qed.

End SignupFollowUp.

Lemma signup_then_authenticated_witness :
  exists user w',
    Signup.POST (H := Sample.bcrypt) Scenario.signup_alice_other Scenario.world
    = (Ok (r201 user), w')
    /\ User.email user = "alice@x.com"
    /\ User.tenantId user = "t-other"
    /\ users w' = [Sample.alice; Scenario.bob; user]
    /\ getAuthenticatedUser Scenario.signup_alice_other w'
       = (Ok (Some (selected user)), w').
Proof.
  destruct (signup_then_authenticated (H := Sample.bcrypt)
              Scenario.signup_alice_other Scenario.world Sample.other
              "alice@x.com" "hunter22" None)
    as (w' & row & Hrun & Husers & _ & Hexp & Hauth); try reflexivity.
  { cbn. lia. }
  eexists _, w'. split; [exact Hrun|]. split; [reflexivity|].
  split; [reflexivity|]. split; [exact Husers|].
  assert (Hw : w' = snd (Signup.POST (H := Sample.bcrypt)
                           Scenario.signup_alice_other Scenario.world))
    by (rewrite Hrun; reflexivity).
  assert (Hnow : set_now 1000 w' = w') by (rewrite Hw; reflexivity).
  rewrite <- Hnow. apply Hauth. rewrite Hexp. vm_compute. discriminate.
Defined.

Lemma signup_then_login_witness :
  exists w' user,
    Signup.POST (H := Sample.bcrypt) Sample.signup_new Scenario.world
    = (Ok (r201 user), w')
    /\ User.email user = "bob@x.com"
    /\ fst (Login.POST (H := Sample.bcrypt) Scenario.login_bob_lower w')
       = Ok (mkResponse
               (JsonLogin (PublicUser.mk (User.id user) (User.email user)
                                         (User.name user)))
               200)
    /\ fst (Login.POST (H := Sample.bcrypt) Sample.signup_new w')
       = Ok invalid_credentials.
Proof.
  destruct (Signup.POST (H := Sample.bcrypt) Sample.signup_new Scenario.world)
    as [[resp|e] w1] eqn:Hrun; [|vm_compute in Hrun; discriminate Hrun].
  assert (Hst : status resp = 201 /\ faults w1 = []).
  { pose proof Hrun as Hc. vm_compute in Hc. injection Hc as <- <-.
    split; reflexivity. }
  destruct Hst as [Hst Hf].
  assert (Hfresh : sessions w1 !! next_token w1 = None).
  { pose proof Hrun as Hc. vm_compute in Hc. injection Hc as _ <-.
    vm_compute. reflexivity. }
  assert (Hlaw : forall p, @comparePassword Sample.bcrypt p
                             (@hashPassword Sample.bcrypt p) = true)
    by (intros p; apply String.eqb_refl).
  destruct (signup_then_login (H := Sample.bcrypt) Sample.signup_new
              Scenario.login_bob_lower Scenario.world w1 resp
              Hlaw Hrun Hst Hf eq_refl)
    as (email & password & name & user & Hjson & Hresp & Hue & Hgood & _).
  destruct (signup_then_login (H := Sample.bcrypt) Sample.signup_new
              Sample.signup_new Scenario.world w1 resp
              Hlaw Hrun Hst Hf eq_refl)
    as (email' & password' & name' & user' & Hjson' & _ & Hue' & _ & Hbad).
  injection Hjson as <- <- <-. injection Hjson' as <- <- <-.
  exists w1, user. rewrite <- Hresp.
  split; [reflexivity|]. split; [exact Hue|]. split.
  - apply (Hgood None); [rewrite Hue; reflexivity|exact Hfresh].
  - apply (Hbad (Some " Bob ")); [reflexivity|].
    rewrite Hue'. discriminate.
Defined.

Lemma signups_make_distinct_users_witness :
  exists u1 u2 w'',
    fst (Signup.POST (H := Sample.bcrypt) Sample.signup_new Scenario.world)
    = Ok (r201 u1)
    /\ Signup.POST (H := Sample.bcrypt) Scenario.signup_bob_other
         (snd (Signup.POST (H := Sample.bcrypt) Sample.signup_new
                 Scenario.world))
       = (Ok (r201 u2), w'')
    /\ users w'' = [Sample.alice; Scenario.bob; u1; u2]
    /\ User.id u1 <> User.id u2.
Proof.
  destruct (Signup.POST (H := Sample.bcrypt) Sample.signup_new Scenario.world)
    as [[resp1|e] w1] eqn:Hrun1; [|vm_compute in Hrun1; discriminate Hrun1].
  cbn [fst snd].
  destruct (Signup.POST (H := Sample.bcrypt) Scenario.signup_bob_other w1)
    as [[resp2|e] w2] eqn:Hrun2.
  2:{ pose proof Hrun1 as Hc. vm_compute in Hc. injection Hc as _ <-.
      vm_compute in Hrun2. discriminate Hrun2. }
  assert (Hst1 : status resp1 = 201).
  { pose proof Hrun1 as Hc. vm_compute in Hc. injection Hc as <- _.
    reflexivity. }
  assert (Hst2 : status resp2 = 201).
  { pose proof Hrun1 as Hc. vm_compute in Hc. injection Hc as _ <-.
    pose proof Hrun2 as Hc. vm_compute in Hc. injection Hc as <- _.
    reflexivity. }
  destruct (signups_make_distinct_users (H := Sample.bcrypt) _ _ _ _ _ _ _
              Hrun1 Hst1 Hrun2 Hst2)
    as (u1 & u2 & -> & -> & Husers & Hids & _).
  exists u1, u2, w2. auto.
Defined.

(* ===================================================================== *)
(** ** The gate against a session of another tenant *)
(* ===================================================================== *)

(** X25. A session presented at the wrong tenant. When the request
    resolves to a tenant (with a non-empty id) and the cookie names a
    session stamped with another tenant, [getAuthenticatedUser] returns
    [null], whether or not the session has expired and whatever the state
    of the store, and it does so on the answer of [getSession] alone: no
    user row is loaded. *)
Theorem gate_rejects_foreign_session (request : NextRequest) (w w1 : World)
    (tenant : Tenant.t) (token : string) (s : Session.t) :
  getTenantFromRequest request w = (Ok (Some tenant), w1) ->
  JsString.truthy (Tenant.id tenant) = true ->
  cookie w = Some token ->
  sessions w !! token = Some s ->
  Session.tenantId s <> Tenant.id tenant ->
  getAuthenticatedUser request w
  = (Ok None, snd (getSession (Some (Tenant.id tenant)) w1)).
Proof.
  intros Ht Htruthy Hcookie Hrow Hne.
  pose proof (resolved_users _ _ _ _ Ht) as Hobs.
  assert (Hc1 : cookie w1 = Some token).
  { unfold observable in Hobs. injection Hobs as _ _ _ ->. exact Hcookie. }
  assert (Hs1 : sessions w1 !! token = Some s)
    by (rewrite (observable_sessions _ _ Hobs); exact Hrow).
  assert (Hnull : fst (getSession (Some (Tenant.id tenant)) w1) = Ok None).
  { rewrite getSession_run, Hc1, Hs1,
      (tenant_mismatch_true _ _ Htruthy Hne).
    destruct (negb (JsString.truthy token)); [reflexivity|].
    destruct (negb (next_ok w1)); [reflexivity|].
    destruct (Session.expiresAt s <? now w1); reflexivity. }
  unfold getAuthenticatedUser, bind. rewrite Ht.
  unfold getSessionUser, bind.
  destruct (getSession (Some (Tenant.id tenant)) w1) as [r w2].
  cbn [fst snd] in Hnull |- *. rewrite Hnull. reflexivity.
Qed.

Lemma gate_rejects_foreign_session_witness :
  fst (getAuthenticatedUser Scenario.signup_alice_other Scenario.world)
  = Ok None
  /\ fst (getAuthenticatedUser Sample.request Scenario.world)
     = Ok (Some (selected Sample.alice)).
Proof.
  split; [|vm_compute; reflexivity].
  rewrite (gate_rejects_foreign_session Scenario.signup_alice_other
             Scenario.world Scenario.world Sample.other "aa01"
             Scenario.live_alice); try reflexivity.
  discriminate.
Defined.
